(** * Newszoid backend: the news aggregation pipeline

    A shallow embedding of [controllers/newsController.js] (fetch with retry,
    provider adapters, merge / deduplicate / sort / slice, cache, fallback
    substitution, the summary endpoint), of the request validation in
    [routes/news.js], of the summarizer of [utils/gemini.js] and of the
    static tables of [utils/hardcodedData.js], followed by the properties of
    the specification that concern them and by further properties of the
    same code.

    Conventions of the embedding
    - JavaScript strings are [string]s of bytes; [toLowerCase], [trim],
      [substring] and [length] act on ASCII and leave other bytes alone.
    - JavaScript numbers that occur here are integers or [NaN]: [num] is
      [option Z] with [None] for [NaN].
    - A JSON payload is a [jsval]; object and array values are compared by
      reference in JavaScript and every node of a parsed payload is a fresh
      reference.
    - A thrown exception is the [Throw] case of [result]; [try]/[catch] is
      [try_catch].
    - What is outside the process (clock, random numbers, providers, the
      summarizer) is a [world] handed to each request; what the process
      keeps between requests (the cache, the arrays of the fallback table)
      is a [state] that the handlers take and give back. *)

From Stdlib Require Import ZArith String Ascii List Lia DecimalString Permutation.
From Stdlib Require DecimalPos DecimalZ.
From stdpp Require Import base option list strings gmap.

#[local] Set Warnings "-register-all".
Local Open Scope string_scope.
Local Open Scope Z_scope.

(** ** JavaScript values and exceptions *)

Inductive jsval : Type :=
| JUndefined
| JNull
| JBool (b : bool)
| JNum (z : Z)
| JStr (s : string)
| JArr (items : list jsval)
| JObj (fields : list (string * jsval)).

Definition js_error : Type := string.

Inductive result (A : Type) : Type :=
| Ret (a : A)
| Throw (e : js_error).
Arguments Ret {A} a.
Arguments Throw {A} e.

Definition rbind {A B} (m : result A) (k : A -> result B) : result B :=
  match m with
  | Ret a => k a
  | Throw e => Throw e
  end.

Declare Scope js_scope.
Delimit Scope js_scope with js.
Notation "x <- m ;;; k" := (rbind m (fun x => k))
  (at level 100, m at next level, right associativity) : js_scope.

(** [try { body } catch (error) { handler }] *)
Definition try_catch {A} (body : result A) (handler : js_error -> A) : A :=
  match body with
  | Ret a => a
  | Throw e => handler e
  end.

(** ToBoolean *)
Definition truthy (v : jsval) : bool :=
  match v with
  | JUndefined | JNull => false
  | JBool b => b
  | JNum z => negb (z =? 0)
  | JStr s => negb (String.eqb s "")
  | JArr _ | JObj _ => true
  end.

(** [a || b] when [b] cannot throw *)
Definition js_or (a b : jsval) : jsval := if truthy a then a else b.

(** [a || b] with a lazily evaluated, possibly throwing right operand *)
Definition js_or_else (a : jsval) (b : result jsval) : result jsval :=
  if truthy a then Ret a else b.

Fixpoint assoc {A} (k : string) (l : list (string * A)) : option A :=
  match l with
  | [] => None
  | (k', v) :: t => if String.eqb k k' then Some v else assoc k t
  end.

(** [v.name] for the property names this module reads: none of them is
    inherited by a string, number, boolean or array, so only objects carry
    them; reading a property of [null] or [undefined] throws. *)
Definition get_prop (v : jsval) (name : string) : result jsval :=
  match v with
  | JUndefined | JNull =>
      Throw ("TypeError: Cannot read properties of null or undefined (reading '" ++ name ++ "')")
  | JObj fields => Ret (default JUndefined (assoc name fields))
  | _ => Ret JUndefined
  end.

(** [v?.name] *)
Definition opt_chain (v : jsval) (name : string) : jsval :=
  match v with
  | JObj fields => default JUndefined (assoc name fields)
  | _ => JUndefined
  end.

(** [v?.substring(0, n)]: [undefined] on a nullish receiver, the prefix of a
    string, and a [TypeError] on any other value, which has no callable
    [substring]. *)
Definition opt_substring (v : jsval) (n : nat) : result jsval :=
  match v with
  | JUndefined | JNull => Ret JUndefined
  | JStr s => Ret (JStr (String.substring 0 n s))
  | _ => Throw "TypeError: substring is not a function"
  end.

(** SameValueZero, the comparison of [Set.prototype.has].  Two object or
    array values taken from different places of a parsed payload are
    different references. *)
Definition same_value_zero (a b : jsval) : bool :=
  match a, b with
  | JUndefined, JUndefined => true
  | JNull, JNull => true
  | JBool x, JBool y => Bool.eqb x y
  | JNum x, JNum y => x =? y
  | JStr x, JStr y => String.eqb x y
  | _, _ => false
  end.

(** ** Numbers and strings *)

Definition num : Type := option Z.

Definition Math_max (a : Z) (n : num) : num := Z.max a <$> n.
Definition Math_min (a : Z) (n : num) : num := Z.min a <$> n.

Definition string_of_Z (z : Z) : string := NilZero.string_of_int (Z.to_int z).

(** a number inside a template literal *)
Definition num_to_string (n : num) : string :=
  match n with
  | Some z => string_of_Z z
  | None => "NaN"
  end.

Definition is_digit (c : ascii) : bool :=
  ((48 <=? nat_of_ascii c) && (nat_of_ascii c <=? 57))%nat.

Definition digit_value (c : ascii) : Z := Z.of_nat (nat_of_ascii c) - 48.

Definition is_space (c : ascii) : bool :=
  let n := nat_of_ascii c in
  ((n =? 32) || ((9 <=? n) && (n <=? 13)))%nat.

Fixpoint trimStart (s : string) : string :=
  match s with
  | String c t => if is_space c then trimStart t else s
  | EmptyString => EmptyString
  end.

Fixpoint trimEnd (s : string) : string :=
  match s with
  | String c t =>
      match trimEnd t with
      | EmptyString => if is_space c then EmptyString else String c EmptyString
      | t' => String c t'
      end
  | EmptyString => EmptyString
  end.

Definition trim (s : string) : string := trimEnd (trimStart s).

Definition lower_ascii (c : ascii) : ascii :=
  let n := nat_of_ascii c in
  if ((65 <=? n) && (n <=? 90))%nat then ascii_of_nat (n + 32) else c.

Fixpoint toLowerCase (s : string) : string :=
  match s with
  | String c t => String (lower_ascii c) (toLowerCase t)
  | EmptyString => EmptyString
  end.

Fixpoint includes (hay needle : string) : bool :=
  String.prefix needle hay ||
  match hay with
  | String _ t => includes t needle
  | EmptyString => false
  end.

Fixpoint read_digits (s : string) (acc : num) : num :=
  match s with
  | String c t =>
      if is_digit c then read_digits t (Some (10 * default 0 acc + digit_value c))
      else acc
  | EmptyString => acc
  end.

(** [parseInt(s, 10)] *)
Definition parseInt (s : string) : num :=
  match trimStart s with
  | String "-" t => Z.opp <$> read_digits t None
  | String "+" t => read_digits t None
  | t => read_digits t None
  end.

Definition hex_digit (n : nat) : ascii :=
  if (n <? 10)%nat then ascii_of_nat (48 + n) else ascii_of_nat (55 + n).

Definition uri_unreserved (c : ascii) : bool :=
  let n := nat_of_ascii c in
  (((48 <=? n) && (n <=? 57)) || ((65 <=? n) && (n <=? 90)) || ((97 <=? n) && (n <=? 122))
   || existsb (Nat.eqb n) [45; 95; 46; 33; 126; 42; 39; 40; 41])%nat.

Fixpoint encodeURIComponent (s : string) : string :=
  match s with
  | String c t =>
      if uri_unreserved c then String c (encodeURIComponent t)
      else
        let n := nat_of_ascii c in
        String "%" (String (hex_digit (n / 16)) (String (hex_digit (n mod 16)) (encodeURIComponent t)))
  | EmptyString => EmptyString
  end.

(** [x || d] on an optional query-string parameter *)
Definition param_or (x : option string) (d : string) : string :=
  match x with
  | Some s => if String.eqb s "" then d else s
  | None => d
  end.

(** ** Normalized articles and the provider adapters *)

Module Article.
Record t : Type := mk {
  id : jsval;
  title : jsval;
  snippet : jsval;
  url : jsval;
  image : jsval;
  publishedAt : jsval;
  source : jsval;
  category : jsval;
  aiSummary : jsval
}.
End Article.

(** What one call of [normalizeArticle] reads from the clock and from the
    random number generator: [Date.now()], the text of [Math.random()] and
    [new Date().toISOString()]. *)
Record entropy : Type := {
  Date_now : Z;
  Math_random : string;
  now_iso : string
}.

Definition placeholder_image : jsval := JStr "https://via.placeholder.com/600x400?text=News".

Definition generated_id (prefix : string) (e : entropy) : jsval :=
  JStr (prefix ++ "_" ++ string_of_Z (Date_now e) ++ "_" ++ Math_random e).

(** the body of the [try] block of [normalizeArticle] *)
Definition normalize_switch (source : string) (e : entropy) (raw : jsval) : result Article.t :=
  (if String.eqb source "gnews" then
     r_url <- get_prop raw "url" ;;;
     r_title <- get_prop raw "title" ;;;
     r_description <- get_prop raw "description" ;;;
     r_content <- get_prop raw "content" ;;;
     r_image <- get_prop raw "image" ;;;
     r_publishedAt <- get_prop raw "publishedAt" ;;;
     r_source <- get_prop raw "source" ;;;
     r_category <- get_prop raw "category" ;;;
     Ret {| Article.id := js_or r_url (generated_id "gnews" e);
            Article.title := js_or r_title (JStr "Untitled");
            Article.snippet := js_or (js_or r_description r_content) (JStr "");
            Article.url := js_or r_url (JStr "#");
            Article.image := js_or r_image placeholder_image;
            Article.publishedAt := js_or r_publishedAt (JStr (now_iso e));
            Article.source := js_or (opt_chain r_source "name") (JStr "GNews");
            Article.category := js_or r_category (JStr "general");
            Article.aiSummary := JNull |}
   else if String.eqb source "guardian" then
     r_id <- get_prop raw "id" ;;;
     r_webTitle <- get_prop raw "webTitle" ;;;
     r_fields <- get_prop raw "fields" ;;;
     body <- js_or_else (opt_chain r_fields "trailText")
               (opt_substring (opt_chain r_fields "bodyText") 200) ;;;
     r_webUrl <- get_prop raw "webUrl" ;;;
     r_webPublicationDate <- get_prop raw "webPublicationDate" ;;;
     r_sectionName <- get_prop raw "sectionName" ;;;
     Ret {| Article.id := js_or r_id (generated_id "guardian" e);
            Article.title := js_or r_webTitle (JStr "Untitled");
            Article.snippet := js_or body (JStr "");
            Article.url := js_or r_webUrl (JStr "#");
            Article.image := js_or (opt_chain r_fields "thumbnail") placeholder_image;
            Article.publishedAt := js_or r_webPublicationDate (JStr (now_iso e));
            Article.source := JStr "The Guardian";
            Article.category := js_or r_sectionName (JStr "general");
            Article.aiSummary := JNull |}
   else
     r_url <- get_prop raw "url" ;;;
     r_id <- get_prop raw "id" ;;;
     r_title <- get_prop raw "title" ;;;
     r_description <- get_prop raw "description" ;;;
     r_snippet <- get_prop raw "snippet" ;;;
     r_image <- get_prop raw "image" ;;;
     r_publishedAt <- get_prop raw "publishedAt" ;;;
     r_source <- get_prop raw "source" ;;;
     r_category <- get_prop raw "category" ;;;
     Ret {| Article.id := js_or (js_or r_url r_id) (generated_id "news" e);
            Article.title := js_or r_title (JStr "Untitled");
            Article.snippet := js_or (js_or r_description r_snippet) (JStr "");
            Article.url := js_or r_url (JStr "#");
            Article.image := js_or r_image placeholder_image;
            Article.publishedAt := js_or r_publishedAt (JStr (now_iso e));
            Article.source := js_or r_source (JStr "Newszoid");
            Article.category := js_or r_category (JStr "general");
            Article.aiSummary := JNull |})%js.

(** [normalizeArticle(source, raw)]: the article, or [null] ([None]) when
    the [catch] clause ran.  The result type keeps the possibility of an
    escaping exception so that its absence is a theorem. *)
Definition normalizeArticle (source : string) (e : entropy) (raw : jsval)
  : result (option Article.t) :=
  try_catch
    (a <- normalize_switch source e raw ;;; Ret (Ret (Some a)))%js
    (fun _error => Ret None).

(** [items.map(a => normalizeArticle(source, a)).filter(Boolean)]; the
    [n]-th item is normalized with the readings [ent n].  An exception
    escaping one call would abort the whole batch. *)
Fixpoint normalize_batch (source : string) (ent : nat -> entropy) (n : nat)
    (items : list jsval) : result (list Article.t) :=
  match items with
  | [] => Ret []
  | raw :: rest =>
      (o <- normalizeArticle source (ent n) raw ;;;
       tl <- normalize_batch source ent (S n) rest ;;;
       Ret (match o with Some a => a :: tl | None => tl end))%js
  end.

(** ** Fetch with timeout and retry *)

Record fetch_options : Type := {
  opt_method : option string;
  opt_headers : option jsval;
  opt_body : jsval
}.

(** [options = {}] *)
Definition no_options : fetch_options :=
  {| opt_method := None; opt_headers := None; opt_body := JUndefined |}.

Record axios_config : Type := {
  ax_url : string;
  ax_method : string;
  ax_headers : jsval;
  ax_data : jsval;
  ax_timeout : Z;
  ax_responseType : string
}.

Inductive axios_outcome : Type :=
| Resolved (data : jsval)      (* [response.data] of a 2xx answer *)
| Rejected (error : js_error). (* network error, timeout or non-2xx status *)

(** What the process does towards the outside while it serves a request. *)
Inductive io_event : Type :=
| Axios (config : axios_config)
| Sleep (ms : Z).

(** The upstream services: the outcome of the [i]-th call made with a given
    configuration inside one [fetchWithRetry]. *)
Definition network : Type := axios_config -> nat -> axios_outcome.

Definition axios_request (url : string) (options : fetch_options) : axios_config :=
  {| ax_url := url;
     ax_method := param_or (opt_method options) "GET";
     ax_headers := default (JObj []) (opt_headers options);
     ax_data := opt_body options;
     ax_timeout := 8000;
     ax_responseType := "json" |}.

(** The loop [for (let i = 0; i <= retries; i++)], with [left] iterations
    to go; falling off the end of the loop returns [undefined]. *)
Fixpoint fetch_loop (net : network) (config : axios_config) (retries i left : nat)
  : result jsval * list io_event :=
  match left with
  | O => (Ret JUndefined, [])
  | S left' =>
      match net config i with
      | Resolved data => (Ret data, [Axios config])
      | Rejected error =>
          if (i =? retries)%nat then (Throw error, [Axios config])
          else
            let '(r, log) := fetch_loop net config retries (S i) left' in
            (r, Axios config :: Sleep (1000 * (Z.of_nat i + 1)) :: log)
      end
  end.

Definition fetchWithRetry (net : network) (url : string) (options : fetch_options)
    (retries : nat) : result jsval * list io_event :=
  fetch_loop net (axios_request url options) retries 0 (S retries).

(** ** Configuration and provider requests *)

Record process_env : Type := {
  GNEWS_API_KEY : option string;
  GUARDIAN_API_KEY : option string;
  GEMINI_API_KEY : option string;
  CACHE_TTL_SECONDS : option string
}.

(** [key && key !== placeholder] *)
Definition key_configured (key : option string) (placeholder : string) : bool :=
  match key with
  | Some k => negb (String.eqb k "") && negb (String.eqb k placeholder)
  | None => false
  end.

Module Req.
Record t : Type := mk { provider : string; url : string }.
End Req.

Definition buildAPIRequests (env : process_env) (searchQuery : string) (page pageSize : num)
  : list Req.t :=
  (if key_configured (GNEWS_API_KEY env) "your_gnews_api_key_here" then
     [Req.mk "gnews"
        ("https://gnews.io/api/v4/search?q=" ++ encodeURIComponent searchQuery
         ++ "&lang=en&max=" ++ num_to_string (Math_min 10 pageSize)
         ++ "&page=" ++ num_to_string page
         ++ "&token=" ++ default "" (GNEWS_API_KEY env))]
   else [])
  ++
  (if key_configured (GUARDIAN_API_KEY env) "your_guardian_api_key_here" then
     [Req.mk "guardian"
        ("https://content.guardianapis.com/search?api-key=" ++ default "" (GUARDIAN_API_KEY env)
         ++ "&q=" ++ encodeURIComponent searchQuery
         ++ "&show-fields=trailText,thumbnail,bodyText&page=" ++ num_to_string page
         ++ "&page-size=" ++ num_to_string (Math_min 20 pageSize))]
   else []).

(** [initGemini()] returns a model exactly when a key is present. *)
Definition geminiModel (env : process_env) : bool :=
  match GEMINI_API_KEY env with
  | Some k => negb (String.eqb k "")
  | None => false
  end.

(** ** Static tables *)

(** Property lookup [o[k]] on an object literal: own properties first, then
    the properties every object inherits from [Object.prototype]. *)
Definition Object_prototype_names : list string :=
  [ "constructor"; "__defineGetter__"; "__defineSetter__"; "hasOwnProperty";
    "__lookupGetter__"; "__lookupSetter__"; "isPrototypeOf"; "propertyIsEnumerable";
    "toString"; "valueOf"; "__proto__"; "toLocaleString" ].

Inductive looked_up (A : Type) : Type :=
| Own (a : A)
| Inherited (name : string)
| Absent.
Arguments Own {A} a.
Arguments Inherited {A} name.
Arguments Absent {A}.

Definition obj_lookup {A} (o : list (string * A)) (k : string) : looked_up A :=
  match assoc k o with
  | Some a => Own a
  | None => if existsb (String.eqb k) Object_prototype_names then Inherited k else Absent
  end.

(** ToString of an inherited member: [Object.prototype] itself for
    [__proto__], a native function otherwise. *)
Definition inherited_to_string (name : string) : string :=
  if String.eqb name "__proto__" then "[object Object]"
  else "function " ++ (if String.eqb name "constructor" then "Object" else name)
       ++ "() { [native code] }".

Definition CATEGORY_MAP : list (string * string) :=
  [ ("general", "latest news");
    ("india", "India news");
    ("world", "international world news");
    ("business", "business finance economy");
    ("technology", "technology AI innovation");
    ("sports", "sports cricket football");
    ("environment", "climate environment pollution");
    ("education", "education schools universities");
    ("health", "health medicine healthcare");
    ("science", "science research space");
    ("economy", "inflation economy GDP");
    ("legal", "court law judiciary");
    ("culture", "culture arts entertainment");
    ("global-politics", "international politics diplomacy");
    ("global-finance", "global markets finance") ].

(** [CATEGORY_MAP[category] || category] as the text that reaches
    [encodeURIComponent] *)
Definition category_query (category : string) : string :=
  match obj_lookup CATEGORY_MAP category with
  | Own phrase => if String.eqb phrase "" then category else phrase
  | Inherited name => inherited_to_string name
  | Absent => category
  end.

Record city : Type := { city_name : string; city_query : string }.

Definition INDIAN_CITIES : list (string * city) :=
  [ ("delhi", {| city_name := "Delhi"; city_query := "Delhi NCR news" |});
    ("mumbai", {| city_name := "Mumbai"; city_query := "Mumbai news" |});
    ("bangalore", {| city_name := "Bangalore"; city_query := "Bangalore Bengaluru news" |});
    ("chennai", {| city_name := "Chennai"; city_query := "Chennai news" |});
    ("kolkata", {| city_name := "Kolkata"; city_query := "Kolkata news" |});
    ("hyderabad", {| city_name := "Hyderabad"; city_query := "Hyderabad news" |});
    ("pune", {| city_name := "Pune"; city_query := "Pune news" |});
    ("ahmedabad", {| city_name := "Ahmedabad"; city_query := "Ahmedabad news" |}) ].

(** [Object.keys(INDIAN_CITIES).find(...)] followed by the choice of the
    search phrase *)
Definition city_search_query (location : string) : string :=
  let l := toLowerCase location in
  match List.find (fun kv => includes l (fst kv) || includes (fst kv) l) INDIAN_CITIES with
  | Some (_, cfg) => city_query cfg
  | None => location ++ " India local news"
  end.

(** What a handler may put in the [data] field of its answer.  A lookup in
    the fallback table that lands on an inherited member yields a function
    or [Object.prototype] instead of an array. *)
Inductive data_value : Type :=
| DArr (articles : list Article.t)
| DFunction (name : string)
| DObjectPrototype.

Definition data_items (d : data_value) : list Article.t :=
  match d with
  | DArr l => l
  | _ => []
  end.

(** ** The cache

    [node-cache] with its default options: a value is stored with the time
    after which it is dead ([0] for never), a dead entry is removed by the
    [get] that finds it, and values are cloned on the way in and out. *)

Module NodeCache.
Record entry : Type := { v : list Article.t; t : num }.

(** [stdTTL: parseInt(process.env.CACHE_TTL_SECONDS || '300', 10)] *)
Definition stdTTL (env : process_env) : num :=
  parseInt (param_or (CACHE_TTL_SECONDS env) "300").

Definition livetime (ttl : num) (now : Z) : num :=
  match ttl with
  | Some 0 => Some 0
  | Some seconds => Some (now + seconds * 1000)
  | None => None
  end.

(** the negation of [data.t !== 0 && data.t < Date.now()] *)
Definition alive (now : Z) (e : entry) : bool :=
  match t e with
  | Some z => (z =? 0) || (now <=? z)
  | None => true
  end.

Definition get (now : Z) (key : string) (c : gmap string entry)
  : option (list Article.t) * gmap string entry :=
  match c !! key with
  | Some e => if alive now e then (Some (v e), c) else (None, delete key c)
  | None => (None, c)
  end.

Definition set (ttl : num) (now : Z) (key : string) (val : list Article.t)
    (c : gmap string entry) : gmap string entry :=
  <[key := {| v := val; t := livetime ttl now |}]> c.
End NodeCache.

(** ** Requests, answers and the world around one request *)

Module Query.
Record t : Type := mk {
  category : option string;
  page : option string;
  pageSize : option string;
  location : option string
}.
End Query.

Record validation_error : Type := {
  err_path : string;
  err_msg : string;
  err_value : string
}.

Inductive json_field : Type :=
| FBool (b : bool)
| FStr (s : string)
| FNum (n : num)
| FData (d : data_value)
| FErrors (errors : list validation_error).

(** [res.status(status).json(body)], the body with its fields in the order
    of the object literal *)
Record response : Type := {
  status : Z;
  body : list (string * json_field)
}.

Definition res_json (b : list (string * json_field)) : response :=
  {| status := 200; body := b |}.

Definition field (r : response) (name : string) : option json_field :=
  assoc name (body r).

(** the articles an answer carries *)
Definition response_items (r : response) : list Article.t :=
  match field r "data" with
  | Some (FData d) => data_items d
  | _ => []
  end.

(** Everything outside the process that one request meets. *)
Record world : Type := {
  clock_get : Z;                         (* [Date.now()] when [cache.get] runs *)
  clock_set : Z;                         (* [Date.now()] when [cache.set] runs *)
  clock_iso : string;                    (* [new Date().toISOString()] in the handler *)
  upstream : network;
  readings : string -> nat -> entropy;   (* per provider, per item of its payload *)
  gemini : Article.t -> option jsval;    (* what [enhanceWithGemini] resolves to for an
                                            article, if it resolves before the next
                                            request *)
  cache_failure : option js_error        (* the cache library throwing when first called *)
}.

(** What outlives a request: the cache, and the arrays of
    [HARDCODED_DATA.news], which [getNews] sorts in place and whose records
    the AI enrichment writes to when they are what the request returned. *)
Record state : Type := {
  cache : gmap string NodeCache.entry;
  news : list (string * list Article.t)
}.

Definition cache_get (w : world) (key : string) (c : gmap string NodeCache.entry)
  : result (option (list Article.t)) * gmap string NodeCache.entry :=
  match cache_failure w with
  | Some e => (Throw e, c)
  | None => let '(o, c') := NodeCache.get (clock_get w) key c in (Ret o, c')
  end.

(** [HARDCODED_DATA.news[category] || HARDCODED_DATA.news.general || []] *)
Definition fallback_for (news : list (string * list Article.t)) (category : string)
  : data_value :=
  match obj_lookup news category with
  | Own l => DArr l
  | Inherited name =>
      if String.eqb name "__proto__" then DObjectPrototype else DFunction name
  | Absent => DArr (default [] (assoc "general" news))
  end.

(** the property of [HARDCODED_DATA.news] whose array that expression
    evaluates to *)
Definition fallback_key (news : list (string * list Article.t)) (category : string)
  : string :=
  match assoc category news with
  | Some _ => category
  | None => "general"
  end.

(** a change made in place to the array stored under [key] *)
Definition update_array (key : string) (f : list Article.t -> list Article.t)
    (news : list (string * list Article.t)) : list (string * list Article.t) :=
  map (fun kl => if String.eqb (fst kl) key then (fst kl, f (snd kl)) else kl) news.

(** [article.aiSummary = aiText || null], once [enhanceWithGemini] has
    resolved *)
Definition backfill (w : world) (a : Article.t) : Article.t :=
  match gemini w a with
  | Some aiText =>
      {| Article.id := Article.id a;
         Article.title := Article.title a;
         Article.snippet := Article.snippet a;
         Article.url := Article.url a;
         Article.image := Article.image a;
         Article.publishedAt := Article.publishedAt a;
         Article.source := Article.source a;
         Article.category := Article.category a;
         Article.aiSummary := js_or aiText JNull |}
  | None => a
  end.

(** the enrichment of the first [m] records of an array *)
Definition enrich (w : world) (m : nat) (l : list Article.t) : list Article.t :=
  (map (backfill w) (take m l) ++ drop m l)%list.

(** ** One provider call of the fan-out *)

(** the statements after [await fetchWithRetry(req.url)] inside the [try]
    of the mapped function *)
Definition extract_articles (w : world) (provider : string) (data : jsval)
  : result (list Article.t) :=
  (gnews_items <-
     (if String.eqb provider "gnews" then get_prop data "articles" else Ret JUndefined) ;;;
   match String.eqb provider "gnews", gnews_items with
   | true, JArr items => normalize_batch "gnews" (readings w "gnews") 0 items
   | _, _ =>
       if String.eqb provider "guardian" then
         r_response <- get_prop data "response" ;;;
         let results := opt_chain r_response "results" in
         if truthy results then
           match results with
           | JArr items => normalize_batch "guardian" (readings w "guardian") 0 items
           | _ => Throw "TypeError: data.response.results.map is not a function"
           end
         else Ret []
       else Ret []
   end)%js.

(** [async req => { try { ... } catch (error) { return []; } }] *)
Definition provider_task (w : world) (req : Req.t) : list Article.t * list io_event :=
  let '(fetched, log) := fetchWithRetry (upstream w) (Req.url req) no_options 2 in
  (try_catch (data <- fetched ;;; extract_articles w (Req.provider req) data)%js
             (fun _error => []),
   log).

(** [Promise.allSettled(requests.map(...))] then
    [.filter(r => r.status === 'fulfilled').flatMap(r => r.value).filter(Boolean)]:
    every task fulfils, and the results are merged in the order of
    [requests].  The log lists the calls provider by provider; calls of
    different providers overlap in time. *)
Definition fetch_all (w : world) (requests : list Req.t) : list Article.t * list io_event :=
  (concat (map (fun r => fst (provider_task w r)) requests),
   concat (map (fun r => snd (provider_task w r)) requests)).

(** ** Merge, deduplicate, sort, slice *)

(** [articles.filter(article => { if (seen.has(article.url)) return false;
    seen.add(article.url); return true; })] with [seen] the urls met so
    far *)
Fixpoint dedup_from (seen : list jsval) (articles : list Article.t) : list Article.t :=
  match articles with
  | [] => []
  | a :: rest =>
      if existsb (same_value_zero (Article.url a)) seen then dedup_from seen rest
      else a :: dedup_from (Article.url a :: seen) rest
  end.

Definition dedup_by_url (articles : list Article.t) : list Article.t :=
  dedup_from [] articles.

(** [l.slice(0, n)] *)
Definition slice_to {A} (l : list A) (n : num) : list A :=
  match n with
  | None => []
  | Some z =>
      if z <? 0 then take (Z.to_nat (Z.of_nat (length l) + z)) l
      else take (Z.to_nat z) l
  end.

Section Controller.

(** [new Date(v).getTime()], [None] for an invalid date *)
Variable Date_value : jsval -> option Z.

(** the reading of [new Date().toISOString()] taken for each record of
    [hardcodedData.js] when the module is loaded, by record id *)
Variable loaded_at : string -> string.

Definition canned (id title snippet image source category : string) : Article.t :=
  {| Article.id := JStr id;
     Article.title := JStr title;
     Article.snippet := JStr snippet;
     Article.url := JStr "#";
     Article.image := JStr image;
     Article.publishedAt := JStr (loaded_at id);
     Article.source := JStr source;
     Article.category := JStr category;
     Article.aiSummary := JUndefined |}.

(** [HARDCODED_DATA.news] *)
Definition HARDCODED_DATA_news : list (string * list Article.t) :=
  [
("general",
  [
   canned "fallback_gen_1"
     "Breaking: Major Policy Announcement Expected"
     "Government officials hint at significant policy changes in upcoming session."
     "https://via.placeholder.com/600x400?text=Breaking+News"
     "Newszoid" "general";
   canned "fallback_gen_2"
     "Technology Sector Shows Strong Growth"
     "Tech companies report record revenues as digital transformation accelerates."
     "https://via.placeholder.com/600x400?text=Tech+Growth"
     "Newszoid" "general" ]);
("india",
  [
   canned "fallback_in_1"
     "Supreme Court Reviews Constitutional Amendments"
     "The Supreme Court of India examines petitions challenging recent constitutional changes."
     "https://via.placeholder.com/600x400?text=Supreme+Court"
     "Newszoid India" "india";
   canned "fallback_in_2"
     "Parliament Passes Digital Privacy Bill"
     "Landmark legislation aims to protect citizen data rights in digital age."
     "https://via.placeholder.com/600x400?text=Parliament"
     "Newszoid India" "india";
   canned "fallback_in_3"
     "Infrastructure Development Gets Major Boost"
     "Government announces new funding for roads, railways, and urban infrastructure."
     "https://via.placeholder.com/600x400?text=Infrastructure"
     "Newszoid India" "india" ]);
("world",
  [
   canned "fallback_world_1"
     "Climate Summit Reaches Historic Agreement"
     "Global leaders commit to new climate fund and emission reduction targets."
     "https://via.placeholder.com/600x400?text=Climate+Summit"
     "Global News" "world";
   canned "fallback_world_2"
     "International Trade Agreements Signed"
     "Major economies finalize new trade partnerships to boost economic cooperation."
     "https://via.placeholder.com/600x400?text=Trade"
     "Global News" "world" ]);
("business",
  [
   canned "fallback_biz_1"
     "Stock Markets Hit Record Highs"
     "Major indices surge as investor confidence strengthens amid positive earnings."
     "https://via.placeholder.com/600x400?text=Stock+Market"
     "Newszoid Business" "business";
   canned "fallback_biz_2"
     "Startup Ecosystem Attracts Record Investment"
     "Venture capital funding reaches new heights in technology and innovation sectors."
     "https://via.placeholder.com/600x400?text=Startups"
     "Newszoid Business" "business" ]);
("technology",
  [
   canned "fallback_tech_1"
     "AI Revolution Transforms Industries"
     "Artificial intelligence adoption accelerates across healthcare, finance, and manufacturing."
     "https://via.placeholder.com/600x400?text=AI"
     "Tech Daily" "technology";
   canned "fallback_tech_2"
     "Quantum Computing Breakthrough Announced"
     "Research teams achieve major milestone in quantum processor development."
     "https://via.placeholder.com/600x400?text=Quantum"
     "Tech Daily" "technology" ]);
("sports",
  [
   canned "fallback_sport_1"
     "Cricket World Cup Final Approaches"
     "Teams prepare for high-stakes championship match as fans worldwide anticipate."
     "https://via.placeholder.com/600x400?text=Cricket"
     "Sports Today" "sports";
   canned "fallback_sport_2"
     "Olympic Athletes Break Records"
     "Multiple world records fall as competition intensifies at international games."
     "https://via.placeholder.com/600x400?text=Olympics"
     "Sports Today" "sports" ]);
("environment",
  [
   canned "fallback_env_1"
     "Renewable Energy Costs Continue to Drop"
     "Solar and wind power become most economical electricity sources globally."
     "https://via.placeholder.com/600x400?text=Renewable+Energy"
     "EcoWorld" "environment";
   canned "fallback_env_2"
     "Forest Conservation Efforts Expand"
     "New initiatives aim to protect biodiversity and combat deforestation."
     "https://via.placeholder.com/600x400?text=Forest"
     "EcoWorld" "environment" ]);
("education",
  [
   canned "fallback_edu_1"
     "Education Reform Focuses on Digital Skills"
     "Curriculum updates emphasize technology literacy and critical thinking."
     "https://via.placeholder.com/600x400?text=Education"
     "Education Today" "education";
   canned "fallback_edu_2"
     "Universities Launch New Research Programs"
     "Academic institutions expand offerings in emerging fields and interdisciplinary studies."
     "https://via.placeholder.com/600x400?text=University"
     "Education Today" "education" ]);
("health",
  [
   canned "fallback_health_1"
     "Medical Breakthrough in Cancer Treatment"
     "New therapy shows promising results in clinical trials for multiple cancer types."
     "https://via.placeholder.com/600x400?text=Medical+Research"
     "Health News" "health";
   canned "fallback_health_2"
     "Mental Health Awareness Programs Expand"
     "Communities invest in accessible mental health services and support systems."
     "https://via.placeholder.com/600x400?text=Mental+Health"
     "Health News" "health" ]);
("science",
  [
   canned "fallback_sci_1"
     "Space Mission Discovers New Exoplanets"
     "Telescope identifies potentially habitable worlds in distant star systems."
     "https://via.placeholder.com/600x400?text=Space"
     "Science Daily" "science";
   canned "fallback_sci_2"
     "Particle Physics Experiment Yields Surprising Results"
     "Researchers detect unexpected phenomena in high-energy collider experiments."
     "https://via.placeholder.com/600x400?text=Physics"
     "Science Daily" "science" ]);
("economy",
  [
   canned "fallback_econ_1"
     "Central Bank Maintains Interest Rates"
     "Monetary policy remains steady as inflation shows signs of stabilization."
     "https://via.placeholder.com/600x400?text=Economy"
     "Economic Times" "economy";
   canned "fallback_econ_2"
     "GDP Growth Exceeds Expectations"
     "Economic expansion accelerates driven by consumer spending and investments."
     "https://via.placeholder.com/600x400?text=GDP"
     "Economic Times" "economy" ]);
("legal",
  [
   canned "fallback_legal_1"
     "High Court Delivers Landmark Judgment"
     "Decision sets important precedent for civil rights and constitutional law."
     "https://via.placeholder.com/600x400?text=Court"
     "Legal News" "legal";
   canned "fallback_legal_2"
     "New Legislation Addresses Digital Rights"
     "Laws updated to reflect modern challenges in privacy and data protection."
     "https://via.placeholder.com/600x400?text=Law"
     "Legal News" "legal" ]);
("culture",
  [
   canned "fallback_culture_1"
     "Film Festival Showcases International Cinema"
     "Diverse storytelling from around the world celebrated at annual event."
     "https://via.placeholder.com/600x400?text=Film+Festival"
     "Culture Beat" "culture";
   canned "fallback_culture_2"
     "Museum Exhibition Explores Ancient Civilizations"
     "Artifacts and interactive displays bring history to life for visitors."
     "https://via.placeholder.com/600x400?text=Museum"
     "Culture Beat" "culture" ]) ].

(** ** Sorting by publication date *)

(** [(a, b) => new Date(b.publishedAt) - new Date(a.publishedAt)]; a [NaN]
    result counts as [+0] for [sort] *)
Definition by_date_desc (a b : Article.t) : Z :=
  match Date_value (Article.publishedAt b), Date_value (Article.publishedAt a) with
  | Some db, Some da => db - da
  | _, _ => 0
  end.

Fixpoint sort_insert (x : Article.t) (sorted : list Article.t) : list Article.t :=
  match sorted with
  | [] => [x]
  | y :: rest => if by_date_desc x y <=? 0 then x :: sorted else y :: sort_insert x rest
  end.

(** [Array.prototype.sort] is stable, and for a consistent comparator its
    result is the one of any stable sort; a stable insertion sort stands
    for it.  Where dates are invalid the comparator is not consistent and
    ECMAScript leaves the order to the engine: the statements below use
    only that sorting permutes the array. *)
Definition Array_sort (l : list Article.t) : list Article.t :=
  foldr sort_insert [] l.

(** ** The handlers

    A handler takes the configuration, the world of the request, the query
    and the state, and gives its answer, the state it leaves and the
    upstream calls it made.

    The AI enrichment of [getNews] is started before the list is cached and
    the answer is sent, and writes to the article objects later.  The cache
    holds a clone and the answer is already serialized, so neither changes;
    the objects written to are visible afterwards only when they are the
    records of [HARDCODED_DATA.news].  The writes that land are applied to
    the state the handler leaves. *)

Variable env : process_env.

(** the state when the process starts *)
Definition boot : state := {| cache := ∅; news := HARDCODED_DATA_news |}.

Definition outcome : Type := (response * state * list io_event)%type.

(** the parameters of [exports.getNews] as its first statements compute
    them *)
Definition news_category (q : Query.t) : string :=
  trim (toLowerCase (param_or (Query.category q) "general")).

Definition news_page (q : Query.t) : num :=
  Math_max 1 (parseInt (param_or (Query.page q) "1")).

Definition news_pageSize (q : Query.t) : num :=
  Math_min 50 (Math_max 1 (parseInt (param_or (Query.pageSize q) "10"))).

Definition news_cacheKey (q : Query.t) : string :=
  "news:" ++ news_category q ++ ":p" ++ num_to_string (news_page q)
  ++ ":s" ++ num_to_string (news_pageSize q).

Definition news_requests (q : Query.t) : list Req.t :=
  buildAPIRequests env (category_query (news_category q)) (news_page q) (news_pageSize q).

(** the [try] block of [exports.getNews] *)
Definition getNews_try (w : world) (q : Query.t) (s : state)
  : result response * state * list io_event :=
  let category := news_category q in
  let page := news_page q in
  let pageSize := news_pageSize q in
  let cacheKey := news_cacheKey q in
  match cache_get w cacheKey (cache s) with
  | (Throw e, c1) => (Throw e, {| cache := c1; news := news s |}, [])
  | (Ret (Some cached), c1) =>
      (Ret (res_json [ ("ok", FBool true);
                       ("fromCache", FBool true);
                       ("aiEnabled", FBool (geminiModel env));
                       ("category", FStr category);
                       ("data", FData (DArr cached)) ]),
       {| cache := c1; news := news s |}, [])
  | (Ret None, c1) =>
      let requests := news_requests q in
      if (length requests =? 0)%nat then
        (Ret (res_json [ ("ok", FBool true);
                         ("fromCache", FBool false);
                         ("isFallback", FBool true);
                         ("category", FStr category);
                         ("data", FData (fallback_for (news s) category)) ]),
         {| cache := c1; news := news s |}, [])
      else
        let '(merged, log) := fetch_all w requests in
        let articles := dedup_by_url merged in
        let substituted := (length articles =? 0)%nat in
        let articles :=
          if substituted then fallback_for (news s) category else DArr articles in
        match articles with
        | DArr articles =>
            let articles := Array_sort articles in
            let news1 :=
              if substituted
              then update_array (fallback_key (news s) category) Array_sort (news s)
              else news s in
            let articles := slice_to articles pageSize in
            let news2 :=
              if substituted && geminiModel env && negb (length articles =? 0)%nat
              then update_array (fallback_key (news s) category)
                                (enrich w (length (take 5 articles))) news1
              else news1 in
            (Ret (res_json [ ("ok", FBool true);
                             ("fromCache", FBool false);
                             ("aiEnabled", FBool (geminiModel env));
                             ("category", FStr category);
                             ("total", FNum (Some (Z.of_nat (length articles))));
                             ("page", FNum page);
                             ("pageSize", FNum pageSize);
                             ("data", FData (DArr articles)) ]),
             {| cache := NodeCache.set (NodeCache.stdTTL env) (clock_set w) cacheKey articles c1;
                news := news2 |},
             log)
        | _ =>
            (Throw "TypeError: articles.sort is not a function",
             {| cache := c1; news := news s |}, log)
        end
  end.

(** the [catch] block of [exports.getNews] *)
Definition getNews_catch (news : list (string * list Article.t)) (q : Query.t)
    (_error : js_error) : response :=
  let category := toLowerCase (param_or (Query.category q) "general") in
  res_json [ ("ok", FBool true);
             ("isFallback", FBool true);
             ("error", FStr "Using fallback data due to server error");
             ("category", FStr category);
             ("data", FData (fallback_for news category)) ].

Definition getNews (w : world) (q : Query.t) (s : state) : outcome :=
  let '(r, s', log) := getNews_try w q s in
  (try_catch r (getNews_catch (news s') q), s', log).

Definition local_fallback (w : world) (location : string) : Article.t :=
  {| Article.id := JStr "local_fallback_1";
     Article.title := JStr (location ++ " Metro expansion plans announced");
     Article.snippet := JStr "Local authorities have approved new infrastructure projects.";
     Article.url := JStr "#";
     Article.image := JStr "https://via.placeholder.com/600x400?text=Local+News";
     Article.publishedAt := JStr (clock_iso w);
     Article.source := JStr "Newszoid Local";
     Article.category := JUndefined;
     Article.aiSummary := JUndefined |}.

(** the parameters of [exports.getLocalNews] *)
Definition local_location (q : Query.t) : string :=
  trim (toLowerCase (param_or (Query.location q) "Delhi")).

Definition local_page (q : Query.t) : num :=
  Math_max 1 (parseInt (param_or (Query.page q) "1")).

Definition local_pageSize (q : Query.t) : num :=
  Math_min 20 (Math_max 1 (parseInt (param_or (Query.pageSize q) "5"))).

Definition local_cacheKey (q : Query.t) : string :=
  "local:" ++ local_location q ++ ":p" ++ num_to_string (local_page q)
  ++ ":s" ++ num_to_string (local_pageSize q).

Definition local_requests (q : Query.t) : list Req.t :=
  buildAPIRequests env (city_search_query (local_location q)) (local_page q) (local_pageSize q).

(** the [try] block of [exports.getLocalNews] *)
Definition getLocalNews_try (w : world) (q : Query.t) (s : state)
  : result response * state * list io_event :=
  let location := local_location q in
  let page := local_page q in
  let pageSize := local_pageSize q in
  let cacheKey := local_cacheKey q in
  match cache_get w cacheKey (cache s) with
  | (Throw e, c1) => (Throw e, {| cache := c1; news := news s |}, [])
  | (Ret (Some cached), c1) =>
      (Ret (res_json [ ("ok", FBool true);
                       ("fromCache", FBool true);
                       ("location", FStr location);
                       ("data", FData (DArr cached)) ]),
       {| cache := c1; news := news s |}, [])
  | (Ret None, c1) =>
      let requests := local_requests q in
      if (length requests =? 0)%nat then
        (Ret (res_json [ ("ok", FBool true);
                         ("isFallback", FBool true);
                         ("location", FStr location);
                         ("data", FData (DArr [local_fallback w location])) ]),
         {| cache := c1; news := news s |}, [])
      else
        let '(merged, log) := fetch_all w requests in
        let articles := dedup_by_url merged in
        let articles := Array_sort articles in
        let articles := slice_to articles pageSize in
        (Ret (res_json [ ("ok", FBool true);
                         ("fromCache", FBool false);
                         ("location", FStr location);
                         ("total", FNum (Some (Z.of_nat (length articles))));
                         ("data", FData (DArr articles)) ]),
         {| cache := NodeCache.set (NodeCache.stdTTL env) (clock_set w) cacheKey articles c1;
            news := news s |},
         log)
  end.

(** the [catch] block of [exports.getLocalNews] *)
Definition getLocalNews_catch (q : Query.t) (_error : js_error) : response :=
  {| status := 500;
     body := [ ("ok", FBool false);
               ("error", FStr "Failed to fetch local news");
               ("location", FStr (param_or (Query.location q) "Delhi"));
               ("data", FData (DArr [])) ] |}.

Definition getLocalNews (w : world) (q : Query.t) (s : state) : outcome :=
  let '(r, s', log) := getLocalNews_try w q s in
  (try_catch r (getLocalNews_catch q), s', log).

(** ** The routes of [routes/news.js]

    [express-validator] chains: an [optional()] field is checked only when
    it is present, [trim()] replaces the field by its trimmed value,
    [isLength] and [isInt] are those of [validator.js] ([isInt] accepts an
    optional sign followed by digits, then compares the value with the
    bounds). *)

Fixpoint all_digits (s : string) : bool :=
  match s with
  | String c t => is_digit c && all_digits t
  | EmptyString => true
  end.

Definition int_literal (s : string) : option Z :=
  let '(negative, digits) :=
    match s with
    | String "-" t => (true, t)
    | String "+" t => (false, t)
    | _ => (false, s)
    end in
  if negb (String.eqb digits "") && all_digits digits
  then (fun z => if negative then - z else z) <$> read_digits digits None
  else None.

Definition isInt (min max : Z) (s : string) : bool :=
  match int_literal s with
  | Some z => (min <=? z) && (z <=? max)
  | None => false
  end.

Definition isLength (min max : nat) (s : string) : bool :=
  ((min <=? String.length s) && (String.length s <=? max))%nat.

Definition check_int (path msg : string) (min max : Z) (value : option string)
  : list validation_error :=
  match value with
  | Some s =>
      if isInt min max s then []
      else [ {| err_path := path; err_msg := msg; err_value := s |} ]
  | None => []
  end.

Definition check_text (path msg : string) (min max : nat) (value : option string)
  : option string * list validation_error :=
  match value with
  | Some s =>
      let s' := trim s in
      (Some s',
       if isLength min max s' then []
       else [ {| err_path := path; err_msg := msg; err_value := s' |} ])
  | None => (None, [])
  end.

(** the [validate] middleware: answer 400 when a check failed, call the
    controller otherwise *)
Definition validate (errors : list validation_error) (next : state -> outcome)
    (s : state) : outcome :=
  match errors with
  | [] => next s
  | _ :: _ =>
      ({| status := 400; body := [ ("ok", FBool false); ("errors", FErrors errors) ] |}, s, [])
  end.

(** [router.get('/', [...], validate, newsController.getNews)] *)
Definition GET_news (w : world) (q : Query.t) (s : state) : outcome :=
  let '(category, e1) := check_text "category" "Category must be 1-50 characters" 1 50 (Query.category q) in
  let e2 := check_int "page" "Page must be between 1 and 100" 1 100 (Query.page q) in
  let e3 := check_int "pageSize" "Page size must be between 1 and 50" 1 50 (Query.pageSize q) in
  validate (e1 ++ e2 ++ e3)
    (getNews w (Query.mk category (Query.page q) (Query.pageSize q) (Query.location q))) s.

(** [router.get('/local', [...], validate, newsController.getLocalNews)] *)
Definition GET_news_local (w : world) (q : Query.t) (s : state) : outcome :=
  let '(location, e1) := check_text "location" "Location must be 2-100 characters" 2 100 (Query.location q) in
  let e2 := check_int "page" "Page must be between 1 and 50" 1 50 (Query.page q) in
  let e3 := check_int "pageSize" "Page size must be between 1 and 20" 1 20 (Query.pageSize q) in
  validate (e1 ++ e2 ++ e3)
    (getLocalNews w (Query.mk (Query.category q) (Query.page q) (Query.pageSize q) location)) s.

Definition response_of (o : outcome) : response := fst (fst o).
Definition state_of (o : outcome) : state := snd (fst o).
Definition log_of (o : outcome) : list io_event := snd o.

(** ** The state over the life of the process

    The process starts in [boot] and its state changes only through the two
    handlers. *)

Inductive reachable : state -> Prop :=
| reachable_start : reachable boot
| reachable_getNews w q s : reachable s -> reachable (state_of (getNews w q s))
| reachable_getLocalNews w q s : reachable s -> reachable (state_of (getLocalNews w q s)).

(** ** Predicates used in the statements *)

Definition attempts (log : list io_event) : nat :=
  length (List.filter (fun ev => match ev with Axios _ => true | Sleep _ => false end) log).

(** no two articles with the same url, as [Set] compares urls *)
Definition distinct_urls (l : list Article.t) : Prop :=
  ForallOrdPairs (fun a b => same_value_zero (Article.url a) (Article.url b) = false) l.

Definition distinct_ids (l : list Article.t) : Prop :=
  NoDup (map Article.id l).

(** The retry policy in the words of the specification: [n] failed calls,
    the one numbered [i + k] followed by a wait of [(i + k + 1) * 1000] ms,
    then one more call. *)
Fixpoint backoff_log (config : axios_config) (i n : nat) : list io_event :=
  match n with
  | O => [Axios config]
  | S n' => Axios config :: Sleep (1000 * (Z.of_nat i + 1)) :: backoff_log config (S i) n'
  end.

(** the item brings its own identifier and publication date, so that the
    adapter reads neither the clock nor the random number generator *)
Definition self_identified (source : string) (raw : jsval) : bool :=
  if String.eqb source "gnews" then
    truthy (opt_chain raw "url") && truthy (opt_chain raw "publishedAt")
  else if String.eqb source "guardian" then
    truthy (opt_chain raw "id") && truthy (opt_chain raw "webPublicationDate")
  else
    (truthy (opt_chain raw "url") || truthy (opt_chain raw "id"))
    && truthy (opt_chain raw "publishedAt").

(** what holds of every list of articles the handlers return or cache *)
Definition result_set_ok (l : list Article.t) : Prop :=
  (length l <= 50)%nat /\ (distinct_urls l \/ distinct_ids l).

Definition cache_ok (c : gmap string NodeCache.entry) : Prop :=
  map_Forall (fun _ e => result_set_ok (NodeCache.v e)) c.

(** the records of a fallback array [l] are those of the array [l0] it was
    loaded as, in some order: same ids, and the url ["#"] *)
Definition same_records (l0 l : list Article.t) : Prop :=
  Permutation (map Article.id l0) (map Article.id l)
  /\ Forall (fun a => Article.url a = JStr "#") l.

(** [HARDCODED_DATA.news] has the properties it was loaded with, each with
    the records it was loaded with *)
Definition store_ok (news : list (string * list Article.t)) : Prop :=
  Forall2 (fun kl0 kl => fst kl = fst kl0 /\ same_records (snd kl0) (snd kl))
          HARDCODED_DATA_news news.

Definition state_ok (s : state) : Prop := cache_ok (cache s) /\ store_ok (news s).

(** an entry stored at [stored] with the configured TTL is still alive at
    [now] *)
Definition fresh_at (ttl : num) (stored now : Z) : Prop :=
  match ttl with
  | Some seconds => seconds = 0 \/ now <= stored + seconds * 1000
  | None => True
  end.

(** ** Sample configurations, payloads and worlds

    Concrete inputs on which the statements below are exercised. *)

(** [new Date(v).getTime()] on the values the samples use as dates: a number
    is its own timestamp, and the two ISO strings below are the only ones
    that occur *)
Definition sample_Date_value (v : jsval) : option Z :=
  match v with
  | JNum z => Some z
  | JStr s =>
      if String.eqb s "2024-01-01T00:00:00.000Z" then Some 1704067200000
      else if String.eqb s "2024-01-02T00:00:00.000Z" then Some 1704153600000
      else None
  | _ => None
  end.

Definition sample_loaded_at (_ : string) : string := "2024-01-01T00:00:00.000Z".

Definition env_no_keys : process_env :=
  {| GNEWS_API_KEY := None; GUARDIAN_API_KEY := None;
     GEMINI_API_KEY := None; CACHE_TTL_SECONDS := None |}.

Definition env_two_keys : process_env :=
  {| GNEWS_API_KEY := Some "gk"; GUARDIAN_API_KEY := Some "uk";
     GEMINI_API_KEY := None; CACHE_TTL_SECONDS := None |}.

Definition env_gnews_only : process_env :=
  {| GNEWS_API_KEY := Some "gk"; GUARDIAN_API_KEY := None;
     GEMINI_API_KEY := None; CACHE_TTL_SECONDS := None |}.

Definition readings_at (n : nat) : entropy :=
  {| Date_now := 1700000000000 + Z.of_nat n;
     Math_random := "0.25";
     now_iso := "2024-01-02T00:00:00.000Z" |}.

Definition readings_later : entropy :=
  {| Date_now := 1700000009999;
     Math_random := "0.75";
     now_iso := "2024-01-02T00:00:09.999Z" |}.

(** a Guardian item *)
Definition guardian_item (id webUrl : jsval) (date : Z) : jsval :=
  JObj [ ("id", id); ("webTitle", JStr "headline"); ("webUrl", webUrl);
         ("webPublicationDate", JNum date) ].

Definition guardian_payload (items : list jsval) : jsval :=
  JObj [ ("response", JObj [ ("results", JArr items) ]) ].

Definition gnews_payload (items : list jsval) : jsval :=
  JObj [ ("articles", JArr items) ].

(** GNews always times out; the Guardian answers with [items] *)
Definition gnews_down (items : list jsval) : network :=
  fun config _ =>
    if String.prefix "https://gnews.io/" (ax_url config) then Rejected "timeout of 8000ms exceeded"
    else Resolved (guardian_payload items).

Definition gnews_up (items : list jsval) : network :=
  fun _ _ => Resolved (gnews_payload items).

Definition all_down : network := fun _ _ => Rejected "timeout of 8000ms exceeded".

(** first two calls fail, the third succeeds *)
Definition flaky : network :=
  fun _ i => if (i <? 2)%nat then Rejected ("failure " ++ string_of_Z (Z.of_nat i))
             else Resolved (JObj []).

(** every call fails with its own error *)
Definition numbered_failures : network :=
  fun _ i => Rejected ("failure " ++ string_of_Z (Z.of_nat i)).

Definition sample_world (net : network) (t_get t_set : Z) (failure : option js_error) : world :=
  {| clock_get := t_get;
     clock_set := t_set;
     clock_iso := "2024-01-02T00:00:00.000Z";
     upstream := net;
     readings := fun _ n => readings_at n;
     gemini := fun _ => None;
     cache_failure := failure |}.

Definition query_category (category : string) : Query.t :=
  Query.mk (Some category) None None None.

Definition three_distinct : list jsval :=
  [ guardian_item (JStr "world/a") (JStr "https://g.example/a") 3;
    guardian_item (JStr "world/b") (JStr "https://g.example/b") 1;
    guardian_item (JStr "world/c") (JStr "https://g.example/c") 2 ].



(** two usable GNews items without a [url] *)
Definition two_without_url : list jsval :=
  [ JObj [ ("title", JStr "first"); ("publishedAt", JNum 2) ];
    JObj [ ("title", JStr "second"); ("publishedAt", JNum 1) ] ].

Definition env_two_keys_and_gemini : process_env :=
  {| GNEWS_API_KEY := Some "gk"; GUARDIAN_API_KEY := Some "uk";
     GEMINI_API_KEY := Some "ak"; CACHE_TTL_SECONDS := None |}.

(** every provider is down and the enrichment resolves to a text *)
Definition summarizing_world : world :=
  {| clock_get := 0;
     clock_set := 10;
     clock_iso := "2024-01-02T00:00:00.000Z";
     upstream := all_down;
     readings := fun _ n => readings_at n;
     gemini := fun _ => Some (JStr "A summary.");
     cache_failure := None |}.

(** ** The summarizer and the summary endpoint

    [enhanceWithGemini] of [utils/gemini.js], [exports.summary] of the
    controller and the route [POST /summary]. *)

(** the two fields [exports.summary] reads from the request body, each a
    string when it is present *)
Record summary_body : Type := {
  body_url : option string;
  body_text : option string
}.

Definition line_feed : string := String (ascii_of_nat 10) EmptyString.

(** the template literal of [enhanceWithGemini] *)
Definition summary_prompt (text : string) : string :=
  line_feed ++ "Summarize the following news in 2–3 neutral lines." ++ line_feed
  ++ "No opinions, no assumptions." ++ line_feed
  ++ line_feed ++ text ++ line_feed.

(** [enhanceWithGemini(text)]: [model] tells whether [initGemini] produced
    a model, [generateContent] is [model.generateContent(prompt)] followed
    by [result.response.text()], a text or a rejection. *)
Definition enhanceWithGemini (model : bool) (generateContent : string -> result string)
    (text : string) : result (option string) :=
  if negb model then Ret None
  else
    try_catch (t <- generateContent (summary_prompt text) ;;; Ret (Ret (Some t)))%js
              (fun _error => Ret None).

(** the truth value of an optional string field *)
Definition given (x : option string) : bool :=
  match x with
  | Some s => negb (String.eqb s "")
  | None => false
  end.

(** the [try] block of [exports.summary] *)
Definition summary_try (generateContent : string -> result string) (b : summary_body)
  : result response :=
  if negb (given (body_url b)) && negb (given (body_text b)) then
    Ret {| status := 400;
           body := [ ("ok", FBool false);
                     ("error", FStr "Provide url or text to summarize") ] |}
  else if geminiModel env && given (body_text b) then
    (summary <- enhanceWithGemini (geminiModel env) generateContent
                  (default "" (body_text b)) ;;;
     Ret (res_json [ ("ok", FBool true);
                     ("summary", FStr (param_or summary "Summary generation in progress...")) ]))%js
  else
    Ret (res_json [ ("ok", FBool true);
                    ("summary", FStr "AI summary feature available with Gemini API key") ]).

(** the [catch] block of [exports.summary] *)
Definition summary_catch (_error : js_error) : response :=
  {| status := 500;
     body := [ ("ok", FBool false); ("error", FStr "Summary generation failed") ] |}.

Definition summary (generateContent : string -> result string) (b : summary_body)
  : response :=
  try_catch (summary_try generateContent b) summary_catch.



(** ** Further predicates used in the statements *)

Definition is_nullish (v : jsval) : bool :=
  match v with
  | JUndefined | JNull => true
  | _ => false
  end.

(** the items the adapter turns into [null]: [null] and [undefined], and,
    for the Guardian, an item without a [trailText] whose [bodyText] is
    something else than a string *)
Definition unusable (source : string) (raw : jsval) : bool :=
  is_nullish raw
  || (String.eqb source "guardian"
      && negb (truthy (opt_chain (opt_chain raw "fields") "trailText"))
      && match opt_chain (opt_chain raw "fields") "bodyText" with
         | JUndefined | JNull | JStr _ => false
         | _ => true
         end).

(** [s] holds the character [c] *)
Fixpoint has_char (c : ascii) (s : string) : bool :=
  match s with
  | String x t => Ascii.eqb c x || has_char c t
  | EmptyString => false
  end.

(** the time spent in the waits of a log, in milliseconds *)
Fixpoint waited (log : list io_event) : Z :=
  match log with
  | [] => 0
  | Axios _ :: rest => waited rest
  | Sleep ms :: rest => ms + waited rest
  end.

(** every article has a valid publication date *)
Definition dated (l : list Article.t) : Prop :=
  Forall (fun a => is_Some (Date_value (Article.publishedAt a))) l.

(** no article comes before one that was published later *)
Definition newest_first (l : list Article.t) : Prop :=
  ForallOrdPairs
    (fun a b => forall da db,
         Date_value (Article.publishedAt a) = Some da ->
         Date_value (Article.publishedAt b) = Some db ->
         db <= da)
    l.

(** the entries stored by [getLocalNews] hold at most 20 articles *)
Definition local_entries_short (c : gmap string NodeCache.entry) : Prop :=
  map_Forall (fun k e => String.prefix "local:" k = true ->
                         (length (NodeCache.v e) <= 20)%nat) c.

(** the url of [b] is one of [urls], as [Set.prototype.has] compares *)
Definition url_seen (urls : list jsval) (b : Article.t) : bool :=
  existsb (same_value_zero (Article.url b)) urls.

(** every attempt of every request is rejected *)
Definition providers_silent (w : world) (requests : list Req.t) : Prop :=
  forall r i, In r requests -> (i <= 2)%nat ->
    exists err, upstream w (axios_request (Req.url r) no_options) i = Rejected err.

(** an entry stored at [stored] with the configured TTL is dead at [now] *)
Definition expired_at (ttl : num) (stored now : Z) : Prop :=
  match ttl with
  | Some seconds => seconds <> 0 /\ stored + seconds * 1000 <> 0 /\ stored + seconds * 1000 < now
  | None => False
  end.

(** ** More sample inputs *)

Definition env_gemini_only : process_env :=
  {| GNEWS_API_KEY := None; GUARDIAN_API_KEY := None;
     GEMINI_API_KEY := Some "ak"; CACHE_TTL_SECONDS := None |}.

(** the summarizer answers *)
Definition summarizer_up (_ : string) : result string := Ret "Two neutral lines.".

(** the summarizer rejects every call *)
Definition summarizer_down (_ : string) : result string := Throw "503 Service Unavailable".

(** [isURL] on the urls the samples use *)
Definition sample_isURL (s : string) : bool := String.prefix "https://" s.


(** GNews answers with [first], the Guardian with [second] *)
Definition both_up (first second : list jsval) : network :=
  fun config _ =>
    if String.prefix "https://gnews.io/" (ax_url config) then Resolved (gnews_payload first)
    else Resolved (guardian_payload second).

Definition gnews_item (url : string) (date : Z) : jsval :=
  JObj [ ("title", JStr "headline"); ("url", JStr url); ("publishedAt", JNum date) ].

(** an article as an adapter returns it *)
Definition sample_article (id url : string) (date : Z) : Article.t :=
  {| Article.id := JStr id;
     Article.title := JStr "headline";
     Article.snippet := JStr "";
     Article.url := JStr url;
     Article.image := placeholder_image;
     Article.publishedAt := JNum date;
     Article.source := JStr "GNews";
     Article.category := JStr "general";
     Article.aiSummary := JNull |}.

(** * Properties *)

(** ** The provider adapter *)

Lemma normalizeArticle_cases (source : string) (e : entropy) (raw : jsval) :
  normalizeArticle source e raw =
  match normalize_switch source e raw with
  | Ret a => Ret (Some a)
  | Throw _ => Ret None
  end.
Proof. unfold normalizeArticle. now destruct (normalize_switch source e raw). Qed.

Lemma normalize_batch_returns (source : string) (ent : nat -> entropy) (items : list jsval) :
  forall n, exists l, normalize_batch source ent n items = Ret l /\ (length l <= length items)%nat.
Proof.
  induction items as [|raw rest IH]; intros n; simpl.
  - exists []. split; [reflexivity | simpl; lia].
  - rewrite normalizeArticle_cases.
    destruct (IH (S n)) as (tl & -> & Hlen).
    destruct (normalize_switch source (ent n) raw) as [a|err]; simpl.
    + exists (a :: tl). split; [reflexivity | simpl; lia].
    + exists tl. split; [reflexivity | lia].
Qed.

(** every usable item of a batch is in its result *)
Lemma normalize_batch_keeps (source : string) (ent : nat -> entropy) (items : list jsval) :
  forall n l k raw a,
    normalize_batch source ent n items = Ret l ->
    items !! k = Some raw ->
    normalizeArticle source (ent (n + k)%nat) raw = Ret (Some a) ->
    In a l.
Proof.
  induction items as [|x rest IH]; intros n l k raw a Hl Hk Ha; [discriminate Hk|].
  simpl in Hl. rewrite normalizeArticle_cases in Hl.
  destruct (normalize_batch_returns source ent rest (S n)) as (tl & Htl & _).
  rewrite Htl in Hl. destruct k as [|k]; simpl in Hk.
  - injection Hk as ->. rewrite Nat.add_0_r, normalizeArticle_cases in Ha.
    destruct (normalize_switch source (ent n) raw) as [a'|err]; simpl in *; [|discriminate].
    injection Ha as ->. injection Hl as <-. now left.
  - assert (Hin : In a tl).
    { apply (IH (S n) tl k raw a Htl Hk). now replace (S n + k)%nat with (n + S k)%nat by lia. }
    destruct (normalize_switch source (ent n) x) as [a'|err]; simpl in Hl;
      injection Hl as <-; [now right | exact Hin].
Qed.

(** C9.  For every provider identifier and every raw item, [normalizeArticle]
    returns an article or [null] and lets no exception escape; a [null] or
    [undefined] item gives [null]; and a batch of items is always mapped to
    the end, whatever the items are, with every usable item in the
    result. *)
Theorem normalizeArticle_never_throws :
  (forall source e raw,
      (exists a, normalizeArticle source e raw = Ret (Some a))
      \/ normalizeArticle source e raw = Ret None)
  /\ (forall source e, normalizeArticle source e JNull = Ret None
                       /\ normalizeArticle source e JUndefined = Ret None)
  /\ (forall source ent n items,
        exists l, normalize_batch source ent n items = Ret l
                  /\ forall k raw a,
                       items !! k = Some raw ->
                       normalizeArticle source (ent (n + k)%nat) raw = Ret (Some a) ->
                       In a l).
Proof.
  split; [|split].
  - intros source e raw. rewrite normalizeArticle_cases.
    destruct (normalize_switch source e raw) as [a|err]; [left; now exists a | now right].
  - intros source e. rewrite !normalizeArticle_cases. unfold normalize_switch.
    destruct (String.eqb source "gnews"), (String.eqb source "guardian"); split; reflexivity.
  - intros source ent n items.
    destruct (normalize_batch_returns source ent items n) as (l & Hl & _).
    exists l. split; [exact Hl|]. intros k raw a. now apply normalize_batch_keeps.
Qed.

Lemma get_prop_object (fields : list (string * jsval)) (name : string) :
  get_prop (JObj fields) name = Ret (opt_chain (JObj fields) name).
Proof. reflexivity. Qed.

Lemma js_or_truthy (a b : jsval) : truthy a = true -> js_or a b = a.
Proof. unfold js_or. now intros ->. Qed.

(** C6, amended.  When the item brings its own identifier and publication
    date, [normalizeArticle] gives the same output whatever the clock and
    the random number generator say, so applying it twice gives identical
    outputs. *)
Theorem normalizeArticle_deterministic_self_identified
    (source : string) (raw : jsval) (e1 e2 : entropy) :
  self_identified source raw = true ->
  normalizeArticle source e1 raw = normalizeArticle source e2 raw.
Proof.
  intros H. rewrite !normalizeArticle_cases.
  destruct raw as [| | | | |items|fields];
    try (unfold self_identified in H; simpl in H;
         destruct (String.eqb source "gnews"), (String.eqb source "guardian"); discriminate H).
  unfold self_identified in H. unfold normalize_switch.
  rewrite !get_prop_object.
  remember (opt_chain (JObj fields)) as prop eqn:Hprop. clear Hprop. simpl rbind.
  destruct (String.eqb source "gnews").
  - apply andb_prop in H as [Hu Hp]. now rewrite !(js_or_truthy _ _ Hu), !(js_or_truthy _ _ Hp).
  - destruct (String.eqb source "guardian").
    + apply andb_prop in H as [Hi Hp].
      destruct (js_or_else _ _) as [body|err]; simpl; [|reflexivity].
      now rewrite !(js_or_truthy _ _ Hi), !(js_or_truthy _ _ Hp).
    + apply andb_prop in H as [Hi Hp]. rewrite !(js_or_truthy _ _ Hp).
      assert (Hid : forall g1 g2,
                 js_or (js_or (prop "url") (prop "id")) g1
                 = js_or (js_or (prop "url") (prop "id")) g2).
      { intros g1 g2. unfold js_or at 2 4.
        destruct (truthy (prop "url")) eqn:Hu.
        - now rewrite !(js_or_truthy _ _ Hu).
        - simpl in Hi. now rewrite !(js_or_truthy _ _ Hi). }
      now rewrite (Hid (generated_id "news" e1) (generated_id "news" e2)).
Qed.

(** ** Fetch with retry *)

Lemma fetch_loop_policy (net : network) (config : axios_config) (retries : nat) :
  forall left i,
    (i + left = S retries)%nat ->
    (attempts (snd (fetch_loop net config retries i left)) <= left)%nat
    /\ Forall (fun ev => forall c, ev = Axios c -> c = config)
              (snd (fetch_loop net config retries i left))
    /\ (forall k ev, snd (fetch_loop net config retries i left) !! (2 * k)%nat = Some ev ->
                     ev = Axios config)
    /\ (forall k ev, snd (fetch_loop net config retries i left) !! (2 * k + 1)%nat = Some ev ->
                     ev = Sleep (1000 * (Z.of_nat (i + k) + 1))
                     /\ exists err, net config (i + k)%nat = Rejected err)
    /\ ((0 < left)%nat ->
        (forall j, (i <= j <= retries)%nat -> exists err, net config j = Rejected err) ->
        exists err, net config retries = Rejected err
                    /\ fst (fetch_loop net config retries i left) = Throw err
                    /\ attempts (snd (fetch_loop net config retries i left)) = left).
Proof.
  induction left as [|left IH]; intros i Hsum.
  - simpl. repeat split; try (intros; discriminate); try lia; constructor.
  - simpl. destruct (net config i) as [data|error] eqn:Hnet.
    + simpl. repeat split.
      * unfold attempts; simpl; lia.
      * repeat constructor. now intros c [= <-].
      * intros [|k] ev; simpl; [now intros [= <-] | ].
        replace (k + S (k + 0))%nat with (S (k + k)) by lia. discriminate.
      * destruct k; simpl in H; discriminate.
      * destruct k; simpl in H; discriminate.
      * intros _ Hall. destruct (Hall i) as [err Herr]; [lia | congruence].
    + destruct (Nat.eqb_spec i retries) as [->|Hne].
      * simpl. repeat split.
        -- unfold attempts; simpl; lia.
        -- repeat constructor. now intros c [= <-].
        -- intros [|k] ev; simpl; [now intros [= <-] | ].
           replace (k + S (k + 0))%nat with (S (k + k)) by lia. discriminate.
        -- destruct k; simpl in H; discriminate.
        -- destruct k; simpl in H; discriminate.
        -- intros _ _. exists error. repeat split; [exact Hnet | ].
           unfold attempts; simpl. lia.
      * destruct (IH (S i)) as (Hcount & Hcfg & Heven & Hodd & Hfail); [lia|].
        destruct (fetch_loop net config retries (S i) left) as [r log] eqn:Hloop. simpl in *.
        repeat split.
        -- unfold attempts in *; simpl; lia.
        -- constructor; [now intros c [= <-] | constructor; [intros c; discriminate | exact Hcfg]].
        -- intros [|k] ev; simpl; [now intros [= <-] | ].
           replace (k + S (k + 0))%nat with (S (2 * k)) by lia. simpl. apply Heven.
        -- destruct k as [|k]; simpl in H.
           ++ injection H as <-. do 2 f_equal. lia.
           ++ replace (k + S (k + 0) + 1)%nat with (S (2 * k + 1)) in H by lia. simpl in H.
              destruct (Hodd k ev H) as [-> _]. do 2 f_equal. lia.
        -- destruct k as [|k]; simpl in H.
           ++ exists error. now rewrite Nat.add_0_r.
           ++ replace (k + S (k + 0) + 1)%nat with (S (2 * k + 1)) in H by lia. simpl in H.
              destruct (Hodd k ev H) as [_ [err Herr]]. exists err.
              now replace (i + S k)%nat with (S (i + k)) by lia.
        -- intros _ Hall.
           destruct Hfail as (err & Hlast & Hthrow & Hn); [lia | intros j Hj; apply Hall; lia | ].
           exists err. repeat split; [exact Hlast | exact Hthrow | ].
           unfold attempts in *; simpl; lia.
Qed.

Lemma fetch_loop_exact (net : network) (config : axios_config) (retries : nat) :
  forall left i,
    (i + left = S retries)%nat -> (0 < left)%nat ->
    exists n,
      (i + n <= retries)%nat
      /\ snd (fetch_loop net config retries i left) = backoff_log config i n
      /\ (forall j, (i <= j < i + n)%nat -> exists err, net config j = Rejected err)
      /\ ((exists data, net config (i + n)%nat = Resolved data
                        /\ fst (fetch_loop net config retries i left) = Ret data)
          \/ ((i + n)%nat = retries
              /\ exists err, net config (i + n)%nat = Rejected err
                             /\ fst (fetch_loop net config retries i left) = Throw err)).
Proof.
  induction left as [|left IH]; intros i Hsum Hpos; [lia|].
  simpl. destruct (net config i) as [data|error] eqn:Hnet.
  - exists 0%nat. rewrite Nat.add_0_r. simpl.
    split; [lia | split; [reflexivity | split; [intros j Hj; lia | left; eauto]]].
  - destruct (Nat.eqb_spec i retries) as [->|Hne].
    + exists 0%nat. rewrite Nat.add_0_r. simpl.
      split; [lia | split; [reflexivity | split; [intros j Hj; lia | right; eauto]]].
    + destruct (IH (S i)) as (n & Hn & Hlog & Hrej & Hend); [lia | lia |].
      destruct (fetch_loop net config retries (S i) left) as [r log]. simpl in *.
      exists (S n). replace (i + S n)%nat with (S (i + n)) by lia.
      split; [lia | split; [now rewrite Hlog | split; [|exact Hend]]].
      intros j Hj. destruct (Nat.eq_dec j i) as [->|Hji]; [eauto | apply Hrej; lia].
Qed.

(** C8.  [fetchWithRetry(url, options, retries)] makes at most [retries + 1]
    calls, each to [url] with the 8000 ms timeout; the log alternates calls
    and waits, the wait after the [k+1]-th call, which failed, being
    [(k+1) * 1000] ms; and when every call fails, the call throws the error
    of the last one, after exactly [retries + 1] calls.  In full: the log is
    the one of the policy for some number [n <= retries] of failed calls,
    followed by a call that succeeds and gives the result, or, when
    [n = retries], by a call whose error is thrown. *)
Theorem fetchWithRetry_policy (net : network) (url : string) (options : fetch_options)
    (retries : nat) :
  let config := axios_request url options in
  let out := fetchWithRetry net url options retries in
  (attempts (snd out) <= retries + 1)%nat
  /\ (forall c, In (Axios c) (snd out) -> ax_timeout c = 8000 /\ ax_url c = url)
  /\ (forall k ev, snd out !! (2 * k)%nat = Some ev -> ev = Axios config)
  /\ (forall k ev, snd out !! (2 * k + 1)%nat = Some ev ->
        ev = Sleep (1000 * (Z.of_nat k + 1)) /\ exists err, net config k = Rejected err)
  /\ ((forall j, (j <= retries)%nat -> exists err, net config j = Rejected err) ->
      exists err, net config retries = Rejected err
                  /\ fst out = Throw err
                  /\ attempts (snd out) = (retries + 1)%nat)
  /\ (exists n,
        (n <= retries)%nat
        /\ snd out = backoff_log config 0 n
        /\ (forall j, (j < n)%nat -> exists err, net config j = Rejected err)
        /\ ((exists data, net config n = Resolved data /\ fst out = Ret data)
            \/ (n = retries
                /\ exists err, net config n = Rejected err /\ fst out = Throw err))).
Proof.
  intros config out. unfold out, fetchWithRetry. fold config.
  destruct (fetch_loop_policy net config retries (S retries) 0%nat eq_refl)
    as (Hcount & Hcfg & Heven & Hodd & Hfail).
  split; [|split; [|split; [|split; [|split]]]]; cycle 5.
  { destruct (fetch_loop_exact net config retries (S retries) 0%nat eq_refl)
      as (n & Hn & Hlog & Hrej & Hend); [lia|].
    exists n. simpl in *. split; [lia | split; [exact Hlog | split; [|exact Hend]]].
    intros j Hj. apply Hrej. lia. }
  all: repeat split.
  - lia.
  - rewrite Forall_forall in Hcfg. rewrite (Hcfg (Axios c)) with (c := c); auto.
    now apply list_elem_of_In.
  - rewrite Forall_forall in Hcfg. rewrite (Hcfg (Axios c)) with (c := c); auto.
    now apply list_elem_of_In.
  - exact Heven.
  - now destruct (Hodd k ev H).
  - now destruct (Hodd k ev H).
  - intros Hall. destruct Hfail as (err & H1 & H2 & H3); [lia | intros j Hj; apply Hall; lia |].
    exists err. repeat split; [exact H1 | exact H2 | lia].
Qed.

(** ** Deduplication by url *)

Lemma same_value_zero_eq (a b : jsval) : same_value_zero a b = true -> a = b.
Proof.
  destruct a, b; simpl; try discriminate; try reflexivity.
  - intros H. apply Bool.eqb_prop in H. now subst.
  - intros H. apply Z.eqb_eq in H. now subst.
  - intros H. apply String.eqb_eq in H. now subst.
Qed.

Lemma same_value_zero_sym (a b : jsval) : same_value_zero a b = same_value_zero b a.
Proof.
  destruct a, b; simpl; try reflexivity.
  - now destruct b, b0.
  - apply Z.eqb_sym.
  - apply String.eqb_sym.
Qed.

Lemma dedup_from_distinct (l : list Article.t) :
  forall seen,
    distinct_urls (dedup_from seen l)
    /\ Forall (fun a => existsb (same_value_zero (Article.url a)) seen = false)
              (dedup_from seen l).
Proof.
  induction l as [|a rest IH]; intros seen; simpl.
  - split; constructor.
  - destruct (existsb (same_value_zero (Article.url a)) seen) eqn:Hseen; [apply IH|].
    destruct (IH (Article.url a :: seen)) as [Hd Hf]. split.
    + constructor; [|exact Hd].
      eapply Forall_impl; [exact Hf|]. intros b Hb. simpl in Hb.
      apply Bool.orb_false_elim in Hb as [Hb _]. now rewrite same_value_zero_sym.
    + constructor; [exact Hseen|].
      eapply Forall_impl; [exact Hf|]. intros b Hb. simpl in Hb.
      now apply Bool.orb_false_elim in Hb as [_ Hb].
Qed.

Lemma dedup_by_url_distinct (l : list Article.t) : distinct_urls (dedup_by_url l).
Proof. apply dedup_from_distinct. Qed.

(** the first article with a given url is kept *)
Lemma dedup_from_keeps_first (l1 : list Article.t) (a : Article.t) (l2 : list Article.t) :
  forall seen,
    existsb (same_value_zero (Article.url a)) seen = false ->
    Forall (fun x => same_value_zero (Article.url a) (Article.url x) = false) l1 ->
    In a (dedup_from seen (l1 ++ a :: l2)).
Proof.
  induction l1 as [|x l1 IH]; intros seen Hseen Hl1; simpl.
  - rewrite Hseen. now left.
  - inversion Hl1 as [|? ? Hx Hrest]; subst.
    destruct (existsb (same_value_zero (Article.url x)) seen).
    + now apply IH.
    + right. apply IH; [|exact Hrest]. simpl. now rewrite Hx, Hseen.
Qed.

(** an article whose url was met before is removed, and the rest of the
    list is treated as if it had not been there *)
Lemma dedup_from_drops_later (l1 : list Article.t) (a : Article.t) (l2 : list Article.t)
    (b : Article.t) (l3 : list Article.t) :
  forall seen,
    same_value_zero (Article.url b) (Article.url a) = true ->
    dedup_from seen (l1 ++ a :: l2 ++ b :: l3) = dedup_from seen (l1 ++ a :: l2 ++ l3).
Proof.
  intros seen Hba.
  assert (Hmid : forall l seen', existsb (same_value_zero (Article.url b)) seen' = true ->
                   dedup_from seen' (l ++ b :: l3) = dedup_from seen' (l ++ l3)).
  { induction l as [|x l IH]; intros seen' Hb; simpl.
    - now rewrite Hb.
    - destruct (existsb (same_value_zero (Article.url x)) seen'); [now apply IH|].
      f_equal. apply IH. simpl. rewrite Hb. apply Bool.orb_true_r. }
  revert seen. induction l1 as [|x l1 IH]; intros seen; simpl.
  - destruct (existsb (same_value_zero (Article.url a)) seen) eqn:Ha.
    + apply Hmid. apply same_value_zero_eq in Hba. now rewrite Hba.
    + f_equal. apply Hmid. simpl. now rewrite Hba.
  - destruct (existsb (same_value_zero (Article.url x)) seen); [apply IH | f_equal; apply IH].
Qed.

(** ** Sorting and slicing *)

Lemma sort_insert_perm (x : Article.t) (l : list Article.t) :
  Permutation (sort_insert x l) (x :: l).
Proof.
  induction l as [|y rest IH]; simpl; [reflexivity|].
  destruct (by_date_desc x y <=? 0); [reflexivity|].
  rewrite IH. apply perm_swap.
Qed.

Lemma Array_sort_perm (l : list Article.t) : Permutation (Array_sort l) l.
Proof.
  induction l as [|x rest IH]; simpl; [reflexivity|].
  rewrite sort_insert_perm. now constructor.
Qed.

Lemma slice_to_take {A} (l : list A) (n : num) : exists k, slice_to l n = take k l.
Proof.
  destruct n as [z|]; simpl.
  - destruct (z <? 0); eauto.
  - now exists 0%nat.
Qed.

Lemma slice_to_length {A} (l : list A) (z : Z) :
  0 <= z -> (length (slice_to l (Some z)) <= Z.to_nat z)%nat.
Proof.
  intros Hz. simpl. destruct (Z.ltb_spec z 0); [lia|]. rewrite length_take. lia.
Qed.


Lemma In_take {A} (x : A) (l : list A) : forall k, In x (take k l) -> In x l.
Proof.
  induction l as [|y l IH]; intros [|k]; simpl; try tauto.
  intros [->|H]; [now left | right; eapply IH, H].
Qed.

Lemma distinct_urls_perm (l l' : list Article.t) :
  Permutation l l' -> distinct_urls l -> distinct_urls l'.
Proof.
  unfold distinct_urls. induction 1 as [|x l l' Hp IH|x y l|l l' l'' H1 IH1 H2 IH2]; intros H.
  - constructor.
  - inversion H; subst. constructor; [|now apply IH].
    eapply Permutation_Forall; eassumption.
  - inversion H as [|? ? Hy Hrest]; subst. inversion Hrest as [|? ? Hx Hl]; subst.
    inversion Hy as [|? ? Hyx Hyl]; subst.
    constructor; [constructor; [now rewrite same_value_zero_sym | exact Hx] |].
    constructor; assumption.
  - auto.
Qed.

Lemma distinct_urls_take (l : list Article.t) :
  forall k, distinct_urls l -> distinct_urls (take k l).
Proof.
  unfold distinct_urls. induction l as [|x l IH]; intros [|k] H; simpl; try constructor.
  - inversion H; subst. now apply Forall_take.
  - inversion H; subst. now apply IH.
Qed.

Lemma distinct_ids_perm (l l' : list Article.t) :
  Permutation l l' -> distinct_ids l -> distinct_ids l'.
Proof.
  unfold distinct_ids. intros Hp H. eapply NoDup_Permutation_proper; [|exact H].
  symmetry. now apply Permutation_map.
Qed.

Lemma distinct_ids_take (l : list Article.t) (k : nat) :
  distinct_ids l -> distinct_ids (take k l).
Proof.
  unfold distinct_ids. intros H. rewrite <- firstn_map.
  eapply sublist_NoDup; [exact H | apply sublist_take].
Qed.

Lemma sorted_slice_distinct (l : list Article.t) (n : num) :
  distinct_urls l \/ distinct_ids l ->
  distinct_urls (slice_to (Array_sort l) n) \/ distinct_ids (slice_to (Array_sort l) n).
Proof.
  destruct (slice_to_take (Array_sort l) n) as [k ->]. intros [H|H]; [left|right].
  - apply distinct_urls_take. eapply distinct_urls_perm; [|exact H].
    symmetry. apply Array_sort_perm.
  - apply distinct_ids_take. eapply distinct_ids_perm; [|exact H].
    symmetry. apply Array_sort_perm.
Qed.

(** ** Page size *)

Lemma clamp_bounds (hi : Z) (n : num) :
  1 <= hi -> forall z, Math_min hi (Math_max 1 n) = Some z -> 1 <= z <= hi.
Proof. intros Hhi z. destruct n as [x|]; simpl; [intros [= <-]; lia | discriminate]. Qed.

Lemma clamped_slice_length (hi : Z) (n : num) (l : list Article.t) :
  1 <= hi -> (length (slice_to l (Math_min hi (Math_max 1 n))) <= Z.to_nat hi)%nat.
Proof.
  intros Hhi. destruct (Math_min hi (Math_max 1 n)) as [z|] eqn:Hz; [|simpl; lia].
  pose proof (clamp_bounds hi n Hhi z Hz). pose proof (slice_to_length l z). lia.
Qed.

(** ** The fallback table *)

Lemma assoc_In {A} (k : string) (l : list (string * A)) (v : A) :
  assoc k l = Some v -> In v (map snd l).
Proof.
  induction l as [|[k' v'] t IH]; simpl; [discriminate|].
  destruct (String.eqb k k'); [intros [= ->]; now left | intros H; right; now apply IH].
Qed.

(** every list of the table has two or three records, all with the url
    ["#"] and with different ids *)
Lemma HARDCODED_DATA_news_lists :
  Forall (fun l => distinct_ids l
                   /\ (2 <= length l <= 3)%nat
                   /\ Forall (fun a => Article.url a = JStr "#") l)
         (map snd HARDCODED_DATA_news).
Proof.
  unfold distinct_ids, HARDCODED_DATA_news. simpl map.
  repeat (apply List.Forall_cons; [split; [|split] |]); try apply List.Forall_nil.
  all: try (simpl; lia).
  all: try (repeat apply List.Forall_cons; try apply List.Forall_nil; reflexivity).
  all: apply NoDup_ListNoDup; simpl;
    repeat (apply List.NoDup_cons;
            [simpl; intros Hin; repeat (destruct Hin as [Hin|Hin]; [discriminate Hin|]);
             exact Hin |]).
  all: apply List.NoDup_nil.
Qed.

Lemma table_list_facts (k : string) (l0 : list Article.t) :
  assoc k HARDCODED_DATA_news = Some l0 ->
  distinct_ids l0 /\ (2 <= length l0 <= 3)%nat
  /\ Forall (fun a => Article.url a = JStr "#") l0.
Proof.
  intros H. pose proof HARDCODED_DATA_news_lists as Hall. rewrite Forall_forall in Hall.
  apply Hall, list_elem_of_In. eapply assoc_In, H.
Qed.

Lemma general_list_exists : exists l0, assoc "general" HARDCODED_DATA_news = Some l0.
Proof. eexists. reflexivity. Qed.

Lemma same_records_facts (l0 l : list Article.t) :
  same_records l0 l -> distinct_ids l0 ->
  distinct_ids l /\ length l = length l0.
Proof.
  intros [Hp _] Hd. split.
  - unfold distinct_ids in *. eapply NoDup_Permutation_proper; [symmetry; exact Hp | exact Hd].
  - apply Permutation_length in Hp. rewrite !length_map in Hp. congruence.
Qed.

Lemma same_records_refl (l0 : list Article.t) :
  Forall (fun a => Article.url a = JStr "#") l0 -> same_records l0 l0.
Proof. intros H. split; [reflexivity | exact H]. Qed.

Lemma same_records_sort (l0 l : list Article.t) :
  same_records l0 l -> same_records l0 (Array_sort l).
Proof.
  intros [Hp Hu]. split.
  - rewrite Hp. apply Permutation_map. symmetry. apply Array_sort_perm.
  - eapply Permutation_Forall; [symmetry; apply Array_sort_perm | exact Hu].
Qed.

Lemma backfill_keeps (w : world) (a : Article.t) :
  Article.id (backfill w a) = Article.id a /\ Article.url (backfill w a) = Article.url a.
Proof. unfold backfill. destruct (gemini w a); split; reflexivity. Qed.

Lemma same_records_enrich (w : world) (m : nat) (l0 l : list Article.t) :
  same_records l0 l -> same_records l0 (enrich w m l).
Proof.
  intros [Hp Hu]. unfold enrich. split.
  - rewrite Hp. rewrite <- (take_drop m l) at 1. rewrite !map_app. f_equal.
    rewrite map_map. apply Permutation_app_tail. erewrite map_ext; [reflexivity|].
    intros a. simpl. symmetry. apply backfill_keeps.
  - apply Forall_app. split.
    + apply Forall_forall. intros x Hx. apply list_elem_of_In, in_map_iff in Hx as (a & <- & Ha).
      destruct (backfill_keeps w a) as [_ ->].
      rewrite Forall_forall in Hu. apply Hu, list_elem_of_In. eapply In_take, Ha.
    + now apply Forall_drop.
Qed.

Lemma store_ok_boot : store_ok HARDCODED_DATA_news.
Proof.
  pose proof HARDCODED_DATA_news_lists as Hall. unfold store_ok.
  induction HARDCODED_DATA_news as [|kl t IH]; [constructor|].
  simpl in Hall. inversion Hall as [|? ? (_ & _ & Hu) Ht]; subst.
  constructor; [split; [reflexivity | now apply same_records_refl] | now apply IH].
Qed.

Lemma paired_assoc (k : string) (t0 t : list (string * list Article.t)) :
  Forall2 (fun kl0 kl => fst kl = fst kl0 /\ same_records (snd kl0) (snd kl)) t0 t ->
  match assoc k t with
  | Some l => exists l0, assoc k t0 = Some l0 /\ same_records l0 l
  | None => assoc k t0 = None
  end.
Proof.
  induction 1 as [|[k0 l0] [k1 l1] t0 t [Hk Hr] _ IH]; simpl; [reflexivity|].
  simpl in Hk, Hr. subst k1. destruct (String.eqb k k0); [now exists l0 | exact IH].
Qed.

Lemma paired_update (key : string) (f : list Article.t -> list Article.t)
    (t0 t : list (string * list Article.t)) :
  (forall l0 l, same_records l0 l -> same_records l0 (f l)) ->
  Forall2 (fun kl0 kl => fst kl = fst kl0 /\ same_records (snd kl0) (snd kl)) t0 t ->
  Forall2 (fun kl0 kl => fst kl = fst kl0 /\ same_records (snd kl0) (snd kl)) t0
          (update_array key f t).
Proof.
  intros Hf. induction 1 as [|[k0 l0] [k1 l1] t0 t [Hk Hr] _ IH]; simpl; [constructor|].
  constructor; [|exact IH]. simpl in *.
  destruct (String.eqb k1 key); simpl; split; auto.
Qed.

Lemma store_ok_sorted (key : string) (news : list (string * list Article.t)) :
  store_ok news -> store_ok (update_array key Array_sort news).
Proof. apply paired_update. intros l0 l. apply same_records_sort. Qed.

Lemma store_ok_enriched (w : world) (key : string) (m : nat)
    (news : list (string * list Article.t)) :
  store_ok news -> store_ok (update_array key (enrich w m) news).
Proof. apply paired_update. intros l0 l. apply same_records_enrich. Qed.

(** what the fallback lookup gives: a list with the records of the table's
    list for the category, or of the general list when the table has none
    for it; or, for the name of an inherited member, no list at all *)
Lemma fallback_for_cases (news : list (string * list Article.t)) (category : string) :
  store_ok news ->
  (exists l l0,
      fallback_for news category = DArr l
      /\ same_records l0 l
      /\ distinct_ids l /\ (2 <= length l <= 3)%nat
      /\ (assoc category HARDCODED_DATA_news = Some l0
          \/ (assoc category HARDCODED_DATA_news = None
              /\ assoc "general" HARDCODED_DATA_news = Some l0)))
  \/ (existsb (String.eqb category) Object_prototype_names = true
      /\ data_items (fallback_for news category) = []
      /\ forall l, fallback_for news category <> DArr l).
Proof.
  intros Hok. unfold fallback_for, obj_lookup.
  pose proof (paired_assoc category _ _ Hok) as Hcat.
  pose proof (paired_assoc "general" _ _ Hok) as Hgen.
  destruct (assoc category news) as [l|].
  - left. destruct Hcat as (l0 & H0 & Hr).
    destruct (table_list_facts _ _ H0) as (Hd & Hlen & _).
    destruct (same_records_facts _ _ Hr Hd) as [Hd' Hlen'].
    exists l, l0. split; [reflexivity|]. split; [exact Hr|]. split; [exact Hd'|].
    split; [lia | now left].
  - destruct (existsb (String.eqb category) Object_prototype_names) eqn:Hproto.
    + right. split; [reflexivity|].
      destruct (String.eqb category "__proto__"); split; try reflexivity; intros l; discriminate.
    + left. destruct (assoc "general" news) as [l|].
      * destruct Hgen as (l0 & H0 & Hr).
        destruct (table_list_facts _ _ H0) as (Hd & Hlen & _).
        destruct (same_records_facts _ _ Hr Hd) as [Hd' Hlen'].
        exists l, l0. split; [reflexivity|]. split; [exact Hr|]. split; [exact Hd'|].
        split; [lia | now right].
      * destruct general_list_exists as [l0 H0]. congruence.
Qed.

Lemma fallback_items_ok (news : list (string * list Article.t)) (category : string) :
  store_ok news -> result_set_ok (data_items (fallback_for news category)).
Proof.
  intros Hok.
  destruct (fallback_for_cases news category Hok)
    as [(l & l0 & -> & _ & Hd & Hlen & _) | (_ & -> & _)]; simpl.
  - split; [lia | now right].
  - split; [simpl; lia | left; constructor].
Qed.

Lemma sorted_slice_ok (hi : Z) (n : num) (l : list Article.t) :
  1 <= hi <= 50 ->
  distinct_urls l \/ distinct_ids l ->
  result_set_ok (slice_to (Array_sort l) (Math_min hi (Math_max 1 n))).
Proof.
  intros Hhi Hl. split; [|now apply sorted_slice_distinct].
  pose proof (clamped_slice_length hi n (Array_sort l)). lia.
Qed.

(** ** What the handlers keep true of the state and of their answers *)

Arguments fetch_all : simpl never.
Arguments fallback_for : simpl never.
Arguments fallback_key : simpl never.
Arguments update_array : simpl never.
Arguments dedup_by_url : simpl never.
Arguments Array_sort : simpl never.
Arguments slice_to : simpl never.
Arguments news_requests : simpl never.
Arguments local_requests : simpl never.
Arguments news_cacheKey : simpl never.
Arguments local_cacheKey : simpl never.
Arguments news_category : simpl never.
Arguments local_location : simpl never.
Arguments news_pageSize : simpl never.
Arguments local_pageSize : simpl never.
Arguments news_page : simpl never.
Arguments NodeCache.get : simpl never.
Arguments NodeCache.set : simpl never.
Arguments toLowerCase : simpl never.
Arguments param_or : simpl never.

Lemma cache_ok_get (now : Z) (key : string) (c : gmap string NodeCache.entry) :
  cache_ok c ->
  cache_ok (snd (NodeCache.get now key c))
  /\ forall l, fst (NodeCache.get now key c) = Some l -> result_set_ok l.
Proof.
  intros Hc. unfold NodeCache.get.
  destruct (c !! key) as [e|] eqn:He; [destruct (NodeCache.alive now e)|]; simpl.
  - split; [exact Hc | intros l [= <-]; exact (Hc key e He)].
  - split; [now apply map_Forall_delete | discriminate].
  - split; [exact Hc | discriminate].
Qed.

Lemma cache_ok_set (ttl : num) (now : Z) (key : string) (l : list Article.t)
    (c : gmap string NodeCache.entry) :
  result_set_ok l -> cache_ok c -> cache_ok (NodeCache.set ttl now key l c).
Proof. intros Hl Hc. unfold NodeCache.set. now apply map_Forall_insert_2. Qed.

Ltac read_answer :=
  unfold response_items, field, res_json, getNews_catch, getLocalNews_catch in *; simpl in *.

Ltac walk_handler :=
  cbv zeta;
  repeat match goal with
    | |- context [match cache_failure ?w with _ => _ end] => destruct (cache_failure w)
    | |- context [NodeCache.get ?n ?k ?c] =>
        let cached := fresh "cached" in
        let c1 := fresh "c1" in
        destruct (NodeCache.get n k c) as [[cached|] c1]
    | |- context [fetch_all ?w ?r] =>
        let merged := fresh "merged" in
        let log := fresh "log" in
        destruct (fetch_all w r) as [merged log]
    | |- context [(length (dedup_by_url ?l) =? 0)%nat] =>
        destruct (length (dedup_by_url l) =? 0)%nat
    | |- context [(length (news_requests ?q) =? 0)%nat] =>
        destruct (length (news_requests q) =? 0)%nat
    | |- context [(length (local_requests ?q) =? 0)%nat] =>
        destruct (length (local_requests q) =? 0)%nat
    | |- context [match fallback_for ?n ?k with _ => _ end] =>
        let l := fresh "l" in
        destruct (fallback_for n k) as [l| |]
    end.

Lemma ok_intro (c : gmap string NodeCache.entry) (n : list (string * list Article.t))
    (l : list Article.t) :
  cache_ok c -> store_ok n -> result_set_ok l ->
  (cache_ok c /\ store_ok n) /\ result_set_ok l.
Proof. tauto. Qed.

Lemma getNews_ok (w : world) (q : Query.t) (s : state) :
  state_ok s ->
  state_ok (state_of (getNews w q s))
  /\ result_set_ok (response_items (response_of (getNews w q s))).
Proof.
  intros [Hc Hn]. unfold getNews, getNews_try, cache_get, state_of, response_of, state_ok.
  cbv zeta.
  destruct (cache_failure w) as [e|].
  { read_answer. apply ok_intro; try assumption. now apply fallback_items_ok. }
  destruct (cache_ok_get (clock_get w) (news_cacheKey q) (cache s) Hc) as [Hc1 Hhit].
  destruct (NodeCache.get (clock_get w) (news_cacheKey q) (cache s)) as [[cached|] c1].
  { read_answer. apply ok_intro; try assumption. now apply Hhit. }
  destruct (length (news_requests q) =? 0)%nat.
  { read_answer. apply ok_intro; try assumption. now apply fallback_items_ok. }
  destruct (fetch_all w (news_requests q)) as [merged log].
  assert (Hany : forall l, distinct_urls l \/ distinct_ids l ->
                   result_set_ok (slice_to (Array_sort l) (news_pageSize q))).
  { intros l Hl. apply sorted_slice_ok; [lia | exact Hl]. }
  destruct (length (dedup_by_url merged) =? 0)%nat.
  - destruct (fallback_for_cases (news s) (news_category q) Hn)
      as [(l & l0 & Hl & _ & Hd & _) | (_ & _ & Hno)].
    + rewrite Hl. read_answer. apply ok_intro; [apply cache_ok_set; auto | | auto].
      destruct (geminiModel env && negb (length (slice_to (Array_sort l) (news_pageSize q)) =? 0)%nat).
      * now apply store_ok_enriched, store_ok_sorted.
      * now apply store_ok_sorted.
    + destruct (fallback_for (news s) (news_category q)) as [l| |] eqn:Hf;
        [now destruct (Hno l)| |];
        read_answer; (apply ok_intro; try assumption; now apply fallback_items_ok).
  - read_answer. pose proof (dedup_by_url_distinct merged).
    apply ok_intro; [apply cache_ok_set; auto | assumption | auto].
Qed.

Lemma getLocalNews_ok (w : world) (q : Query.t) (s : state) :
  state_ok s ->
  state_ok (state_of (getLocalNews w q s))
  /\ result_set_ok (response_items (response_of (getLocalNews w q s))).
Proof.
  intros [Hc Hn].
  unfold getLocalNews, getLocalNews_try, cache_get, state_of, response_of, state_ok.
  cbv zeta.
  destruct (cache_failure w) as [e|].
  { read_answer. apply ok_intro; try assumption. split; [simpl; lia | left; constructor]. }
  destruct (cache_ok_get (clock_get w) (local_cacheKey q) (cache s) Hc) as [Hc1 Hhit].
  destruct (NodeCache.get (clock_get w) (local_cacheKey q) (cache s)) as [[cached|] c1].
  { read_answer. apply ok_intro; try assumption. now apply Hhit. }
  destruct (length (local_requests q) =? 0)%nat.
  { read_answer. apply ok_intro; try assumption.
    split; [simpl; lia | left; repeat constructor]. }
  destruct (fetch_all w (local_requests q)) as [merged log]. read_answer.
  pose proof (dedup_by_url_distinct merged).
  assert (result_set_ok (slice_to (Array_sort (dedup_by_url merged)) (local_pageSize q))).
  { apply sorted_slice_ok; [lia | now left]. }
  apply ok_intro; [apply cache_ok_set; auto | assumption | assumption].
Qed.

Lemma reachable_state_ok (s : state) : reachable s -> state_ok s.
Proof.
  induction 1 as [|w q s _ IH|w q s _ IH].
  - split; [apply map_Forall_empty | apply store_ok_boot].
  - now apply getNews_ok.
  - now apply getLocalNews_ok.
Qed.


(** ** The live path *)

Lemma getNews_live (w : world) (q : Query.t) (s : state) :
  cache_failure w = None ->
  fst (NodeCache.get (clock_get w) (news_cacheKey q) (cache s)) = None ->
  news_requests q <> [] ->
  dedup_by_url (fst (fetch_all w (news_requests q))) <> [] ->
  response_of (getNews w q s)
  = res_json
      [ ("ok", FBool true);
        ("fromCache", FBool false);
        ("aiEnabled", FBool (geminiModel env));
        ("category", FStr (news_category q));
        ("total", FNum (Some (Z.of_nat (length
           (slice_to (Array_sort (dedup_by_url (fst (fetch_all w (news_requests q)))))
                     (news_pageSize q))))));
        ("page", FNum (news_page q));
        ("pageSize", FNum (news_pageSize q));
        ("data", FData (DArr
           (slice_to (Array_sort (dedup_by_url (fst (fetch_all w (news_requests q)))))
                     (news_pageSize q)))) ]
  /\ news (state_of (getNews w q s)) = news s.
Proof.
  intros Hw Hmiss Hreq Hmerged.
  unfold response_of, state_of, getNews, getNews_try, cache_get. cbv zeta. rewrite Hw.
  destruct (NodeCache.get (clock_get w) (news_cacheKey q) (cache s)) as [cached c1].
  cbn [fst] in Hmiss. subst cached.
  destruct (fetch_all w (news_requests q)) as [merged log]. cbn [fst] in *.
  destruct (news_requests q) as [|r rs]; [congruence|].
  destruct (dedup_by_url merged) as [|x xs]; [congruence|]. split; reflexivity.
Qed.

Lemma getLocalNews_live (w : world) (q : Query.t) (s : state) :
  cache_failure w = None ->
  fst (NodeCache.get (clock_get w) (local_cacheKey q) (cache s)) = None ->
  local_requests q <> [] ->
  response_of (getLocalNews w q s)
  = res_json
      [ ("ok", FBool true);
        ("fromCache", FBool false);
        ("location", FStr (local_location q));
        ("total", FNum (Some (Z.of_nat (length
           (slice_to (Array_sort (dedup_by_url (fst (fetch_all w (local_requests q)))))
                     (local_pageSize q))))));
        ("data", FData (DArr
           (slice_to (Array_sort (dedup_by_url (fst (fetch_all w (local_requests q)))))
                     (local_pageSize q)))) ].
Proof.
  intros Hw Hmiss Hreq.
  unfold response_of, getLocalNews, getLocalNews_try, cache_get. cbv zeta. rewrite Hw.
  destruct (NodeCache.get (clock_get w) (local_cacheKey q) (cache s)) as [cached c1].
  cbn [fst] in Hmiss. subst cached.
  destruct (fetch_all w (local_requests q)) as [merged log]. cbn [fst] in *.
  destruct (local_requests q) as [|r rs]; [congruence|]. reflexivity.
Qed.


(** ** Validation at the route *)

Lemma check_int_rejects (path msg : string) (lo hi : Z) (text : string) (z : Z) :
  int_literal text = Some z -> ~ (lo <= z <= hi) ->
  check_int path msg lo hi (Some text) <> [].
Proof.
  intros Hs Hz. unfold check_int, isInt. rewrite Hs.
  destruct (Z.leb_spec lo z), (Z.leb_spec z hi); simpl; try discriminate. lia.
Qed.

Lemma validate_rejects (errors : list validation_error) (next : state -> outcome) (s : state) :
  errors <> [] ->
  validate errors next s
  = ({| status := 400; body := [ ("ok", FBool false); ("errors", FErrors errors) ] |}, s, []).
Proof. destruct errors; [congruence | reflexivity]. Qed.

Lemma validate_cases (errors : list validation_error) (next : state -> outcome) (s : state) :
  validate errors next s = next s
  \/ validate errors next s
     = ({| status := 400; body := [ ("ok", FBool false); ("errors", FErrors errors) ] |}, s, []).
Proof. destruct errors; [now left | now right]. Qed.

(** C7.  Over the life of the process, the category-news controller never
    returns more than 50 articles, whatever [pageSize] asks for (500
    included), and neither does the route; and the route answers a request
    whose [pageSize] is zero or negative with status 400 and [ok = false],
    without touching the state and without any upstream call. *)
Theorem pageSize_clamped_and_validated (w : world) (q : Query.t) (s : state) :
  reachable s ->
  (length (response_items (response_of (getNews w q s))) <= 50)%nat
  /\ (length (response_items (response_of (GET_news w q s))) <= 50)%nat
  /\ (forall text z,
        Query.pageSize q = Some text -> int_literal text = Some z -> z <= 0 ->
        status (response_of (GET_news w q s)) = 400
        /\ field (response_of (GET_news w q s)) "ok" = Some (FBool false)
        /\ field (response_of (GET_news w q s)) "data" = None
        /\ state_of (GET_news w q s) = s
        /\ log_of (GET_news w q s) = []).
Proof.
  intros Hreach. apply reachable_state_ok in Hreach. split; [|split].
  - now destruct (getNews_ok w q s Hreach) as [_ [H _]].
  - unfold GET_news.
    destruct (check_text "category" "Category must be 1-50 characters" 1 50 (Query.category q))
      as [category e1].
    match goal with |- context [validate ?e ?n s] => destruct (validate_cases e n s) as [-> | ->] end.
    + now destruct (getNews_ok w (Query.mk category (Query.page q) (Query.pageSize q)
                                           (Query.location q)) s Hreach) as [_ [H _]].
    + unfold response_of, response_items, field. simpl. lia.
  - intros text z Hs Hlit Hz. unfold GET_news.
    destruct (check_text "category" "Category must be 1-50 characters" 1 50 (Query.category q))
      as [category e1].
    rewrite validate_rejects.
    + unfold response_of, state_of, log_of, field. simpl. repeat split.
    + rewrite Hs. intros Hnil.
      apply app_eq_nil in Hnil as [_ Hnil]. apply app_eq_nil in Hnil as [_ Hnil].
      revert Hnil. apply check_int_rejects with (z := z); [exact Hlit | lia].
Qed.

(** ** The shape of the answers *)







(** ** Requests without provider keys *)

Lemma no_keys_no_requests (searchQuery : string) (page pageSize : num) :
  key_configured (GNEWS_API_KEY env) "your_gnews_api_key_here" = false ->
  key_configured (GUARDIAN_API_KEY env) "your_guardian_api_key_here" = false ->
  buildAPIRequests env searchQuery page pageSize = [].
Proof. intros H1 H2. unfold buildAPIRequests. now rewrite H1, H2. Qed.

Lemma NodeCache_get_empty (now : Z) (key : string) :
  NodeCache.get now key (∅ : gmap string NodeCache.entry) = (None, ∅).
Proof. unfold NodeCache.get. now rewrite lookup_empty. Qed.

(** without provider keys nothing is ever cached and the fallback table is
    never written to *)
Lemma reachable_without_keys (s : state) :
  key_configured (GNEWS_API_KEY env) "your_gnews_api_key_here" = false ->
  key_configured (GUARDIAN_API_KEY env) "your_guardian_api_key_here" = false ->
  reachable s -> s = boot.
Proof.
  intros H1 H2. induction 1 as [|w q s _ IH|w q s _ IH]; [reflexivity| |]; subst s.
  - unfold state_of, getNews, getNews_try, cache_get, news_requests, boot. cbv zeta.
    cbn [cache news].
    rewrite NodeCache_get_empty, no_keys_no_requests by assumption.
    now destruct (cache_failure w).
  - unfold state_of, getLocalNews, getLocalNews_try, cache_get, local_requests, boot. cbv zeta.
    cbn [cache news].
    rewrite NodeCache_get_empty, no_keys_no_requests by assumption.
    now destruct (cache_failure w).
Qed.

(** Without provider keys, and for a category that is not the name of an
    inherited object member, [getNews] answers with [isFallback = true] and
    the non-empty list of the fallback table for the category, or the
    general list when the table has none; it changes nothing and calls no
    provider. *)
Lemma getNews_without_keys (w : world) (q : Query.t) (s : state) :
  key_configured (GNEWS_API_KEY env) "your_gnews_api_key_here" = false ->
  key_configured (GUARDIAN_API_KEY env) "your_guardian_api_key_here" = false ->
  reachable s ->
  cache_failure w = None ->
  existsb (String.eqb (news_category q)) Object_prototype_names = false ->
  exists l,
    getNews w q s
    = (res_json [ ("ok", FBool true); ("fromCache", FBool false);
                  ("isFallback", FBool true); ("category", FStr (news_category q));
                  ("data", FData (DArr l)) ],
       s, [])
    /\ l <> []
    /\ (assoc (news_category q) HARDCODED_DATA_news = Some l
        \/ (assoc (news_category q) HARDCODED_DATA_news = None
            /\ assoc "general" HARDCODED_DATA_news = Some l)).
Proof.
  intros H1 H2 Hreach Hw Hcat.
  rewrite (reachable_without_keys s H1 H2 Hreach).
  assert (Hl : exists l, fallback_for HARDCODED_DATA_news (news_category q) = DArr l
                         /\ (assoc (news_category q) HARDCODED_DATA_news = Some l
                             \/ (assoc (news_category q) HARDCODED_DATA_news = None
                                 /\ assoc "general" HARDCODED_DATA_news = Some l))).
  { unfold fallback_for, obj_lookup. rewrite Hcat.
    destruct (assoc (news_category q) HARDCODED_DATA_news) as [l|]; [exists l; auto|].
    destruct general_list_exists as [l0 H0]. rewrite H0. exists l0. auto. }
  destruct Hl as (l & Hl & Hsrc). exists l. split; [|split; [|exact Hsrc]].
  - unfold getNews, getNews_try, cache_get, news_requests, boot. cbv zeta. cbn [cache news].
    rewrite Hw, NodeCache_get_empty, no_keys_no_requests by assumption.
    simpl. now rewrite Hl.
  - intros ->.
    assert (Hin : exists k, assoc k HARDCODED_DATA_news = Some [])
      by (destruct Hsrc as [H | [_ H]]; eauto).
    destruct Hin as [k Hk]. destruct (table_list_facts k [] Hk) as (_ & Hlen & _).
    simpl in Hlen. lia.
Qed.

Lemma getNews_live_shape (w : world) (q : Query.t) (s : state) :
  field (response_of (getNews w q s)) "fromCache" = Some (FBool false) ->
  field (response_of (getNews w q s)) "isFallback" = None ->
  exists articles c' news' log,
    getNews w q s
    = (res_json [ ("ok", FBool true);
                  ("fromCache", FBool false);
                  ("aiEnabled", FBool (geminiModel env));
                  ("category", FStr (news_category q));
                  ("total", FNum (Some (Z.of_nat (length articles))));
                  ("page", FNum (news_page q));
                  ("pageSize", FNum (news_pageSize q));
                  ("data", FData (DArr articles)) ],
       {| cache := NodeCache.set (NodeCache.stdTTL env) (clock_set w) (news_cacheKey q)
                                 articles c';
          news := news' |},
       log).
Proof.
  unfold response_of, getNews, getNews_try, cache_get. walk_handler;
    unfold field, res_json, getNews_catch; simpl; intros H1 H2; try discriminate;
    do 4 eexists; reflexivity.
Qed.

Lemma alive_fresh (ttl : num) (stored now : Z) (l : list Article.t) :
  fresh_at ttl stored now ->
  NodeCache.alive now {| NodeCache.v := l; NodeCache.t := NodeCache.livetime ttl stored |} = true.
Proof.
  unfold fresh_at, NodeCache.alive, NodeCache.livetime. simpl.
  destruct ttl as [[|p|p]|]; simpl; try reflexivity.
  - intros [H|H]; [discriminate|]. apply Bool.orb_true_iff. right. apply Z.leb_le. lia.
  - intros [H|H]; [discriminate|]. apply Bool.orb_true_iff. right. apply Z.leb_le. lia.
Qed.

Lemma NodeCache_get_set (ttl : num) (stored now : Z) (key : string) (l : list Article.t)
    (c : gmap string NodeCache.entry) :
  fresh_at ttl stored now ->
  NodeCache.get now key (NodeCache.set ttl stored key l c)
  = (Some l, NodeCache.set ttl stored key l c).
Proof.
  intros Hfresh. unfold NodeCache.get, NodeCache.set.
  rewrite lookup_insert_eq. now rewrite alive_fresh.
Qed.

Lemma getNews_hit (w : world) (q : Query.t) (s : state) (l : list Article.t) :
  cache_failure w = None ->
  NodeCache.get (clock_get w) (news_cacheKey q) (cache s) = (Some l, cache s) ->
  getNews w q s
  = (res_json [ ("ok", FBool true);
                ("fromCache", FBool true);
                ("aiEnabled", FBool (geminiModel env));
                ("category", FStr (news_category q));
                ("data", FData (DArr l)) ],
     s, []).
Proof.
  intros Hw Hget. unfold getNews, getNews_try, cache_get. cbv zeta.
  rewrite Hw, Hget. now destruct s.
Qed.

(** C5, amended.  When a call of [getNews] returned live results (at least
    one provider configured, a cache miss, no internal error), a second call
    with the same category, page and page size, made before the stored entry
    expires, answers [fromCache = true] with the same article list, without
    any upstream call and without changing the state. *)
Theorem repeated_call_served_from_cache (w1 w2 : world) (q1 q2 : Query.t) (s : state) :
  news_category q2 = news_category q1 ->
  news_page q2 = news_page q1 ->
  news_pageSize q2 = news_pageSize q1 ->
  field (response_of (getNews w1 q1 s)) "fromCache" = Some (FBool false) ->
  field (response_of (getNews w1 q1 s)) "isFallback" = None ->
  cache_failure w2 = None ->
  fresh_at (NodeCache.stdTTL env) (clock_set w1) (clock_get w2) ->
  field (response_of (getNews w2 q2 (state_of (getNews w1 q1 s)))) "fromCache"
  = Some (FBool true)
  /\ field (response_of (getNews w2 q2 (state_of (getNews w1 q1 s)))) "data"
     = field (response_of (getNews w1 q1 s)) "data"
  /\ (exists l, field (response_of (getNews w1 q1 s)) "data" = Some (FData (DArr l)))
  /\ log_of (getNews w2 q2 (state_of (getNews w1 q1 s))) = []
  /\ state_of (getNews w2 q2 (state_of (getNews w1 q1 s))) = state_of (getNews w1 q1 s).
Proof.
  intros Hcat Hpage Hsize Hfrom Hfb Hw2 Hfresh.
  destruct (getNews_live_shape w1 q1 s Hfrom Hfb) as (articles & c' & news' & log & H1).
  assert (Hkey : news_cacheKey q2 = news_cacheKey q1).
  { unfold news_cacheKey. now rewrite Hcat, Hpage, Hsize. }
  assert (Hs1 : state_of (getNews w1 q1 s)
                = {| cache := NodeCache.set (NodeCache.stdTTL env) (clock_set w1)
                                            (news_cacheKey q1) articles c';
                     news := news' |}) by now rewrite H1.
  rewrite Hs1, (getNews_hit w2 q2 _ articles), H1;
    [| exact Hw2 | rewrite Hkey; cbn [cache]; now apply NodeCache_get_set].
  unfold response_of, log_of, state_of, field, res_json. simpl.
  repeat split. now exists articles.
Qed.

(** ** Partial failure *)

Lemma provider_task_failed (w : world) (r : Req.t) :
  (forall i, (i <= 2)%nat ->
             exists err, upstream w (axios_request (Req.url r) no_options) i = Rejected err) ->
  fst (provider_task w r) = [].
Proof.
  intros Hall. unfold provider_task, fetchWithRetry.
  destruct (fetch_loop_policy (upstream w) (axios_request (Req.url r) no_options) 2 3 0 eq_refl)
    as (_ & _ & _ & _ & Hfail).
  destruct Hfail as (err & _ & Hthrow & _); [lia | intros j Hj; apply Hall; lia |].
  destruct (fetch_loop _ _ _ _ _) as [fetched log]. simpl in Hthrow. subst fetched.
  reflexivity.
Qed.

Lemma dedup_from_distinct_id (l : list Article.t) :
  forall seen,
    distinct_urls l ->
    Forall (fun a => existsb (same_value_zero (Article.url a)) seen = false) l ->
    dedup_from seen l = l.
Proof.
  unfold distinct_urls. induction l as [|a rest IH]; intros seen Hd Hs; simpl; [reflexivity|].
  inversion Hd as [|? ? Ha Hrest]; subst. inversion Hs as [|? ? Hsa Hsrest]; subst.
  rewrite Hsa. f_equal. apply IH; [exact Hrest|].
  rewrite Forall_forall in *. intros x Hx. simpl.
  rewrite (Hsrest x Hx), same_value_zero_sym, (Ha x Hx). reflexivity.
Qed.

Lemma dedup_by_url_distinct_id (l : list Article.t) :
  distinct_urls l -> dedup_by_url l = l.
Proof.
  intros Hd. apply dedup_from_distinct_id; [exact Hd|].
  apply Forall_forall. reflexivity.
Qed.



(** ** Items without a url *)

Lemma url_sentinel_differs (x : Article.t) :
  Article.url x <> JStr "#" -> same_value_zero (JStr "#") (Article.url x) = false.
Proof.
  intros Hx. destruct (same_value_zero (JStr "#") (Article.url x)) eqn:H; [|reflexivity].
  apply same_value_zero_eq in H. congruence.
Qed.

(** C10.  A GNews item without a url is normalized to the url ["#"] with a
    generated id, a Guardian item without a [webUrl] to the url ["#"]; and
    when the merge of one [getNews] aggregation holds two such articles
    [a] before [b], with different ids, [a] being the first article of the
    merge with that url, deduplication keeps [a], removes [b] as if it had
    not been there, and [b] is not in the answer. *)
Theorem second_url_less_item_dropped (w : world) (q : Query.t) (s : state)
    (l1 l2 l3 : list Article.t) (a b : Article.t) :
  cache_failure w = None ->
  fst (NodeCache.get (clock_get w) (news_cacheKey q) (cache s)) = None ->
  news_requests q <> [] ->
  fst (fetch_all w (news_requests q)) = (l1 ++ a :: l2 ++ b :: l3)%list ->
  Article.url a = JStr "#" ->
  Article.url b = JStr "#" ->
  Article.id a <> Article.id b ->
  Forall (fun x => Article.url x <> JStr "#") l1 ->
  (forall e raw x,
      normalizeArticle "gnews" e raw = Ret (Some x) ->
      truthy (opt_chain raw "url") = false ->
      Article.url x = JStr "#" /\ Article.id x = generated_id "gnews" e)
  /\ (forall e raw x,
      normalizeArticle "guardian" e raw = Ret (Some x) ->
      truthy (opt_chain raw "webUrl") = false ->
      Article.url x = JStr "#")
  /\ In a (dedup_by_url (l1 ++ a :: l2 ++ b :: l3))
  /\ ~ In b (dedup_by_url (l1 ++ a :: l2 ++ b :: l3))
  /\ dedup_by_url (l1 ++ a :: l2 ++ b :: l3) = dedup_by_url (l1 ++ a :: l2 ++ l3)
  /\ ~ In b (response_items (response_of (getNews w q s))).
Proof.
  intros Hw Hmiss Hreq Hmerged Ha Hb Hid Hl1.
  assert (Hkept : In a (dedup_by_url (l1 ++ a :: l2 ++ b :: l3))).
  { apply dedup_from_keeps_first; [reflexivity|].
    eapply Forall_impl; [exact Hl1|]. intros x Hx. rewrite Ha. now apply url_sentinel_differs. }
  assert (Hgone : ~ In b (dedup_by_url (l1 ++ a :: l2 ++ b :: l3))).
  { intros Hin.
    destruct (ForallOrdPairs_In (dedup_by_url_distinct (l1 ++ a :: l2 ++ b :: l3)) a b Hkept Hin)
      as [Heq | [H | H]].
    - apply Hid. now rewrite Heq.
    - rewrite Ha, Hb in H. discriminate H.
    - rewrite Ha, Hb in H. discriminate H. }
  split; [|split; [|split; [exact Hkept | split; [exact Hgone | split]]]].
  - intros e raw x. rewrite normalizeArticle_cases. unfold normalize_switch. simpl.
    destruct raw; simpl; try discriminate; intros [= <-] Hu; simpl;
      try (split; reflexivity).
    unfold js_or. simpl in Hu. rewrite Hu. split; reflexivity.
  - intros e raw x. rewrite normalizeArticle_cases. unfold normalize_switch. simpl.
    destruct raw; simpl; try discriminate.
    + intros [= <-] _. reflexivity.
    + intros [= <-] _. reflexivity.
    + intros [= <-] _. reflexivity.
    + intros [= <-] _. reflexivity.
    + destruct (js_or_else _ _); simpl; [|discriminate].
      intros [= <-] Hu. simpl. unfold js_or. simpl in Hu. now rewrite Hu.
  - apply dedup_from_drops_later. rewrite Ha, Hb. reflexivity.
  - destruct (getNews_live w q s) as [-> _]; try assumption.
    + rewrite Hmerged. intros Hnil. rewrite Hnil in Hkept. exact Hkept.
    + rewrite Hmerged. unfold response_items, field, res_json. simpl.
      destruct (slice_to_take (Array_sort (dedup_by_url (l1 ++ a :: l2 ++ b :: l3)))
                              (news_pageSize q)) as [k ->].
      intros Hin. apply Hgone.
      apply (Permutation_in _ (Array_sort_perm _)).
      eapply In_take, Hin.
Qed.

(** * Further properties of the pipeline *)

(** ** What the adapter produces *)

Lemma js_or_default_truthy (a d : jsval) : truthy d = true -> truthy (js_or a d) = true.
Proof. unfold js_or. destruct (truthy a) eqn:Ha; auto. Qed.

Lemma get_prop_defined (raw : jsval) (name : string) :
  is_nullish raw = false -> get_prop raw name = Ret (opt_chain raw name).
Proof. destruct raw; simpl; try discriminate; reflexivity. Qed.

Lemma normalize_switch_nullish (source : string) (e : entropy) (raw : jsval) :
  is_nullish raw = true -> exists err, normalize_switch source e raw = Throw err.
Proof.
  intros H. unfold normalize_switch.
  destruct raw; try discriminate H;
    destruct (String.eqb source "gnews"), (String.eqb source "guardian"); simpl; eauto.
Qed.


(** X1.  Every article the adapter returns has an id, a title, a url, an
    image, a publication date, a source and a category that are not empty
    (truthy values), a snippet that is filled or the empty string, and the
    summary [null]. *)
Theorem normalizeArticle_fields_filled (source : string) (e : entropy) (raw : jsval)
    (a : Article.t) :
  now_iso e <> "" ->
  normalizeArticle source e raw = Ret (Some a) ->
  truthy (Article.id a) = true
  /\ truthy (Article.title a) = true
  /\ (truthy (Article.snippet a) = true \/ Article.snippet a = JStr "")
  /\ truthy (Article.url a) = true
  /\ truthy (Article.image a) = true
  /\ truthy (Article.publishedAt a) = true
  /\ truthy (Article.source a) = true
  /\ truthy (Article.category a) = true
  /\ Article.aiSummary a = JNull.
Proof.
  intros Hiso. rewrite normalizeArticle_cases.
  assert (Hdate : truthy (JStr (now_iso e)) = true).
  { simpl. destruct (String.eqb_spec (now_iso e) ""); [contradiction | reflexivity]. }
  assert (Hsnip : forall x, truthy (js_or x (JStr "")) = true \/ js_or x (JStr "") = JStr "").
  { intros x. unfold js_or. destruct (truthy x) eqn:Hx; [now left | now right]. }
  destruct (is_nullish raw) eqn:Hraw.
  { destruct (normalize_switch_nullish source e raw Hraw) as [err ->]. discriminate. }
  unfold normalize_switch. rewrite !(get_prop_defined raw _ Hraw).
  remember (opt_chain raw) as prop eqn:Hprop. clear Hprop. simpl rbind.
  destruct (String.eqb source "gnews"); [|destruct (String.eqb source "guardian")].
  - intros [= <-]. simpl.
    repeat split; try (apply js_or_default_truthy; reflexivity || assumption); auto.
  - destruct (js_or_else _ _) as [body|err]; simpl; [|discriminate].
    intros [= <-]. simpl.
    repeat split; try (apply js_or_default_truthy; reflexivity || assumption); auto.
  - intros [= <-]. simpl.
    repeat split; try (apply js_or_default_truthy; reflexivity || assumption); auto.
Qed.

(** X2.  The adapter gives [null] exactly for a [null] or [undefined] item
    and, with the Guardian adapter, for an item that has no [trailText] and
    whose [bodyText] is neither absent nor a string. *)
Theorem normalizeArticle_null_iff (source : string) (e : entropy) (raw : jsval) :
  normalizeArticle source e raw = Ret None <-> unusable source raw = true.
Proof.
  rewrite normalizeArticle_cases. unfold unusable.
  destruct (is_nullish raw) eqn:Hraw.
  { destruct (normalize_switch_nullish source e raw Hraw) as [err ->]. now split. }
  unfold normalize_switch. rewrite !(get_prop_defined raw _ Hraw). simpl rbind.
  destruct (String.eqb_spec source "gnews") as [->|Hg]; [simpl; split; discriminate|].
  destruct (String.eqb source "guardian"); [|simpl; split; discriminate].
  unfold js_or_else. simpl orb. simpl andb.
  destruct (truthy (opt_chain (opt_chain raw "fields") "trailText")); simpl;
    [split; discriminate|].
  destruct (opt_chain (opt_chain raw "fields") "bodyText"); simpl; split;
    try discriminate; reflexivity.
Qed.


(** ** What a fetch costs *)


Lemma backoff_log_cost (config : axios_config) (n : nat) :
  forall i,
    attempts (backoff_log config i n) = S n
    /\ waited (backoff_log config i n)
       = 500 * Z.of_nat n * (2 * Z.of_nat i + Z.of_nat n + 1).
Proof.
  induction n as [|n IH]; intros i; simpl; [split; [reflexivity | lia]|].
  destruct (IH (S i)) as [Ha Hw]. split.
  - unfold attempts in *. simpl. now rewrite Ha.
  - rewrite Hw. lia.
Qed.

(** X4.  [fetchWithRetry] always makes a call; an answer to the first call
    is returned at once, without any wait; an answer to a later call, the
    earlier ones having failed, is returned after exactly the failed calls
    and their waits; and the waits of one fetch add up to at most
    [500 * retries * (retries + 1)] ms, 3000 ms for the two retries the
    controller uses. *)
Theorem fetchWithRetry_cost (net : network) (url : string) (options : fetch_options)
    (retries : nat) :
  let config := axios_request url options in
  let out := fetchWithRetry net url options retries in
  (1 <= attempts (snd out))%nat
  /\ 0 <= waited (snd out) <= 500 * Z.of_nat retries * (Z.of_nat retries + 1)
  /\ (forall data, net config 0%nat = Resolved data -> out = (Ret data, [Axios config]))
  /\ (forall j data,
        (j <= retries)%nat ->
        net config j = Resolved data ->
        (forall i, (i < j)%nat -> exists err, net config i = Rejected err) ->
        fst out = Ret data
        /\ attempts (snd out) = S j
        /\ waited (snd out) = 500 * Z.of_nat j * (Z.of_nat j + 1)).
Proof.
  intros config out. unfold out, fetchWithRetry. fold config.
  destruct (fetch_loop_exact net config retries (S retries) 0%nat eq_refl)
    as (n & Hn & Hlog & Hrej & Hend); [lia|].
  destruct (backoff_log_cost config n 0) as [Hcalls Hwait].
  cbn [Nat.add] in Hn, Hrej, Hend.
  split; [|split; [|split]].
  - rewrite Hlog, Hcalls. lia.
  - rewrite Hlog, Hwait. nia.
  - intros data H0. simpl. now rewrite H0.
  - intros j data Hj Hres Hbefore.
    assert (n = j) as ->.
    { destruct (Nat.lt_trichotomy n j) as [Hlt | [Heq | Hgt]]; [|exact Heq|].
      - destruct (Hbefore n Hlt) as [err Herr].
        destruct Hend as [(d & Hd & _) | (Hlast & _)]; [congruence | lia].
      - destruct (Hrej j) as [err Herr]; [lia | congruence]. }
    rewrite Hlog, Hcalls, Hwait.
    destruct Hend as [(d & Hd & Hout) | (_ & err & Herr & _)]; [|congruence].
    rewrite Hout. split; [congruence | split; [reflexivity | lia]].
Qed.



Lemma prefix_app (s t : string) : String.prefix s (s ++ t) = true.
Proof.
  induction s as [|c s IH]; simpl; [now destruct t|].
  destruct (Ascii.ascii_dec c c); [exact IH | congruence].
Qed.





(** ** Where the articles of a provider come from *)

Lemma normalize_batch_from (source : string) (ent : nat -> entropy) (items : list jsval) :
  forall n l a,
    normalize_batch source ent n items = Ret l -> In a l ->
    exists k raw, items !! k = Some raw
                  /\ normalizeArticle source (ent (n + k)%nat) raw = Ret (Some a).
Proof.
  induction items as [|x rest IH]; intros n l a Hl Hin; simpl in Hl.
  - injection Hl as <-. contradiction.
  - rewrite normalizeArticle_cases in Hl.
    destruct (normalize_batch_returns source ent rest (S n)) as (tl & Htl & _).
    rewrite Htl in Hl.
    assert (Htail : In a tl -> exists k raw,
               (x :: rest) !! k = Some raw
               /\ normalizeArticle source (ent (n + k)%nat) raw = Ret (Some a)).
    { intros H. destruct (IH (S n) tl a Htl H) as (k & raw & Hk & Hn).
      exists (S k), raw. split; [exact Hk|].
      now replace (n + S k)%nat with (S n + k)%nat by lia. }
    destruct (normalize_switch source (ent n) x) as [a'|err] eqn:Hx; simpl in Hl;
      injection Hl as <-; [|now apply Htail].
    destruct Hin as [<-|Hin]; [|now apply Htail].
    exists 0%nat, x. split; [reflexivity|].
    now rewrite Nat.add_0_r, normalizeArticle_cases, Hx.
Qed.

(** X6.  Every article a provider call contributes is the adapter's output
    for an item of the array the provider's payload is expected to hold,
    [articles] for GNews and [response.results] for the Guardian, of a
    payload that was fetched successfully: a failed fetch, a payload of
    another shape or a provider with another name contributes nothing. *)
Theorem provider_task_provenance (w : world) (r : Req.t) (a : Article.t) :
  In a (fst (provider_task w r)) ->
  exists data items k raw,
    fst (fetchWithRetry (upstream w) (Req.url r) no_options 2) = Ret data
    /\ ((Req.provider r = "gnews" /\ opt_chain data "articles" = JArr items)
        \/ (Req.provider r = "guardian"
            /\ opt_chain (opt_chain data "response") "results" = JArr items))
    /\ items !! k = Some raw
    /\ normalizeArticle (Req.provider r) (readings w (Req.provider r) k) raw = Ret (Some a).
Proof.
  unfold provider_task.
  destruct (fetchWithRetry (upstream w) (Req.url r) no_options 2) as [fetched log].
  cbn [fst]. destruct fetched as [data|err]; simpl; [|contradiction].
  unfold extract_articles.
  destruct (is_nullish data) eqn:Hdata.
  { destruct data; try discriminate Hdata;
      destruct (String.eqb (Req.provider r) "gnews"),
               (String.eqb (Req.provider r) "guardian"); simpl; contradiction. }
  rewrite !(get_prop_defined data _ Hdata).
  destruct (String.eqb_spec (Req.provider r) "gnews") as [Hp|Hp]; simpl rbind.
  - destruct (opt_chain data "articles") as [| | | | |items|] eqn:Harr;
      try (rewrite Hp; simpl; contradiction).
    destruct (normalize_batch_returns "gnews" (readings w "gnews") items 0) as (l & Hl & _).
    rewrite Hl. simpl. intros Hin.
    destruct (normalize_batch_from _ _ _ _ _ _ Hl Hin) as (k & raw & Hk & Hn).
    exists data, items, k, raw. rewrite Hp.
    split; [reflexivity | split; [left; now split | split; [exact Hk | exact Hn]]].
  - destruct (String.eqb_spec (Req.provider r) "guardian") as [Hq|Hq]; [|simpl; contradiction].
    destruct (truthy (opt_chain (opt_chain data "response") "results")); [|simpl; contradiction].
    destruct (opt_chain (opt_chain data "response") "results") as [| | | | |items|] eqn:Harr;
      try (simpl; contradiction).
    destruct (normalize_batch_returns "guardian" (readings w "guardian") items 0)
      as (l & Hl & _).
    rewrite Hl. simpl. intros Hin.
    destruct (normalize_batch_from _ _ _ _ _ _ Hl Hin) as (k & raw & Hk & Hn).
    exists data, items, k, raw. rewrite Hq.
    split; [reflexivity | split; [right; now split | split; [exact Hk | exact Hn]]].
Qed.

(** ** Merging the providers' lists *)

Lemma dedup_from_filter (l : list Article.t) :
  forall seen,
    distinct_urls l ->
    dedup_from seen l = List.filter (fun b => negb (url_seen seen b)) l.
Proof.
  unfold distinct_urls, url_seen.
  induction l as [|a rest IH]; intros seen Hd; simpl; [reflexivity|].
  inversion Hd as [|? ? Ha Hrest]; subst.
  destruct (existsb (same_value_zero (Article.url a)) seen); simpl; [now apply IH|].
  f_equal. rewrite IH by exact Hrest. apply List.filter_ext_in. intros b Hb. simpl.
  rewrite List.Forall_forall in Ha. now rewrite same_value_zero_sym, (Ha b Hb).
Qed.

Lemma dedup_from_app (la : list Article.t) :
  forall seen lb,
    distinct_urls la ->
    Forall (fun a => url_seen seen a = false) la ->
    distinct_urls lb ->
    dedup_from seen (la ++ lb)
    = (la ++ List.filter (fun b => negb (url_seen (map Article.url la ++ seen) b)) lb)%list.
Proof.
  induction la as [|a rest IH]; intros seen lb Ha Hs Hb; simpl.
  - now apply dedup_from_filter.
  - unfold distinct_urls in Ha. inversion Ha as [|? ? Hhead Hrest]; subst.
    inversion Hs as [|? ? Hsa Hsrest]; subst.
    unfold url_seen in Hsa. rewrite Hsa. f_equal.
    rewrite IH; [|exact Hrest| |exact Hb].
    + f_equal. apply List.filter_ext. intros b. unfold url_seen.
      rewrite !existsb_app. simpl.
      destruct (existsb _ (map Article.url rest)), (same_value_zero _ (Article.url a)),
               (existsb _ seen); reflexivity.
    + rewrite List.Forall_forall in *. intros x Hx. unfold url_seen in *. simpl.
      now rewrite same_value_zero_sym, (Hhead x Hx), (Hsrest x Hx).
Qed.

(** X7.  When each of two providers yields articles with pairwise different
    urls, the merge keeps the whole list of the first provider, in its
    order, followed by those articles of the second whose url the first did
    not bring: on a shared url the article of the provider asked first
    wins. *)
Theorem merge_prefers_first_provider (la lb : list Article.t) :
  distinct_urls la -> distinct_urls lb ->
  dedup_by_url (la ++ lb)
  = (la ++ List.filter (fun b => negb (url_seen (map Article.url la) b)) lb)%list.
Proof.
  intros Ha Hb. unfold dedup_by_url.
  rewrite dedup_from_app; [now rewrite app_nil_r | exact Ha | | exact Hb].
  apply List.Forall_forall. reflexivity.
Qed.

Lemma dedup_from_sub (l : list Article.t) :
  forall seen,
    (length (dedup_from seen l) <= length l)%nat
    /\ forall b, In b (dedup_from seen l) -> In b l.
Proof.
  induction l as [|a rest IH]; intros seen; simpl; [split; [lia | tauto]|].
  destruct (existsb (same_value_zero (Article.url a)) seen).
  - destruct (IH seen) as [Hlen Hin]. split; [lia | intros b Hb; right; now apply Hin].
  - destruct (IH (Article.url a :: seen)) as [Hlen Hin]. split; [simpl; lia|].
    intros b [->|Hb]; [now left | right; now apply Hin].
Qed.

Lemma dedup_from_covers (l : list Article.t) :
  forall seen a,
    In a l ->
    url_seen seen a = true
    \/ exists b, In b (dedup_from seen l)
                 /\ (b = a \/ same_value_zero (Article.url a) (Article.url b) = true).
Proof.
  unfold url_seen.
  induction l as [|x rest IH]; intros seen a Hin; [contradiction|]. simpl.
  destruct Hin as [->|Hin].
  - destruct (existsb (same_value_zero (Article.url a)) seen) eqn:Hseen; [now left|].
    right. exists a. split; [now left | now left].
  - destruct (existsb (same_value_zero (Article.url x)) seen) eqn:Hseen; [now apply IH|].
    destruct (IH (Article.url x :: seen) a Hin) as [H | (b & Hb & Hab)].
    + simpl in H. apply Bool.orb_true_iff in H as [H|H]; [|now left].
      right. exists x. split; [now left | now right].
    + right. exists b. split; [now right | exact Hab].
Qed.

(** X8.  Deduplication only removes articles: its output is never longer
    than its input and holds only articles of the input; every article of
    the input is in the output or has its url represented there; and
    deduplicating twice changes nothing. *)
Theorem dedup_by_url_only_removes (l : list Article.t) :
  (length (dedup_by_url l) <= length l)%nat
  /\ (forall b, In b (dedup_by_url l) -> In b l)
  /\ (forall a, In a l ->
        exists b, In b (dedup_by_url l)
                  /\ (b = a \/ same_value_zero (Article.url a) (Article.url b) = true))
  /\ dedup_by_url (dedup_by_url l) = dedup_by_url l.
Proof.
  destruct (dedup_from_sub l []) as [Hlen Hsub].
  split; [exact Hlen | split; [exact Hsub | split]].
  - intros a Ha. destruct (dedup_from_covers l [] a Ha) as [H|H]; [discriminate H | exact H].
  - apply dedup_by_url_distinct_id, dedup_by_url_distinct.
Qed.

(** ** The order of an answer *)

Lemma dated_perm (l l' : list Article.t) : Permutation l l' -> dated l -> dated l'.
Proof. unfold dated. intros Hp H. eapply Permutation_Forall; eassumption. Qed.

Lemma sort_insert_sorted (x : Article.t) (l : list Article.t) :
  dated (x :: l) -> newest_first l -> newest_first (sort_insert x l).
Proof.
  unfold dated, newest_first.
  induction l as [|y rest IH]; intros Hd Hs; simpl.
  - constructor; constructor.
  - inversion Hd as [|? ? [dx Hx] Hd']; subst. inversion Hd' as [|? ? [dy Hy] Hd'']; subst.
    inversion Hs as [|? ? Hy_rest Hs']; subst.
    unfold by_date_desc. rewrite Hx, Hy.
    destruct (Z.leb_spec (dy - dx) 0) as [Hle|Hgt].
    + constructor; [|exact Hs].
      constructor.
      * intros da db Ha Hb. rewrite Hx in Ha. rewrite Hy in Hb.
        injection Ha as <-. injection Hb as <-. lia.
      * eapply Forall_impl; [exact Hy_rest|]. intros z Hz da db Ha Hb.
        rewrite Hx in Ha. injection Ha as <-. specialize (Hz dy db Hy Hb). lia.
    + constructor.
      * eapply Permutation_Forall; [symmetry; apply sort_insert_perm|].
        constructor; [|exact Hy_rest].
        intros da db Ha Hb. rewrite Hy in Ha. rewrite Hx in Hb.
        injection Ha as <-. injection Hb as <-. lia.
      * apply IH; [|exact Hs']. constructor; [now exists dx | exact Hd''].
Qed.

Lemma Array_sort_sorted (l : list Article.t) : dated l -> newest_first (Array_sort l).
Proof.
  induction l as [|x rest IH]; intros Hd.
  - constructor.
  - change (Array_sort (x :: rest)) with (sort_insert x (Array_sort rest)).
    inversion Hd as [|? ? Hx Hrest]; subst.
    apply sort_insert_sorted; [|now apply IH].
    constructor; [exact Hx|].
    eapply dated_perm; [symmetry; apply Array_sort_perm | exact Hrest].
Qed.

Lemma Array_sort_fixed (l : list Article.t) :
  dated l -> newest_first l -> Array_sort l = l.
Proof.
  unfold dated, newest_first.
  induction l as [|x rest IH]; intros Hd Hs; [reflexivity|].
  change (Array_sort (x :: rest)) with (sort_insert x (Array_sort rest)).
  inversion Hd as [|? ? [dx Hx] Hd']; subst. inversion Hs as [|? ? Hx_rest Hs']; subst.
  rewrite IH by assumption.
  destruct rest as [|y rest']; [reflexivity|]. simpl.
  inversion Hd' as [|? ? [dy Hy] _]; subst. inversion Hx_rest as [|? ? Hxy _]; subst.
  unfold by_date_desc. rewrite Hx, Hy. specialize (Hxy dx dy Hx Hy).
  destruct (Z.leb_spec (dy - dx) 0); [reflexivity | lia].
Qed.

Lemma newest_first_take (l : list Article.t) :
  forall k, newest_first l -> newest_first (take k l).
Proof.
  unfold newest_first. induction l as [|x l IH]; intros [|k] H; simpl; try constructor.
  - inversion H; subst. now apply Forall_take.
  - inversion H; subst. now apply IH.
Qed.

(** X9.  On articles that all carry a valid publication date, sorting puts
    no article before one that was published later, leaves a list that is
    already in that order as it is (articles with equal dates keep their
    order), and sorting twice is sorting once. *)
Theorem Array_sort_newest_first (l : list Article.t) :
  dated l ->
  newest_first (Array_sort l)
  /\ (newest_first l -> Array_sort l = l)
  /\ Array_sort (Array_sort l) = Array_sort l.
Proof.
  intros Hd. split; [now apply Array_sort_sorted | split; [now apply Array_sort_fixed|]].
  apply Array_sort_fixed; [|now apply Array_sort_sorted].
  eapply dated_perm; [symmetry; apply Array_sort_perm | exact Hd].
Qed.

Lemma pipeline_sorted (merged : list Article.t) (n : num) :
  dated merged -> newest_first (slice_to (Array_sort (dedup_by_url merged)) n).
Proof.
  intros Hd. destruct (slice_to_take (Array_sort (dedup_by_url merged)) n) as [k ->].
  apply newest_first_take, Array_sort_sorted.
  unfold dated in *. rewrite List.Forall_forall in *. intros a Ha. apply Hd.
  now apply (dedup_from_sub merged []).
Qed.

(** X10.  When every article the providers yielded carries a valid
    publication date, the live answers of [getNews] and of [getLocalNews]
    list their articles newest first. *)
Theorem live_answers_newest_first (w : world) (q : Query.t) (s : state) :
  cache_failure w = None ->
  (fst (NodeCache.get (clock_get w) (news_cacheKey q) (cache s)) = None ->
   news_requests q <> [] ->
   dedup_by_url (fst (fetch_all w (news_requests q))) <> [] ->
   dated (fst (fetch_all w (news_requests q))) ->
   newest_first (response_items (response_of (getNews w q s))))
  /\ (fst (NodeCache.get (clock_get w) (local_cacheKey q) (cache s)) = None ->
      local_requests q <> [] ->
      dated (fst (fetch_all w (local_requests q))) ->
      newest_first (response_items (response_of (getLocalNews w q s)))).
Proof.
  intros Hw. split.
  - intros Hmiss Hreq Hmerged Hd.
    destruct (getNews_live w q s Hw Hmiss Hreq Hmerged) as [-> _].
    unfold response_items, field, res_json. simpl. now apply pipeline_sorted.
  - intros Hmiss Hreq Hd.
    rewrite (getLocalNews_live w q s Hw Hmiss Hreq).
    unfold response_items, field, res_json. simpl. now apply pipeline_sorted.
Qed.

(** ** When no provider answers *)

Lemma fetch_all_silent (w : world) (requests : list Req.t) :
  providers_silent w requests -> fst (fetch_all w requests) = [].
Proof.
  unfold providers_silent, fetch_all. cbn [fst].
  induction requests as [|r rest IH]; intros Hs; simpl; [reflexivity|].
  rewrite provider_task_failed, IH; [reflexivity | |].
  - intros r' i Hr' Hi. apply Hs; [now right | exact Hi].
  - intros i Hi. apply Hs; [now left | exact Hi].
Qed.

Lemma slice_to_nil {A} (n : num) : slice_to (@nil A) n = [].
Proof.
  unfold slice_to. destruct n as [z|]; [|reflexivity].
  destruct (z <? 0); apply take_nil.
Qed.

Lemma getLocalNews_hit (w : world) (q : Query.t) (s : state) (l : list Article.t) :
  cache_failure w = None ->
  NodeCache.get (clock_get w) (local_cacheKey q) (cache s) = (Some l, cache s) ->
  getLocalNews w q s
  = (res_json [ ("ok", FBool true);
                ("fromCache", FBool true);
                ("location", FStr (local_location q));
                ("data", FData (DArr l)) ],
     s, []).
Proof.
  intros Hw Hget. unfold getLocalNews, getLocalNews_try, cache_get. cbv zeta.
  rewrite Hw, Hget. now destruct s.
Qed.

(** X11.  When every attempt of every provider fails, [getLocalNews] still
    answers with success: status 200, [ok = true], no [isFallback] and no
    [error] field, [total = 0] and an empty list, without falling back to
    any canned article; and it stores that empty list, so that the same
    request made before the entry expires is answered from the cache, again
    with an empty list, without asking the providers. *)
Theorem getLocalNews_silent_providers (w1 w2 : world) (q1 q2 : Query.t) (s : state) :
  cache_failure w1 = None ->
  fst (NodeCache.get (clock_get w1) (local_cacheKey q1) (cache s)) = None ->
  local_requests q1 <> [] ->
  providers_silent w1 (local_requests q1) ->
  local_cacheKey q2 = local_cacheKey q1 ->
  cache_failure w2 = None ->
  fresh_at (NodeCache.stdTTL env) (clock_set w1) (clock_get w2) ->
  response_of (getLocalNews w1 q1 s)
  = res_json [ ("ok", FBool true);
               ("fromCache", FBool false);
               ("location", FStr (local_location q1));
               ("total", FNum (Some 0));
               ("data", FData (DArr [])) ]
  /\ response_of (getLocalNews w2 q2 (state_of (getLocalNews w1 q1 s)))
     = res_json [ ("ok", FBool true);
                  ("fromCache", FBool true);
                  ("location", FStr (local_location q2));
                  ("data", FData (DArr [])) ]
  /\ log_of (getLocalNews w2 q2 (state_of (getLocalNews w1 q1 s))) = [].
Proof.
  intros Hw Hmiss Hreq Hsilent Hkey Hw2 Hfresh.
  pose proof (fetch_all_silent w1 (local_requests q1) Hsilent) as Hnone.
  assert (Hcall : exists c1 log,
             getLocalNews w1 q1 s
             = (res_json [ ("ok", FBool true);
                           ("fromCache", FBool false);
                           ("location", FStr (local_location q1));
                           ("total", FNum (Some 0));
                           ("data", FData (DArr [])) ],
                {| cache := NodeCache.set (NodeCache.stdTTL env) (clock_set w1)
                                          (local_cacheKey q1) [] c1;
                   news := news s |},
                log)).
  { unfold getLocalNews, getLocalNews_try, cache_get. cbv zeta. rewrite Hw.
    destruct (NodeCache.get (clock_get w1) (local_cacheKey q1) (cache s)) as [cached c1].
    cbn [fst] in Hmiss. subst cached.
    destruct (fetch_all w1 (local_requests q1)) as [merged log]. cbn [fst] in Hnone.
    subst merged.
    destruct (local_requests q1) as [|r rs]; [congruence|].
    change (dedup_by_url []) with (@nil Article.t).
    change (Array_sort []) with (@nil Article.t).
    rewrite slice_to_nil. exists c1, log. reflexivity. }
  destruct Hcall as (c1 & log & Hcall). rewrite Hcall.
  split; [reflexivity|].
  unfold state_of at 1 2. cbn [fst snd].
  rewrite (getLocalNews_hit w2 q2 _ []);
    [split; reflexivity | exact Hw2 |].
  rewrite Hkey. cbn [cache]. now apply NodeCache_get_set.
Qed.

Lemma getNews_substituted (w : world) (q : Query.t) (s : state) :
  store_ok (news s) ->
  cache_failure w = None ->
  fst (NodeCache.get (clock_get w) (news_cacheKey q) (cache s)) = None ->
  news_requests q <> [] ->
  providers_silent w (news_requests q) ->
  existsb (String.eqb (news_category q)) Object_prototype_names = false ->
  exists l l0 c1 news' log,
    getNews w q s
    = (res_json [ ("ok", FBool true);
                  ("fromCache", FBool false);
                  ("aiEnabled", FBool (geminiModel env));
                  ("category", FStr (news_category q));
                  ("total", FNum (Some (Z.of_nat (length
                     (slice_to (Array_sort l) (news_pageSize q))))));
                  ("page", FNum (news_page q));
                  ("pageSize", FNum (news_pageSize q));
                  ("data", FData (DArr (slice_to (Array_sort l) (news_pageSize q)))) ],
       {| cache := NodeCache.set (NodeCache.stdTTL env) (clock_set w) (news_cacheKey q)
                                 (slice_to (Array_sort l) (news_pageSize q)) c1;
          news := news' |},
       log)
    /\ fallback_for (news s) (news_category q) = DArr l
    /\ same_records l0 l
    /\ (assoc (news_category q) HARDCODED_DATA_news = Some l0
        \/ (assoc (news_category q) HARDCODED_DATA_news = None
            /\ assoc "general" HARDCODED_DATA_news = Some l0)).
Proof.
  intros Hn Hw Hmiss Hreq Hsilent Hcat.
  pose proof (fetch_all_silent w (news_requests q) Hsilent) as Hnone.
  destruct (fallback_for_cases (news s) (news_category q) Hn)
    as [(l & l0 & Hl & Hr & _ & _ & Hsrc) | (Hproto & _)]; [|congruence].
  exists l, l0.
  unfold getNews, getNews_try, cache_get. cbv zeta. rewrite Hw.
  destruct (NodeCache.get (clock_get w) (news_cacheKey q) (cache s)) as [cached c1].
  cbn [fst] in Hmiss. subst cached.
  destruct (fetch_all w (news_requests q)) as [merged log]. cbn [fst] in Hnone. subst merged.
  destruct (news_requests q) as [|r rs]; [congruence|].
  change (dedup_by_url []) with (@nil Article.t). rewrite Hl.
  cbn [length Nat.eqb andb].
  eexists c1, _, log. split; [reflexivity | split; [reflexivity | split; assumption]].
Qed.

(** X12.  When every attempt of every provider fails, [getNews], for a
    category that is not the name of an inherited object member, answers
    with the records of the fallback table (those of the category, or the
    general ones), sorted and cut to the page size, as if they were live
    results: [fromCache = false] and no [isFallback] field.  It stores that
    list, so that the same request made before the entry expires gets the
    canned records again, marked [fromCache = true], whatever the providers
    would answer by then. *)
Theorem getNews_silent_providers (w1 w2 : world) (q1 q2 : Query.t) (s : state) :
  reachable s ->
  cache_failure w1 = None ->
  fst (NodeCache.get (clock_get w1) (news_cacheKey q1) (cache s)) = None ->
  news_requests q1 <> [] ->
  providers_silent w1 (news_requests q1) ->
  existsb (String.eqb (news_category q1)) Object_prototype_names = false ->
  news_cacheKey q2 = news_cacheKey q1 ->
  cache_failure w2 = None ->
  fresh_at (NodeCache.stdTTL env) (clock_set w1) (clock_get w2) ->
  exists l l0,
    same_records l0 l
    /\ (assoc (news_category q1) HARDCODED_DATA_news = Some l0
        \/ (assoc (news_category q1) HARDCODED_DATA_news = None
            /\ assoc "general" HARDCODED_DATA_news = Some l0))
    /\ field (response_of (getNews w1 q1 s)) "data"
       = Some (FData (DArr (slice_to (Array_sort l) (news_pageSize q1))))
    /\ field (response_of (getNews w1 q1 s)) "fromCache" = Some (FBool false)
    /\ field (response_of (getNews w1 q1 s)) "isFallback" = None
    /\ field (response_of (getNews w2 q2 (state_of (getNews w1 q1 s)))) "data"
       = Some (FData (DArr (slice_to (Array_sort l) (news_pageSize q1))))
    /\ field (response_of (getNews w2 q2 (state_of (getNews w1 q1 s)))) "fromCache"
       = Some (FBool true)
    /\ log_of (getNews w2 q2 (state_of (getNews w1 q1 s))) = [].
Proof.
  intros Hreach Hw Hmiss Hreq Hsilent Hcat Hkey Hw2 Hfresh.
  apply reachable_state_ok in Hreach as [_ Hn].
  destruct (getNews_substituted w1 q1 s Hn Hw Hmiss Hreq Hsilent Hcat)
    as (l & l0 & c1 & news' & log & Hcall & _ & Hr & Hsrc).
  exists l, l0. rewrite Hcall.
  split; [exact Hr | split; [exact Hsrc|]].
  unfold state_of at 1 2 3. cbn [fst snd].
  rewrite (getNews_hit w2 q2 _ (slice_to (Array_sort l) (news_pageSize q1)));
    [repeat split | exact Hw2 |].
  rewrite Hkey. cbn [cache]. now apply NodeCache_get_set.
Qed.

(** ** Expiry *)

Lemma NodeCache_get_expired (ttl : num) (stored now : Z) (key : string) (l : list Article.t)
    (c : gmap string NodeCache.entry) :
  expired_at ttl stored now ->
  fst (NodeCache.get now key (NodeCache.set ttl stored key l c)) = None.
Proof.
  unfold expired_at, NodeCache.get, NodeCache.set, NodeCache.alive, NodeCache.livetime.
  rewrite lookup_insert_eq. simpl.
  destruct ttl as [seconds|]; [|contradiction]. intros (H0 & H1 & H2).
  destruct seconds as [|p|p]; [congruence| |]; simpl;
    repeat match goal with
      | |- context [?a =? 0] => destruct (Z.eqb_spec a 0); [congruence|]
      | |- context [now <=? ?a] => destruct (Z.leb_spec now a); [lia|]
      end; reflexivity.
Qed.

Lemma getNews_miss (w : world) (q : Query.t) (s : state) :
  cache_failure w = None ->
  fst (NodeCache.get (clock_get w) (news_cacheKey q) (cache s)) = None ->
  field (response_of (getNews w q s)) "fromCache" <> Some (FBool true)
  /\ (news_requests q <> [] -> log_of (getNews w q s) = snd (fetch_all w (news_requests q))).
Proof.
  intros Hw Hmiss. unfold response_of, log_of, getNews, getNews_try, cache_get. cbv zeta.
  rewrite Hw.
  destruct (NodeCache.get (clock_get w) (news_cacheKey q) (cache s)) as [cached c1].
  cbn [fst] in Hmiss. subst cached.
  destruct (fetch_all w (news_requests q)) as [merged log].
  destruct (news_requests q) as [|r rs]; [split; [discriminate | congruence]|].
  cbn [length Nat.eqb].
  destruct (length (dedup_by_url merged) =? 0)%nat.
  - destruct (fallback_for (news s) (news_category q)); simpl;
      (split; [discriminate | reflexivity]).
  - simpl. split; [discriminate | reflexivity].
Qed.

Lemma getLocalNews_miss (w : world) (q : Query.t) (s : state) :
  cache_failure w = None ->
  fst (NodeCache.get (clock_get w) (local_cacheKey q) (cache s)) = None ->
  field (response_of (getLocalNews w q s)) "fromCache" <> Some (FBool true)
  /\ (local_requests q <> [] ->
      log_of (getLocalNews w q s) = snd (fetch_all w (local_requests q))).
Proof.
  intros Hw Hmiss. unfold response_of, log_of, getLocalNews, getLocalNews_try, cache_get.
  cbv zeta. rewrite Hw.
  destruct (NodeCache.get (clock_get w) (local_cacheKey q) (cache s)) as [cached c1].
  cbn [fst] in Hmiss. subst cached.
  destruct (fetch_all w (local_requests q)) as [merged log].
  destruct (local_requests q) as [|r rs]; [split; [discriminate | congruence]|].
  simpl. split; [discriminate | reflexivity].
Qed.

(** X13.  Once the entry a live call of [getNews] stored has outlived the
    configured TTL, the same request is not answered from the cache: the
    providers are asked again. *)
Theorem expired_entry_is_recomputed (w1 w2 : world) (q1 q2 : Query.t) (s : state) :
  news_cacheKey q2 = news_cacheKey q1 ->
  field (response_of (getNews w1 q1 s)) "fromCache" = Some (FBool false) ->
  field (response_of (getNews w1 q1 s)) "isFallback" = None ->
  cache_failure w2 = None ->
  expired_at (NodeCache.stdTTL env) (clock_set w1) (clock_get w2) ->
  field (response_of (getNews w2 q2 (state_of (getNews w1 q1 s)))) "fromCache"
  <> Some (FBool true)
  /\ (news_requests q2 <> [] ->
      log_of (getNews w2 q2 (state_of (getNews w1 q1 s)))
      = snd (fetch_all w2 (news_requests q2))).
Proof.
  intros Hkey Hfrom Hfb Hw2 Hexp.
  destruct (getNews_live_shape w1 q1 s Hfrom Hfb) as (articles & c' & news' & log & H1).
  rewrite H1. unfold state_of. cbn [fst snd].
  apply getNews_miss; [exact Hw2|]. rewrite Hkey. cbn [cache].
  now apply NodeCache_get_expired.
Qed.

(** ** Cache keys *)

Lemma has_char_app (c : ascii) (s t : string) :
  has_char c (s ++ t) = has_char c s || has_char c t.
Proof. induction s as [|x s IH]; simpl; [reflexivity | now rewrite IH, Bool.orb_assoc]. Qed.










(** ** What a request leaves in the cache *)

Lemma NodeCache_get_facts (now : Z) (key : string) (c : gmap string NodeCache.entry) :
  (forall k, k <> key -> snd (NodeCache.get now key c) !! k = c !! k)
  /\ (forall k e, snd (NodeCache.get now key c) !! k = Some e -> c !! k = Some e)
  /\ (forall l, fst (NodeCache.get now key c) = Some l ->
        snd (NodeCache.get now key c) = c
        /\ exists e, c !! key = Some e /\ NodeCache.v e = l).
Proof.
  unfold NodeCache.get.
  destruct (c !! key) as [e|] eqn:He; [destruct (NodeCache.alive now e)|]; simpl.
  - split; [auto | split; [auto|]]. intros l [= <-]. split; [reflexivity | now exists e].
  - split; [|split; [|discriminate]].
    + intros k Hk. apply lookup_delete_ne. congruence.
    + intros k e' H. now apply lookup_delete_Some in H as [_ H].
  - split; [auto | split; [auto | discriminate]].
Qed.

Lemma getNews_cache_elsewhere (w : world) (q : Query.t) (s : state) (k : string) :
  k <> news_cacheKey q -> cache (state_of (getNews w q s)) !! k = cache s !! k.
Proof.
  intros Hk. unfold state_of, getNews, getNews_try, cache_get. cbv zeta.
  destruct (cache_failure w); [reflexivity|].
  destruct (NodeCache_get_facts (clock_get w) (news_cacheKey q) (cache s)) as (Hc1 & _).
  specialize (Hc1 k Hk).
  destruct (NodeCache.get (clock_get w) (news_cacheKey q) (cache s)) as [[cached|] c1];
    cbn [snd] in Hc1; [exact Hc1|].
  walk_handler; cbn [fst snd cache]; try exact Hc1;
    unfold NodeCache.set; rewrite lookup_insert_ne by congruence; exact Hc1.
Qed.

Lemma getLocalNews_cache_elsewhere (w : world) (q : Query.t) (s : state) (k : string) :
  k <> local_cacheKey q -> cache (state_of (getLocalNews w q s)) !! k = cache s !! k.
Proof.
  intros Hk. unfold state_of, getLocalNews, getLocalNews_try, cache_get. cbv zeta.
  destruct (cache_failure w); [reflexivity|].
  destruct (NodeCache_get_facts (clock_get w) (local_cacheKey q) (cache s)) as (Hc1 & _).
  specialize (Hc1 k Hk).
  destruct (NodeCache.get (clock_get w) (local_cacheKey q) (cache s)) as [[cached|] c1];
    cbn [snd] in Hc1; [exact Hc1|].
  walk_handler; cbn [fst snd cache]; try exact Hc1;
    unfold NodeCache.set; rewrite lookup_insert_ne by congruence; exact Hc1.
Qed.

(** X15.  A request changes the cache at most under its own key: every
    other entry is left as it was.  In particular [getLocalNews] never
    changes an entry of [getNews] nor the fallback table, and [getNews]
    never changes an entry of [getLocalNews]. *)
Theorem request_touches_own_entry_only (w : world) (q : Query.t) (s : state) :
  (forall k, k <> news_cacheKey q ->
     cache (state_of (getNews w q s)) !! k = cache s !! k)
  /\ (forall k, k <> local_cacheKey q ->
        cache (state_of (getLocalNews w q s)) !! k = cache s !! k)
  /\ (forall q', cache (state_of (getLocalNews w q s)) !! news_cacheKey q'
                 = cache s !! news_cacheKey q')
  /\ (forall q', cache (state_of (getNews w q s)) !! local_cacheKey q'
                 = cache s !! local_cacheKey q')
  /\ news (state_of (getLocalNews w q s)) = news s.
Proof.
  split; [|split; [|split; [|split]]].
  - intros k. apply getNews_cache_elsewhere.
  - intros k. apply getLocalNews_cache_elsewhere.
  - intros q'. apply getLocalNews_cache_elsewhere.
    unfold news_cacheKey, local_cacheKey. discriminate.
  - intros q'. apply getNews_cache_elsewhere.
    unfold news_cacheKey, local_cacheKey. discriminate.
  - unfold state_of, getLocalNews, getLocalNews_try, cache_get. walk_handler; reflexivity.
Qed.

(** X16.  An answer marked [isFallback] is never stored: after it the cache
    holds no entry it did not hold before, and the fallback table is as it
    was.  An answer marked [fromCache] is given without any upstream call
    and leaves the whole state as it was. *)
Theorem fallback_and_cached_answers_store_nothing (w : world) (q : Query.t) (s : state) :
  (field (response_of (getNews w q s)) "isFallback" = Some (FBool true) ->
   news (state_of (getNews w q s)) = news s
   /\ forall k e, cache (state_of (getNews w q s)) !! k = Some e -> cache s !! k = Some e)
  /\ (field (response_of (getLocalNews w q s)) "isFallback" = Some (FBool true) ->
      log_of (getLocalNews w q s) = []
      /\ forall k e, cache (state_of (getLocalNews w q s)) !! k = Some e ->
                     cache s !! k = Some e)
  /\ (field (response_of (getNews w q s)) "fromCache" = Some (FBool true) ->
      state_of (getNews w q s) = s /\ log_of (getNews w q s) = [])
  /\ (field (response_of (getLocalNews w q s)) "fromCache" = Some (FBool true) ->
      state_of (getLocalNews w q s) = s /\ log_of (getLocalNews w q s) = []).
Proof.
  destruct (NodeCache_get_facts (clock_get w) (news_cacheKey q) (cache s))
    as (_ & Hsub & Hhit).
  destruct (NodeCache_get_facts (clock_get w) (local_cacheKey q) (cache s))
    as (_ & Hsub' & Hhit').
  split; [|split; [|split]].
  - unfold response_of, state_of, getNews, getNews_try, cache_get. cbv zeta.
    destruct (cache_failure w); [intros _; split; [reflexivity | auto]|].
    destruct (NodeCache.get (clock_get w) (news_cacheKey q) (cache s)) as [[cached|] c1];
      cbn [snd] in Hsub; [discriminate|].
    walk_handler; unfold field, res_json, getNews_catch; simpl; try discriminate;
      intros _; (split; [reflexivity | exact Hsub]).
  - unfold response_of, state_of, log_of, getLocalNews, getLocalNews_try, cache_get. cbv zeta.
    destruct (cache_failure w); [discriminate|].
    destruct (NodeCache.get (clock_get w) (local_cacheKey q) (cache s)) as [[cached|] c1];
      cbn [snd] in Hsub'; [discriminate|].
    walk_handler; unfold field, res_json; simpl; try discriminate;
      intros _; (split; [reflexivity | exact Hsub']).
  - unfold response_of, state_of, log_of, getNews, getNews_try, cache_get. cbv zeta.
    destruct (cache_failure w); [discriminate|].
    destruct (NodeCache.get (clock_get w) (news_cacheKey q) (cache s)) as [[cached|] c1];
      cbn [fst snd] in Hhit.
    + intros _. destruct (Hhit cached eq_refl) as [-> _]. now destruct s.
    + walk_handler; unfold field, res_json, getNews_catch; simpl; discriminate.
  - unfold response_of, state_of, log_of, getLocalNews, getLocalNews_try, cache_get. cbv zeta.
    destruct (cache_failure w); [discriminate|].
    destruct (NodeCache.get (clock_get w) (local_cacheKey q) (cache s)) as [[cached|] c1];
      cbn [fst snd] in Hhit'.
    + intros _. destruct (Hhit' cached eq_refl) as [-> _]. now destruct s.
    + walk_handler; unfold field, res_json; simpl; discriminate.
Qed.

(** ** The [total] field *)

Lemma slice_to_bounds {A} (l : list A) (hi : Z) (n : num) :
  1 <= hi ->
  forall len, len = Z.of_nat (length (slice_to l (Math_min hi (Math_max 1 n)))) ->
    0 <= len <= hi
    /\ (forall z, Math_min hi (Math_max 1 n) = Some z -> len <= z)
    /\ (Math_min hi (Math_max 1 n) = None -> len = 0).
Proof.
  intros Hhi len ->.
  destruct (Math_min hi (Math_max 1 n)) as [z|] eqn:Hz.
  - pose proof (clamp_bounds hi n Hhi z Hz). pose proof (slice_to_length l z).
    split; [lia | split; [intros z' [= <-]; lia | discriminate]].
  - unfold slice_to. simpl. split; [lia | split; [discriminate | reflexivity]].
Qed.

(** X17.  When an answer carries a [total], it is the number of articles in
    [data], it does not exceed the page size the controller computed (50 at
    most for [getNews], 20 for [getLocalNews]), and it is 0 when that page
    size is not a number. *)
Theorem total_counts_the_page (w : world) (q : Query.t) (s : state) (n : Z) :
  (field (response_of (getNews w q s)) "total" = Some (FNum (Some n)) ->
   n = Z.of_nat (length (response_items (response_of (getNews w q s))))
   /\ 0 <= n <= 50
   /\ (forall z, news_pageSize q = Some z -> n <= z)
   /\ (news_pageSize q = None -> n = 0))
  /\ (field (response_of (getLocalNews w q s)) "total" = Some (FNum (Some n)) ->
      n = Z.of_nat (length (response_items (response_of (getLocalNews w q s))))
      /\ 0 <= n <= 20
      /\ (forall z, local_pageSize q = Some z -> n <= z)
      /\ (local_pageSize q = None -> n = 0)).
Proof.
  split.
  - unfold response_of, getNews, getNews_try, cache_get. walk_handler;
      unfold response_items, field, res_json, getNews_catch; simpl; try discriminate;
      intros [= <-]; (split; [reflexivity|]);
      match goal with
      | |- context [slice_to ?l (news_pageSize q)] =>
          apply (slice_to_bounds l 50 (parseInt (param_or (Query.pageSize q) "10")));
          [lia | reflexivity]
      end.
  - unfold response_of, getLocalNews, getLocalNews_try, cache_get. walk_handler;
      unfold response_items, field, res_json, getLocalNews_catch; simpl; try discriminate;
      intros [= <-]; (split; [reflexivity|]);
      match goal with
      | |- context [slice_to ?l (local_pageSize q)] =>
          apply (slice_to_bounds l 20 (parseInt (param_or (Query.pageSize q) "5")));
          [lia | reflexivity]
      end.
Qed.

(** ** The page size of local news *)

Lemma getNews_keeps_local_entries (w : world) (q : Query.t) (s : state) :
  local_entries_short (cache s) -> local_entries_short (cache (state_of (getNews w q s))).
Proof.
  intros H k e Hk Hpre.
  destruct (String.eqb_spec k (news_cacheKey q)) as [->|Hne]; [discriminate Hpre|].
  rewrite getNews_cache_elsewhere in Hk by exact Hne. exact (H k e Hk Hpre).
Qed.

Lemma getLocalNews_short (w : world) (q : Query.t) (s : state) :
  local_entries_short (cache s) ->
  local_entries_short (cache (state_of (getLocalNews w q s)))
  /\ (length (response_items (response_of (getLocalNews w q s))) <= 20)%nat.
Proof.
  intros H.
  assert (Hpage : forall l : list Article.t,
             (length (slice_to l (local_pageSize q)) <= 20)%nat).
  { intros l. apply (clamped_slice_length 20). lia. }
  unfold state_of, response_of, getLocalNews, getLocalNews_try, cache_get. cbv zeta.
  destruct (cache_failure w); [split; [exact H | simpl; lia]|].
  destruct (NodeCache_get_facts (clock_get w) (local_cacheKey q) (cache s))
    as (_ & Hsub & Hhit).
  destruct (NodeCache.get (clock_get w) (local_cacheKey q) (cache s)) as [[cached|] c1];
    cbn [fst snd] in Hsub, Hhit.
  - destruct (Hhit cached eq_refl) as (-> & e & He & <-).
    split; [exact H|]. unfold response_items, field, res_json. simpl.
    apply (H _ e He). unfold local_cacheKey. apply prefix_app.
  - assert (H1 : local_entries_short c1).
    { intros k e Hk. apply H. now apply Hsub. }
    walk_handler; unfold response_items, field, res_json; simpl;
      (split;
       [first [exact H1
              | unfold NodeCache.set; apply map_Forall_insert_2;
                [intros _; apply Hpage | exact H1]]
       | first [apply Hpage | simpl; lia]]).
Qed.

Lemma reachable_local_entries (s : state) : reachable s -> local_entries_short (cache s).
Proof.
  induction 1 as [|w q s _ IH|w q s _ IH].
  - apply map_Forall_empty.
  - now apply getNews_keeps_local_entries.
  - now apply getLocalNews_short.
Qed.

(** X18.  Over the life of the process, the local-news controller never
    returns more than 20 articles, whatever [pageSize] asks for, and
    neither does its route; and the route answers a request whose [pageSize]
    is outside 1..20, or whose [page] is outside 1..50, with status 400,
    without touching the state and without any upstream call. *)
Theorem local_pageSize_clamped_and_validated (w : world) (q : Query.t) (s : state) :
  reachable s ->
  (length (response_items (response_of (getLocalNews w q s))) <= 20)%nat
  /\ (length (response_items (response_of (GET_news_local w q s))) <= 20)%nat
  /\ (forall text z,
        (Query.pageSize q = Some text /\ int_literal text = Some z /\ ~ (1 <= z <= 20))
        \/ (Query.page q = Some text /\ int_literal text = Some z /\ ~ (1 <= z <= 50)) ->
        status (response_of (GET_news_local w q s)) = 400
        /\ field (response_of (GET_news_local w q s)) "ok" = Some (FBool false)
        /\ state_of (GET_news_local w q s) = s
        /\ log_of (GET_news_local w q s) = []).
Proof.
  intros Hreach. apply reachable_local_entries in Hreach. split; [|split].
  - now apply getLocalNews_short.
  - unfold GET_news_local.
    destruct (check_text "location" "Location must be 2-100 characters" 2 100 (Query.location q))
      as [location e1].
    match goal with |- context [validate ?e ?n s] => destruct (validate_cases e n s) as [-> | ->] end.
    + now apply getLocalNews_short.
    + unfold response_of, response_items, field. simpl. lia.
  - intros text z Hbad. unfold GET_news_local.
    destruct (check_text "location" "Location must be 2-100 characters" 2 100 (Query.location q))
      as [location e1].
    rewrite validate_rejects.
    + unfold response_of, state_of, log_of, field. simpl. repeat split.
    + intros Hnil.
      apply app_eq_nil in Hnil as [_ Hnil]. apply app_eq_nil in Hnil as [Hpage Hsize].
      destruct Hbad as [(Hs & Hlit & Hz) | (Hs & Hlit & Hz)]; rewrite Hs in *.
      * revert Hsize. now apply check_int_rejects with (z := z).
      * revert Hpage. now apply check_int_rejects with (z := z).
Qed.

(** ** Normalizing the category and the location *)













(** ** Requests the routes accept *)






Lemma check_text_rejects (path msg : string) (lo hi : nat) (text : string) :
  ~ (lo <= String.length (trim text) <= hi)%nat ->
  snd (check_text path msg lo hi (Some text)) <> [].
Proof.
  intros Hlen. unfold check_text, isLength. simpl.
  destruct (Nat.leb_spec lo (String.length (trim text))),
           (Nat.leb_spec (String.length (trim text)) hi); simpl; try discriminate. lia.
Qed.


(** ** Local news without provider keys *)

(** X22.  Without provider keys, [getLocalNews] answers every request that
    meets no internal error with a single canned article, titled after the
    normalized location and dated at the time of the request, marked
    [isFallback]; it stores nothing and calls no provider. *)
Theorem getLocalNews_without_keys (w : world) (q : Query.t) (s : state) :
  key_configured (GNEWS_API_KEY env) "your_gnews_api_key_here" = false ->
  key_configured (GUARDIAN_API_KEY env) "your_guardian_api_key_here" = false ->
  reachable s ->
  cache_failure w = None ->
  getLocalNews w q s
  = (res_json [ ("ok", FBool true); ("isFallback", FBool true);
                ("location", FStr (local_location q));
                ("data", FData (DArr [local_fallback w (local_location q)])) ],
     s, [])
  /\ Article.title (local_fallback w (local_location q))
     = JStr (local_location q ++ " Metro expansion plans announced")
  /\ Article.publishedAt (local_fallback w (local_location q)) = JStr (clock_iso w).
Proof.
  intros H1 H2 Hreach Hw.
  rewrite (reachable_without_keys s H1 H2 Hreach).
  split; [|split; reflexivity].
  unfold getLocalNews, getLocalNews_try, cache_get, local_requests, boot. cbv zeta.
  cbn [cache news].
  now rewrite Hw, NodeCache_get_empty, no_keys_no_requests by assumption.
Qed.

(** ** The city table *)

(** X23.  Every city of [INDIAN_CITIES] is found by its key and by its
    display name, whatever the case, and gets its own query: no entry of
    the table shadows another.  A location that names Delhi gets the Delhi
    query even when it names other cities too; and a location that matches
    no key, in either direction, is searched as
    [location + ' India local news']. *)
Theorem city_search_query_table :
  Forall (fun kv => city_search_query (fst kv) = city_query (snd kv)
                    /\ city_search_query (city_name (snd kv)) = city_query (snd kv))
         INDIAN_CITIES
  /\ (forall location,
        includes (toLowerCase location) "delhi" = true ->
        city_search_query location = "Delhi NCR news")
  /\ (forall location,
        Forall (fun kv => includes (toLowerCase location) (fst kv) = false
                          /\ includes (fst kv) (toLowerCase location) = false)
               INDIAN_CITIES ->
        city_search_query location = location ++ " India local news").
Proof.
  split; [|split].
  - repeat (apply List.Forall_cons; [split; vm_compute; reflexivity|]). apply List.Forall_nil.
  - intros location H. unfold city_search_query, INDIAN_CITIES. cbn [List.find fst].
    now rewrite H.
  - intros location H. unfold city_search_query.
    induction H as [|[k cfg] rest [H1 H2] _ IH]; [reflexivity|].
    cbn [fst] in H1, H2. cbn [List.find fst]. rewrite H1, H2. exact IH.
Qed.

(** ** The summary endpoint *)

Lemma enhanceWithGemini_returns (model : bool) (g : string -> result string) (text : string) :
  enhanceWithGemini model g text
  = Ret (if model
         then match g (summary_prompt text) with Ret t => Some t | Throw _ => None end
         else None).
Proof. unfold enhanceWithGemini. destruct model; simpl; [now destruct (g _) | reflexivity]. Qed.

Lemma param_or_filled (x : option string) (d : string) : d <> "" -> param_or x d <> "".
Proof.
  intros Hd. unfold param_or. destruct x as [s|]; [|exact Hd].
  destruct (String.eqb_spec s ""); [exact Hd | assumption].
Qed.

(** X24.  [exports.summary] answers 400, asking for a url or a text, exactly
    when the body brings neither; otherwise it answers 200 with [ok = true]
    and a summary text that is never empty.  Nothing in it throws, so it
    never answers 500: whatever the summarizer does, [enhanceWithGemini]
    returns, with [null] when there is no model or the call fails. *)
Theorem summary_never_fails (g : string -> result string) (b : summary_body) :
  (given (body_url b) = false /\ given (body_text b) = false ->
   summary g b
   = {| status := 400;
        body := [ ("ok", FBool false);
                  ("error", FStr "Provide url or text to summarize") ] |})
  /\ (given (body_url b) = true \/ given (body_text b) = true ->
      status (summary g b) = 200
      /\ field (summary g b) "ok" = Some (FBool true)
      /\ exists t, field (summary g b) "summary" = Some (FStr t) /\ t <> "")
  /\ (exists r, summary_try g b = Ret r)
  /\ status (summary g b) <> 500
  /\ (forall model text,
        exists o, enhanceWithGemini model g text = Ret o
                  /\ (model = false -> o = None)
                  /\ (forall err, g (summary_prompt text) = Throw err -> o = None)).
Proof.
  unfold summary, summary_try.
  split; [|split; [|split; [|split]]].
  - intros [-> ->]. reflexivity.
  - intros Hgiven.
    assert (Hnot : negb (given (body_url b)) && negb (given (body_text b)) = false)
      by (destruct Hgiven as [-> | ->]; [reflexivity | apply Bool.andb_false_r]).
    rewrite Hnot, enhanceWithGemini_returns.
    destruct (geminiModel env && given (body_text b)); simpl.
    + repeat split. eexists. split; [reflexivity|]. now apply param_or_filled.
    + repeat split. eexists. split; [reflexivity | discriminate].
  - rewrite enhanceWithGemini_returns.
    destruct (negb _ && negb _); [eauto|].
    destruct (geminiModel env && given (body_text b)); simpl; eauto.
  - rewrite enhanceWithGemini_returns.
    destruct (negb _ && negb _); [discriminate|].
    destruct (geminiModel env && given (body_text b)); simpl; discriminate.
  - intros model text. rewrite enhanceWithGemini_returns. eexists.
    split; [reflexivity | split].
    + now intros ->.
    + intros err ->. now destruct model.
Qed.

(** X25.  The summarizer is consulted only when a model is configured and
    the body brings a text; the url is never fetched and only its presence
    matters.  With a model and a text, the answer carries the summarizer's
    text, or ['Summary generation in progress...'] when the summarizer
    fails or returns nothing; without a model, a fixed notice. *)
Theorem summary_uses_summarizer (g : string -> result string) (b : summary_body) :
  (geminiModel env = false \/ given (body_text b) = false ->
   forall g', summary g' b = summary g b)
  /\ (forall u, given u = given (body_url b) ->
        summary g {| body_url := u; body_text := body_text b |} = summary g b)
  /\ (forall text,
        geminiModel env = true -> body_text b = Some text -> text <> "" ->
        (forall t, g (summary_prompt text) = Ret t -> t <> "" ->
           summary g b = res_json [ ("ok", FBool true); ("summary", FStr t) ])
        /\ ((exists err, g (summary_prompt text) = Throw err)
            \/ g (summary_prompt text) = Ret "" ->
            summary g b
            = res_json [ ("ok", FBool true);
                         ("summary", FStr "Summary generation in progress...") ]))
  /\ (geminiModel env = false ->
      given (body_url b) = true \/ given (body_text b) = true ->
      summary g b
      = res_json [ ("ok", FBool true);
                   ("summary", FStr "AI summary feature available with Gemini API key") ]).
Proof.
  unfold summary, summary_try. split; [|split; [|split]].
  - intros Hno g'. rewrite !enhanceWithGemini_returns.
    destruct (negb _ && negb _); [reflexivity|].
    destruct Hno as [-> | ->]; [reflexivity | now rewrite Bool.andb_false_r].
  - intros u Hu. cbn [body_url body_text]. now rewrite Hu.
  - intros text Hmodel Htext Hne.
    assert (Hgiven : given (body_text b) = true).
    { rewrite Htext. simpl. now destruct (String.eqb_spec text ""). }
    rewrite Hgiven, Hmodel, Bool.andb_false_r, enhanceWithGemini_returns, Htext. simpl.
    split.
    + intros t -> Ht. simpl. unfold param_or. now destruct (String.eqb_spec t "").
    + intros [[err ->] | ->]; reflexivity.
  - intros Hmodel Hgiven. rewrite Hmodel.
    destruct Hgiven as [-> | ->]; [reflexivity | now rewrite Bool.andb_false_r].
Qed.


(** ** The fallback table over the life of the process *)



Lemma assoc_update_array (k key : string) (f : list Article.t -> list Article.t)
    (news : list (string * list Article.t)) :
  assoc k (update_array key f news)
  = if String.eqb k key then f <$> assoc k news else assoc k news.
Proof.
  unfold update_array. induction news as [|[k' l] rest IH]; simpl.
  - now destruct (String.eqb k key).
  - destruct (String.eqb_spec k' key) as [->|Hne]; simpl.
    + destruct (String.eqb k key); [reflexivity | exact IH].
    + destruct (String.eqb_spec k k') as [->|Hk]; [|exact IH].
      now destruct (String.eqb_spec k' key).
Qed.

(** X28.  When [getNews] substitutes the fallback list of a category the
    table knows, it sorts the array of the table itself: afterwards the
    table holds that array sorted and, when a summarizer is configured and
    the page is not empty, with the summaries written into the records of
    the page; the arrays of the other categories are untouched. *)
Theorem substitution_sorts_the_table (w : world) (q : Query.t) (s : state)
    (l : list Article.t) :
  cache_failure w = None ->
  fst (NodeCache.get (clock_get w) (news_cacheKey q) (cache s)) = None ->
  news_requests q <> [] ->
  dedup_by_url (fst (fetch_all w (news_requests q))) = [] ->
  assoc (news_category q) (news s) = Some l ->
  let page := slice_to (Array_sort l) (news_pageSize q) in
  response_items (response_of (getNews w q s)) = page
  /\ assoc (news_category q) (news (state_of (getNews w q s)))
     = Some (if geminiModel env && negb (length page =? 0)%nat
             then enrich w (length (take 5 page)) (Array_sort l)
             else Array_sort l)
  /\ (forall k, k <> news_category q ->
        assoc k (news (state_of (getNews w q s))) = assoc k (news s)).
Proof.
  intros Hw Hmiss Hreq Hempty Hl page.
  assert (Hfb : fallback_for (news s) (news_category q) = DArr l)
    by (unfold fallback_for, obj_lookup; now rewrite Hl).
  assert (Hkey : fallback_key (news s) (news_category q) = news_category q)
    by (unfold fallback_key; now rewrite Hl).
  unfold response_of, state_of, getNews, getNews_try, cache_get. cbv zeta. rewrite Hw.
  destruct (NodeCache.get (clock_get w) (news_cacheKey q) (cache s)) as [cached c1].
  cbn [fst] in Hmiss. subst cached.
  destruct (fetch_all w (news_requests q)) as [merged log]. cbn [fst] in Hempty.
  rewrite Hempty.
  destruct (news_requests q) as [|r rs]; [congruence|].
  cbn [length Nat.eqb andb]. rewrite Hfb, Hkey. fold page.
  unfold response_items, field, res_json. cbn [fst snd news body assoc String.eqb data_items].
  split; [reflexivity|].
  destruct (geminiModel env && negb (length page =? 0)%nat); split.
  - rewrite !assoc_update_array, String.eqb_refl, Hl. reflexivity.
  - intros k Hk. rewrite !assoc_update_array.
    now destruct (String.eqb_spec k (news_category q)).
  - rewrite !assoc_update_array, String.eqb_refl, Hl. reflexivity.
  - intros k Hk. rewrite !assoc_update_array.
    now destruct (String.eqb_spec k (news_category q)).
Qed.

(** ** What a live answer leaves behind *)

(** X29.  A live answer is stored as it is returned: after a call that
    answered with fresh results ([fromCache = false], not marked
    [isFallback]), the cache holds, under the key of the request, exactly
    the list the answer carries, to expire the configured TTL after the
    time of storing. *)
Theorem live_answer_is_what_is_stored (w : world) (q : Query.t) (s : state) :
  (field (response_of (getNews w q s)) "fromCache" = Some (FBool false) ->
   field (response_of (getNews w q s)) "isFallback" = None ->
   cache (state_of (getNews w q s)) !! news_cacheKey q
   = Some {| NodeCache.v := response_items (response_of (getNews w q s));
             NodeCache.t := NodeCache.livetime (NodeCache.stdTTL env) (clock_set w) |})
  /\ (field (response_of (getLocalNews w q s)) "fromCache" = Some (FBool false) ->
      cache (state_of (getLocalNews w q s)) !! local_cacheKey q
      = Some {| NodeCache.v := response_items (response_of (getLocalNews w q s));
                NodeCache.t := NodeCache.livetime (NodeCache.stdTTL env) (clock_set w) |}).
Proof.
  split.
  - unfold response_of, state_of, getNews, getNews_try, cache_get. walk_handler;
      unfold response_items, field, res_json, getNews_catch; simpl; try discriminate;
      intros _ _; unfold NodeCache.set; apply lookup_insert_eq.
  - unfold response_of, state_of, getLocalNews, getLocalNews_try, cache_get. walk_handler;
      unfold response_items, field, res_json, getLocalNews_catch; simpl; try discriminate;
      intros _; unfold NodeCache.set; apply lookup_insert_eq.
Qed.

(** ** The search text in the provider urls *)

Lemma encodeURIComponent_cons (c : ascii) (t : string) :
  encodeURIComponent (String c t)
  = encodeURIComponent (String c EmptyString) ++ encodeURIComponent t.
Proof. cbn [encodeURIComponent]. now destruct (uri_unreserved c). Qed.

Lemma encoded_char_plain (c x : ascii) :
  In x [ "&"; "="; "?"; "#"; "/"; " "; "+" ]%char ->
  has_char x (encodeURIComponent (String c EmptyString)) = false.
Proof.
  intros Hx. simpl in Hx.
  repeat (destruct Hx as [<-|Hx];
          [destruct c as [[] [] [] [] [] [] [] []]; vm_compute; reflexivity|]).
  contradiction.
Qed.

Lemma encodeURIComponent_plain (s : string) (x : ascii) :
  In x [ "&"; "="; "?"; "#"; "/"; " "; "+" ]%char ->
  has_char x (encodeURIComponent s) = false.
Proof.
  intros Hx. induction s as [|c t IH]; [reflexivity|].
  now rewrite encodeURIComponent_cons, has_char_app, encoded_char_plain, IH.
Qed.

(** X30.  In every provider request, the search text is percent-encoded
    into the one parameter [q]: its encoding holds none of the characters
    that delimit the parameters of a url, so that no category or location
    can add or change a parameter; GNews is asked for at most 10 articles
    and the Guardian for at most 20, whatever the page size; and a request
    is built only for a provider whose key is configured. *)
Theorem search_text_stays_in_its_parameter (searchQuery : string) (page pageSize : num)
    (r : Req.t) :
  In r (buildAPIRequests env searchQuery page pageSize) ->
  (forall x, In x [ "&"; "="; "?"; "#"; "/"; " "; "+" ]%char ->
             has_char x (encodeURIComponent searchQuery) = false)
  /\ ((Req.provider r = "gnews"
       /\ key_configured (GNEWS_API_KEY env) "your_gnews_api_key_here" = true
       /\ Req.url r
          = "https://gnews.io/api/v4/search?q=" ++ encodeURIComponent searchQuery
            ++ "&lang=en&max=" ++ num_to_string (Math_min 10 pageSize)
            ++ "&page=" ++ num_to_string page
            ++ "&token=" ++ default "" (GNEWS_API_KEY env)
       /\ forall z, pageSize = Some z ->
            exists m, Math_min 10 pageSize = Some m /\ m <= 10 /\ m <= z)
      \/ (Req.provider r = "guardian"
          /\ key_configured (GUARDIAN_API_KEY env) "your_guardian_api_key_here" = true
          /\ Req.url r
             = "https://content.guardianapis.com/search?api-key="
               ++ default "" (GUARDIAN_API_KEY env)
               ++ "&q=" ++ encodeURIComponent searchQuery
               ++ "&show-fields=trailText,thumbnail,bodyText&page=" ++ num_to_string page
               ++ "&page-size=" ++ num_to_string (Math_min 20 pageSize)
          /\ forall z, pageSize = Some z ->
               exists m, Math_min 20 pageSize = Some m /\ m <= 20 /\ m <= z)).
Proof.
  intros Hin. split; [intros x; apply encodeURIComponent_plain|].
  assert (Hmin : forall hi z, pageSize = Some z ->
                   exists m, Math_min hi pageSize = Some m /\ m <= hi /\ m <= z).
  { intros hi z ->. exists (Z.min hi z). simpl. repeat split; lia. }
  unfold buildAPIRequests in Hin.
  destruct (key_configured (GNEWS_API_KEY env) _) eqn:Hg,
           (key_configured (GUARDIAN_API_KEY env) _) eqn:Hu;
    simpl in Hin;
    repeat (destruct Hin as [<-|Hin];
            [(left; repeat split; auto; fail) || (right; repeat split; auto; fail)|]);
    contradiction.
Qed.

End Controller.

(** * The statements on concrete inputs *)

(** ** C6 *)

(** C6, as stated, fails: two applications of the adapter to the same
    item, which has no url and no date, give different outputs. *)
Lemma normalizeArticle_not_deterministic :
  ~ (forall source raw e1 e2,
        normalizeArticle source e1 raw = normalizeArticle source e2 raw).
Proof.
  intros H. specialize (H "gnews" (JObj []) (readings_at 0) readings_later).
  vm_compute in H. discriminate H.
Qed.

Lemma normalizeArticle_deterministic_self_identified_witness :
  normalizeArticle "guardian" (readings_at 0)
    (guardian_item (JStr "world/a") (JStr "https://g.example/a") 3)
  = normalizeArticle "guardian" readings_later
      (guardian_item (JStr "world/a") (JStr "https://g.example/a") 3).
Proof.
  apply normalizeArticle_deterministic_self_identified. reflexivity.
Defined.

(** ** C8 *)

Lemma fetchWithRetry_policy_witness :
  fst (fetchWithRetry numbered_failures "https://gnews.io/api/v4/search" no_options 2)
  = Throw "failure 2"
  /\ attempts (snd (fetchWithRetry numbered_failures "https://gnews.io/api/v4/search"
                                   no_options 2)) = 3%nat.
Proof.
  destruct (fetchWithRetry_policy numbered_failures "https://gnews.io/api/v4/search"
                                  no_options 2) as (_ & _ & _ & _ & H & _).
  destruct H as (err & H1 & H2 & H3).
  - intros j _. eexists. reflexivity.
  - vm_compute in H1. injection H1 as <-. split; assumption.
Defined.

(** two failures, then a success: three calls, waits of 1000 and 2000 ms *)
Example fetchWithRetry_flaky :
  fetchWithRetry flaky "u" no_options 2
  = (Ret (JObj []),
     [ Axios (axios_request "u" no_options); Sleep 1000;
       Axios (axios_request "u" no_options); Sleep 2000;
       Axios (axios_request "u" no_options) ]).
Proof. reflexivity. Qed.

(** ** C2 *)



(** ** C7 *)

Lemma pageSize_clamped_and_validated_witness :
  (length (response_items
             (response_of
                (getNews sample_Date_value env_two_keys (sample_world (gnews_down three_distinct) 0 10 None)
                          (Query.mk None None (Some "500") None) (boot sample_loaded_at)))) <= 50)%nat
  /\ status (response_of
               (GET_news sample_Date_value env_two_keys (sample_world (gnews_down three_distinct) 0 10 None)
                          (Query.mk None None (Some "0") None) (boot sample_loaded_at))) = 400
  /\ log_of (GET_news sample_Date_value env_two_keys (sample_world (gnews_down three_distinct) 0 10 None)
                       (Query.mk None None (Some "-3") None) (boot sample_loaded_at)) = [].
Proof.
  split; [|split].
  - apply (pageSize_clamped_and_validated sample_Date_value sample_loaded_at env_two_keys
             (sample_world (gnews_down three_distinct) 0 10 None)
             (Query.mk None None (Some "500") None) (boot sample_loaded_at) (reachable_start sample_Date_value sample_loaded_at env_two_keys)).
  - destruct (pageSize_clamped_and_validated sample_Date_value sample_loaded_at env_two_keys
                (sample_world (gnews_down three_distinct) 0 10 None)
                (Query.mk None None (Some "0") None) (boot sample_loaded_at) (reachable_start sample_Date_value sample_loaded_at env_two_keys))
      as (_ & _ & H).
    apply (H "0" 0); [reflexivity | reflexivity | lia].
  - destruct (pageSize_clamped_and_validated sample_Date_value sample_loaded_at env_two_keys
                (sample_world (gnews_down three_distinct) 0 10 None)
                (Query.mk None None (Some "-3") None) (boot sample_loaded_at) (reachable_start sample_Date_value sample_loaded_at env_two_keys))
      as (_ & _ & H).
    apply (H "-3" (-3)); [reflexivity | reflexivity | lia].
Defined.

(** the route turns [pageSize=500] down; the controller alone clamps it *)
Example pageSize_500 :
  status (response_of
            (GET_news sample_Date_value env_two_keys (sample_world (gnews_down three_distinct) 0 10 None)
                       (Query.mk None None (Some "500") None) (boot sample_loaded_at))) = 400
  /\ field (response_of
              (getNews sample_Date_value env_two_keys (sample_world (gnews_down three_distinct) 0 10 None)
                        (Query.mk None None (Some "500") None) (boot sample_loaded_at))) "pageSize"
     = Some (FNum (Some 50)).
Proof. split; reflexivity. Qed.

(** ** C1 *)



(** ** C4 *)

(** C4, at the input where the code departs from it: without provider
    keys, the category ["constructor"] passes validation and gets the
    inherited [Object] function as [data] instead of the general list, so
    that the answer carries no article. *)
Lemma getNews_constructor_without_keys :
  status (response_of
            (GET_news sample_Date_value env_no_keys (sample_world all_down 0 10 None)
                        (query_category "constructor") (boot sample_loaded_at))) = 200
  /\ field (response_of
              (GET_news sample_Date_value env_no_keys (sample_world all_down 0 10 None)
                          (query_category "constructor") (boot sample_loaded_at))) "isFallback"
     = Some (FBool true)
  /\ field (response_of
              (GET_news sample_Date_value env_no_keys (sample_world all_down 0 10 None)
                          (query_category "constructor") (boot sample_loaded_at))) "data"
     = Some (FData (DFunction "constructor"))
  /\ response_items
       (response_of
          (GET_news sample_Date_value env_no_keys (sample_world all_down 0 10 None)
                      (query_category "constructor") (boot sample_loaded_at))) = [].
Proof. repeat split. Qed.

(** the scenario of the specification: the two technology records *)
Example getNews_technology_without_keys :
  response_of
    (GET_news sample_Date_value env_no_keys (sample_world all_down 0 10 None)
                (query_category "technology") (boot sample_loaded_at))
  = res_json
      [ ("ok", FBool true); ("fromCache", FBool false); ("isFallback", FBool true);
        ("category", FStr "technology");
        ("data", FData (DArr
           [ canned sample_loaded_at "fallback_tech_1"
               "AI Revolution Transforms Industries"
               "Artificial intelligence adoption accelerates across healthcare, finance, and manufacturing."
               "https://via.placeholder.com/600x400?text=AI" "Tech Daily" "technology";
             canned sample_loaded_at "fallback_tech_2"
               "Quantum Computing Breakthrough Announced"
               "Research teams achieve major milestone in quantum processor development."
               "https://via.placeholder.com/600x400?text=Quantum" "Tech Daily" "technology" ])) ].
Proof. reflexivity. Qed.

(** a category the table does not know gets the general list *)
Example getNews_unknown_category_without_keys :
  field (response_of
           (GET_news sample_Date_value env_no_keys (sample_world all_down 0 10 None)
                       (query_category "global-politics") (boot sample_loaded_at))) "data"
  = Some (FData (fallback_for (HARDCODED_DATA_news sample_loaded_at) "general")).
Proof. reflexivity. Qed.

Lemma getNews_without_keys_witness :
  exists l,
    getNews sample_Date_value env_no_keys (sample_world all_down 0 10 None) (query_category "Health") (boot sample_loaded_at)
    = (res_json [ ("ok", FBool true); ("fromCache", FBool false);
                  ("isFallback", FBool true); ("category", FStr "health");
                  ("data", FData (DArr l)) ],
       (boot sample_loaded_at), [])
    /\ l <> [].
Proof.
  destruct (getNews_without_keys sample_Date_value sample_loaded_at env_no_keys
              (sample_world all_down 0 10 None) (query_category "Health") (boot sample_loaded_at)
              eq_refl eq_refl (reachable_start sample_Date_value sample_loaded_at env_no_keys) eq_refl eq_refl)
    as (l & H1 & H2 & _).
  exists l. split; assumption.
Defined.

(** with providers configured and silent, the same category makes the
    aggregation itself throw, and the answer is the one of the [catch]
    block *)
Example getNews_constructor_error_path :
  fst (fst (getNews_try sample_Date_value env_two_keys (sample_world all_down 0 10 None)
              (query_category "constructor") (boot sample_loaded_at)))
  = Throw "TypeError: articles.sort is not a function"
  /\ response_of (getNews sample_Date_value env_two_keys (sample_world all_down 0 10 None)
                            (query_category "constructor") (boot sample_loaded_at))
     = res_json [ ("ok", FBool true); ("isFallback", FBool true);
                  ("error", FStr "Using fallback data due to server error");
                  ("category", FStr "constructor");
                  ("data", FData (DFunction "constructor")) ].
Proof. split; reflexivity. Qed.

(** ** C5 *)

(** C5, as stated, fails: without provider keys nothing is cached, and the
    second of two identical calls still reports [fromCache = false]. *)
Lemma repeated_call_without_keys_not_from_cache :
  state_of (getNews sample_Date_value env_no_keys (sample_world all_down 0 10 None)
                      (query_category "technology") (boot sample_loaded_at)) = (boot sample_loaded_at)
  /\ field (response_of
              (getNews sample_Date_value env_no_keys (sample_world all_down 20 30 None)
                 (query_category "technology")
                 (state_of (getNews sample_Date_value env_no_keys (sample_world all_down 0 10 None)
                                      (query_category "technology") (boot sample_loaded_at)))))
           "fromCache"
     = Some (FBool false).
Proof. split; reflexivity. Qed.

Lemma repeated_call_served_from_cache_witness :
  field (response_of
           (getNews sample_Date_value env_two_keys (sample_world all_down 20 30 None)
              (query_category "Technology")
              (state_of (getNews sample_Date_value env_two_keys
                           (sample_world (gnews_down three_distinct) 0 10 None)
                           (query_category "technology") (boot sample_loaded_at)))))
        "fromCache"
  = Some (FBool true)
  /\ field (response_of
              (getNews sample_Date_value env_two_keys (sample_world all_down 20 30 None)
                 (query_category "Technology")
                 (state_of (getNews sample_Date_value env_two_keys
                              (sample_world (gnews_down three_distinct) 0 10 None)
                              (query_category "technology") (boot sample_loaded_at)))))
           "data"
     = field (response_of
                (getNews sample_Date_value env_two_keys
                   (sample_world (gnews_down three_distinct) 0 10 None)
                   (query_category "technology") (boot sample_loaded_at)))
             "data".
Proof.
  destruct (repeated_call_served_from_cache sample_Date_value env_two_keys
              (sample_world (gnews_down three_distinct) 0 10 None)
              (sample_world all_down 20 30 None)
              (query_category "technology") (query_category "Technology") (boot sample_loaded_at))
    as (H1 & H2 & _); try reflexivity.
  - right. vm_compute. discriminate.
  - split; assumption.
Defined.

(** ** C3 *)



(** ** C10 *)

Lemma second_url_less_item_dropped_witness :
  exists a b,
    fst (fetch_all (sample_world (gnews_up two_without_url) 0 10 None)
                   (news_requests env_gnews_only (query_category "technology")))
    = [a; b]
    /\ Article.url a = JStr "#" /\ Article.url b = JStr "#"
    /\ Article.id a <> Article.id b
    /\ response_items
         (response_of
            (getNews sample_Date_value env_gnews_only (sample_world (gnews_up two_without_url) 0 10 None)
                       (query_category "technology") (boot sample_loaded_at))) = [a]
    /\ ~ In b (response_items
                 (response_of
                    (getNews sample_Date_value env_gnews_only
                       (sample_world (gnews_up two_without_url) 0 10 None)
                       (query_category "technology") (boot sample_loaded_at)))).
Proof.
  do 2 eexists. split; [vm_compute; reflexivity|].
  split; [reflexivity|]. split; [reflexivity|]. split; [discriminate|].
  split; [reflexivity|].
  eapply (second_url_less_item_dropped sample_Date_value env_gnews_only
            (sample_world (gnews_up two_without_url) 0 10 None)
            (query_category "technology") (boot sample_loaded_at) [] [] []).
  - reflexivity.
  - reflexivity.
  - discriminate.
  - vm_compute. reflexivity.
  - reflexivity.
  - reflexivity.
  - discriminate.
  - constructor.
Defined.

(** ** The fallback table as shared state *)

(** With providers configured and silent, [getNews] returns the records of
    the table; the enrichment then writes to those very records, so that
    the table holds the summaries afterwards, while the answer and the
    cached copy were taken before. *)
Example enrichment_writes_to_the_table :
  map Article.aiSummary
      (response_items
         (response_of (getNews sample_Date_value env_two_keys_and_gemini summarizing_world
                                 (query_category "technology") (boot sample_loaded_at))))
  = [JUndefined; JUndefined]
  /\ (map Article.aiSummary <$>
        assoc "technology"
              (news (state_of (getNews sample_Date_value env_two_keys_and_gemini summarizing_world
                                         (query_category "technology") (boot sample_loaded_at)))))
     = Some [JStr "A summary."; JStr "A summary."]
  /\ (map Article.aiSummary <$>
        assoc "sports"
              (news (state_of (getNews sample_Date_value env_two_keys_and_gemini summarizing_world
                                         (query_category "technology") (boot sample_loaded_at)))))
     = Some [JUndefined; JUndefined].
Proof. repeat split. Qed.

(** * The further properties on concrete inputs *)

Lemma normalizeArticle_fields_filled_witness :
  exists a,
    normalizeArticle "gnews" (readings_at 0) (JObj []) = Ret (Some a)
    /\ truthy (Article.id a) = true
    /\ truthy (Article.publishedAt a) = true
    /\ Article.aiSummary a = JNull.
Proof.
  eexists. split; [vm_compute; reflexivity|].
  edestruct (normalizeArticle_fields_filled "gnews" (readings_at 0) (JObj []))
    as (Hid & _ & _ & _ & _ & Hdate & _ & _ & Hsum).
  - discriminate.
  - vm_compute. reflexivity.
  - split; [exact Hid | split; [exact Hdate | exact Hsum]].
Defined.


Lemma provider_task_provenance_witness :
  exists a,
    In a (fst (provider_task (sample_world (gnews_down three_distinct) 0 10 None)
                 (Req.mk "guardian" "https://content.guardianapis.com/search?api-key=uk")))
    /\ exists data items k raw,
         fst (fetchWithRetry (gnews_down three_distinct)
                "https://content.guardianapis.com/search?api-key=uk" no_options 2)
         = Ret data
         /\ opt_chain (opt_chain data "response") "results" = JArr items
         /\ items !! k = Some raw
         /\ normalizeArticle "guardian" (readings_at k) raw = Ret (Some a).
Proof.
  eexists. split; [vm_compute; left; reflexivity|].
  edestruct (provider_task_provenance
               (sample_world (gnews_down three_distinct) 0 10 None)
               (Req.mk "guardian" "https://content.guardianapis.com/search?api-key=uk"))
    as (data & items & k & raw & Hdata & Hshape & Hk & Hraw).
  - vm_compute. left. reflexivity.
  - exists data, items, k, raw.
    destruct Hshape as [[Hp _] | [_ Hitems]]; [discriminate Hp|].
    split; [exact Hdata | split; [exact Hitems | split; [exact Hk | exact Hraw]]].
Defined.

Lemma merge_prefers_first_provider_witness :
  dedup_by_url
    ([ sample_article "a" "https://n.example/a" 3; sample_article "b" "https://n.example/b" 2 ]
     ++ [ sample_article "world/b" "https://n.example/b" 2;
          sample_article "world/c" "https://n.example/c" 1 ])
  = [ sample_article "a" "https://n.example/a" 3; sample_article "b" "https://n.example/b" 2;
      sample_article "world/c" "https://n.example/c" 1 ].
Proof.
  rewrite merge_prefers_first_provider; [reflexivity | |];
    repeat constructor.
Defined.

Lemma Array_sort_newest_first_witness :
  newest_first sample_Date_value
    (Array_sort sample_Date_value
       [ sample_article "a" "https://n.example/a" 1; sample_article "b" "https://n.example/b" 3;
         sample_article "c" "https://n.example/c" 2 ])
  /\ Array_sort sample_Date_value
       (Array_sort sample_Date_value
          [ sample_article "a" "https://n.example/a" 1;
            sample_article "b" "https://n.example/b" 3;
            sample_article "c" "https://n.example/c" 2 ])
     = Array_sort sample_Date_value
         [ sample_article "a" "https://n.example/a" 1;
           sample_article "b" "https://n.example/b" 3;
           sample_article "c" "https://n.example/c" 2 ].
Proof.
  destruct (Array_sort_newest_first sample_Date_value
              [ sample_article "a" "https://n.example/a" 1;
                sample_article "b" "https://n.example/b" 3;
                sample_article "c" "https://n.example/c" 2 ])
    as (H1 & _ & H3).
  - repeat (apply List.Forall_cons; [eexists; reflexivity|]). apply List.Forall_nil.
  - split; [exact H1 | exact H3].
Defined.

Lemma live_answers_newest_first_witness :
  newest_first sample_Date_value
    (response_items
       (response_of
          (getNews sample_Date_value env_two_keys (sample_world (gnews_down three_distinct) 0 10 None)
                     (query_category "technology") (boot sample_loaded_at)))).
Proof.
  destruct (live_answers_newest_first sample_Date_value env_two_keys
              (sample_world (gnews_down three_distinct) 0 10 None)
              (query_category "technology") (boot sample_loaded_at) eq_refl)
    as [H _].
  apply H.
  - reflexivity.
  - vm_compute. discriminate.
  - vm_compute. discriminate.
  - unfold dated. vm_compute.
    repeat (apply List.Forall_cons; [eexists; reflexivity|]). apply List.Forall_nil.
Defined.

Lemma getLocalNews_silent_providers_witness :
  response_of
    (getLocalNews sample_Date_value env_two_keys (sample_world all_down 0 10 None)
                    (Query.mk None None None (Some "Pune")) (boot sample_loaded_at))
  = res_json [ ("ok", FBool true); ("fromCache", FBool false); ("location", FStr "pune");
               ("total", FNum (Some 0)); ("data", FData (DArr [])) ]
  /\ response_of
       (getLocalNews sample_Date_value env_two_keys (sample_world (gnews_up three_distinct) 20 30 None)
          (Query.mk None None None (Some " PUNE "))
          (state_of (getLocalNews sample_Date_value env_two_keys (sample_world all_down 0 10 None)
                                    (Query.mk None None None (Some "Pune")) (boot sample_loaded_at))))
     = res_json [ ("ok", FBool true); ("fromCache", FBool true); ("location", FStr "pune");
                  ("data", FData (DArr [])) ].
Proof.
  destruct (getLocalNews_silent_providers sample_Date_value env_two_keys
              (sample_world all_down 0 10 None)
              (sample_world (gnews_up three_distinct) 20 30 None)
              (Query.mk None None None (Some "Pune"))
              (Query.mk None None None (Some " PUNE ")) (boot sample_loaded_at))
    as (H1 & H2 & _).
  - reflexivity.
  - reflexivity.
  - vm_compute. discriminate.
  - intros r i _ _. eexists. reflexivity.
  - reflexivity.
  - reflexivity.
  - right. vm_compute. discriminate.
  - split; [exact H1 | exact H2].
Defined.

Lemma getNews_silent_providers_witness :
  field (response_of
           (getNews sample_Date_value env_two_keys (sample_world all_down 0 10 None)
                      (query_category "technology") (boot sample_loaded_at))) "isFallback" = None
  /\ field (response_of
              (getNews sample_Date_value env_two_keys (sample_world (gnews_up three_distinct) 20 30 None)
                 (query_category "technology")
                 (state_of (getNews sample_Date_value env_two_keys (sample_world all_down 0 10 None)
                                      (query_category "technology") (boot sample_loaded_at)))))
           "fromCache"
     = Some (FBool true).
Proof.
  destruct (getNews_silent_providers sample_Date_value sample_loaded_at env_two_keys
              (sample_world all_down 0 10 None)
              (sample_world (gnews_up three_distinct) 20 30 None)
              (query_category "technology") (query_category "technology") (boot sample_loaded_at)
              (reachable_start sample_Date_value sample_loaded_at env_two_keys))
    as (l & l0 & _ & _ & _ & _ & H5 & _ & H7 & _).
  - reflexivity.
  - reflexivity.
  - vm_compute. discriminate.
  - intros r i _ _. eexists. reflexivity.
  - reflexivity.
  - reflexivity.
  - reflexivity.
  - right. vm_compute. discriminate.
  - split; [exact H5 | exact H7].
Defined.

Lemma expired_entry_is_recomputed_witness :
  field (response_of
           (getNews sample_Date_value env_two_keys (sample_world all_down 400000 400010 None)
              (query_category "technology")
              (state_of (getNews sample_Date_value env_two_keys
                           (sample_world (gnews_down three_distinct) 0 10 None)
                           (query_category "technology") (boot sample_loaded_at)))))
        "fromCache"
  <> Some (FBool true).
Proof.
  apply (expired_entry_is_recomputed sample_Date_value env_two_keys
           (sample_world (gnews_down three_distinct) 0 10 None)
           (sample_world all_down 400000 400010 None)
           (query_category "technology") (query_category "technology") (boot sample_loaded_at)).
  - reflexivity.
  - reflexivity.
  - reflexivity.
  - reflexivity.
  - replace (NodeCache.stdTTL env_two_keys) with (Some 300) by reflexivity.
    simpl. lia.
Defined.

Lemma local_pageSize_clamped_and_validated_witness :
  (length (response_items
             (response_of
                (getLocalNews sample_Date_value env_two_keys
                   (sample_world (gnews_down three_distinct) 0 10 None)
                   (Query.mk None None (Some "500") (Some "Pune")) (boot sample_loaded_at)))) <= 20)%nat
  /\ status (response_of
               (GET_news_local sample_Date_value env_two_keys
                  (sample_world (gnews_down three_distinct) 0 10 None)
                  (Query.mk None None (Some "21") (Some "Pune")) (boot sample_loaded_at))) = 400.
Proof.
  split.
  - apply (local_pageSize_clamped_and_validated sample_Date_value sample_loaded_at
             env_two_keys (sample_world (gnews_down three_distinct) 0 10 None)
             (Query.mk None None (Some "500") (Some "Pune")) (boot sample_loaded_at) (reachable_start sample_Date_value sample_loaded_at env_two_keys)).
  - destruct (local_pageSize_clamped_and_validated sample_Date_value sample_loaded_at
                env_two_keys (sample_world (gnews_down three_distinct) 0 10 None)
                (Query.mk None None (Some "21") (Some "Pune")) (boot sample_loaded_at) (reachable_start sample_Date_value sample_loaded_at env_two_keys))
      as (_ & _ & H).
    apply (H "21" 21). left. split; [reflexivity | split; [reflexivity | lia]].
Defined.



Lemma getLocalNews_without_keys_witness :
  getLocalNews sample_Date_value env_no_keys (sample_world all_down 0 10 None)
                 (Query.mk None None None (Some "Jaipur")) (boot sample_loaded_at)
  = (res_json [ ("ok", FBool true); ("isFallback", FBool true);
                ("location", FStr (local_location (Query.mk None None None (Some "Jaipur"))));
                ("data", FData (DArr
                   [ local_fallback (sample_world all_down 0 10 None)
                       (local_location (Query.mk None None None (Some "Jaipur"))) ])) ],
     (boot sample_loaded_at), []).
Proof.
  apply (getLocalNews_without_keys sample_Date_value sample_loaded_at env_no_keys
           (sample_world all_down 0 10 None) (Query.mk None None None (Some "Jaipur")) (boot sample_loaded_at)
           eq_refl eq_refl (reachable_start sample_Date_value sample_loaded_at env_no_keys) eq_refl).
Defined.


Lemma substitution_sorts_the_table_witness :
  assoc "sports"
    (news (state_of (getNews sample_Date_value env_two_keys_and_gemini summarizing_world
                               (query_category "technology") (boot sample_loaded_at))))
  = assoc "sports" (HARDCODED_DATA_news sample_loaded_at).
Proof.
  edestruct (substitution_sorts_the_table sample_Date_value env_two_keys_and_gemini
               summarizing_world (query_category "technology") (boot sample_loaded_at))
    as (_ & _ & H).
  - reflexivity.
  - reflexivity.
  - vm_compute. discriminate.
  - vm_compute. reflexivity.
  - reflexivity.
  - apply H. vm_compute. discriminate.
Defined.

Lemma search_text_stays_in_its_parameter_witness :
  In (Req.mk "gnews"
        "https://gnews.io/api/v4/search?q=technology%20AI%20innovation&lang=en&max=10&page=1&token=gk")
     (news_requests env_two_keys (Query.mk (Some "technology") None (Some "30") None))
  /\ has_char "&" (encodeURIComponent "technology AI innovation") = false.
Proof.
  split; [vm_compute; left; reflexivity|].
  destruct (search_text_stays_in_its_parameter env_two_keys "technology AI innovation"
              (Some 1) (Some 30)
              (Req.mk "gnews"
                 "https://gnews.io/api/v4/search?q=technology%20AI%20innovation&lang=en&max=10&page=1&token=gk"))
    as (Hplain & _).
  - vm_compute. left. reflexivity.
  - apply Hplain. left. reflexivity.
Defined.
